(** * Query understanding core of the transaction RAG service

    A shallow embedding of the pure and cache-handling parts of the
    [aiservice] Python package:
    - [app/utils/filters.py]   : [apply_filters] and the amount section of
                                 [extract_filters_from_query];
    - [app/utils/query_mode.py]: [detect_query_mode], [calculate_statistics];
    - [app/utils/cache.py]     : the TTL query cache;
    - [app/api/transactions.py]: the pagination block and the cache path of
                                 the [/prompt] endpoint.

    Modelling conventions.
    - Strings are byte strings ([String.string]); Python's [lower]/[upper]
      are modelled on ASCII letters, every other byte is left unchanged.
      The regex classes [\w], [\s], [\d] and word boundaries are likewise
      the ASCII ones: on text all of whose characters are ASCII ([ascii_only])
      they coincide with Python's, beyond it Python's Unicode classes differ.
    - Python numbers ([int]/[float]) are exact rationals [Q]; datetimes are
      integers counting microseconds.
    - JSON-like values held in a transaction dict are [pyval]; a record is
      the dict itself, an association list from keys to values.
    - Exceptions are the constructors of [exn]; a computation that may raise
      returns a [result]. *)

From Stdlib Require Import String Ascii List ZArith QArith Lia Bool.
From Stdlib Require Import Sorted Permutation.
From stdpp Require Import base gmap strings.
Import ListNotations.

Open Scope Z_scope.

(* ------------------------------------------------------------------ *)
(** ** Python values, exceptions and the error monad *)

Inductive exn : Type :=
| ValueError
| TypeError
| AttributeError
| IndexError.

Inductive result (A : Type) : Type :=
| Ok (a : A)
| Raise (e : exn).
Arguments Ok {A} a.
Arguments Raise {A} e.

Definition bind {A B} (m : result A) (k : A -> result B) : result B :=
  match m with
  | Ok a => k a
  | Raise e => Raise e
  end.

Notation "'let*' x ':=' m 'in' k" := (bind m (fun x => k))
  (at level 200, x name, m at level 100, k at level 200).

#[local] Set Warnings "-register-all".

(** Values found in the transaction dicts received as JSON. *)
Inductive pyval : Type :=
| PStr (s : string)
| PNum (q : Q)
| PBool (b : bool)
| PNone
| PList (l : list pyval)
| PDict (kv : list (string * pyval)).

(** A transaction record ([Dict[str, Any]]). *)
Definition record := list (string * pyval).

(** [d.get(k, default)] *)
Fixpoint py_get (d : record) (k : string) (default : pyval) : pyval :=
  match d with
  | [] => default
  | (k', v) :: d' => if String.eqb k k' then v else py_get d' k default
  end.

(** Python truthiness of a value. *)
Definition truthy (v : pyval) : bool :=
  match v with
  | PStr s => negb (String.eqb s "")
  | PNum q => negb (Qeq_bool q 0)
  | PBool b => b
  | PNone => false
  | PList l => negb (Nat.eqb (length l) 0)
  | PDict kv => negb (Nat.eqb (length kv) 0)
  end.

(** [filterM]: a list comprehension [[d for d in l if p(d)]] whose
    condition may raise; the first exception aborts the comprehension. *)
Fixpoint filterM {A} (p : A -> result bool) (l : list A) : result (list A) :=
  match l with
  | [] => Ok []
  | x :: l' =>
      let* b := p x in
      let* r := filterM p l' in
      Ok (if b then x :: r else r)
  end.

Fixpoint mapM {A B} (f : A -> result B) (l : list A) : result (list B) :=
  match l with
  | [] => Ok []
  | x :: l' =>
      let* y := f x in
      let* r := mapM f l' in
      Ok (y :: r)
  end.

(* ------------------------------------------------------------------ *)
(** ** Characters and strings *)

Definition is_digit (c : ascii) : bool :=
  let n := nat_of_ascii c in (48 <=? n)%nat && (n <=? 57)%nat.

Definition is_upper (c : ascii) : bool :=
  let n := nat_of_ascii c in (65 <=? n)%nat && (n <=? 90)%nat.

Definition is_lower (c : ascii) : bool :=
  let n := nat_of_ascii c in (97 <=? n)%nat && (n <=? 122)%nat.

(** Python's [\s] / [str.isspace] on the ASCII range:
    [\t \n \v \f \r], the separators [\x1c]-[\x1f] and the space. *)
Definition is_space (c : ascii) : bool :=
  let n := nat_of_ascii c in
  ((9 <=? n)%nat && (n <=? 13)%nat) || ((28 <=? n)%nat && (n <=? 32)%nat).

(** Python's [\w]: ASCII letters, digits and underscore; a byte above 127
    belongs to a multi-byte letter and counts as a word character. *)
Definition is_word (c : ascii) : bool :=
  is_digit c || is_upper c || is_lower c || Ascii.eqb c "_"%char
  || (128 <=? nat_of_ascii c)%nat.

Definition lower_char (c : ascii) : ascii :=
  if is_upper c then ascii_of_nat (nat_of_ascii c + 32) else c.

Definition upper_char (c : ascii) : ascii :=
  if is_lower c then ascii_of_nat (nat_of_ascii c - 32) else c.

(** [s.lower()], [s.upper()] *)
Definition lower (s : string) : string :=
  string_of_list_ascii (List.map lower_char (list_ascii_of_string s)).

Definition upper (s : string) : string :=
  string_of_list_ascii (List.map upper_char (list_ascii_of_string s)).

(** A string all of whose characters are ASCII (code points below 128):
    the text on which the byte-level [lower], [is_word], [is_space] and
    [is_digit] above coincide with Python's [str.lower], [\w], [\s] and
    [\d]. *)
Definition ascii_only (s : string) : bool :=
  forallb (fun c => (nat_of_ascii c <? 128)%nat) (list_ascii_of_string s).

(** [sub in s] for strings *)
Fixpoint prefixb (p s : list ascii) : bool :=
  match p, s with
  | [], _ => true
  | c :: p', c' :: s' => Ascii.eqb c c' && prefixb p' s'
  | _ :: _, [] => false
  end.

Fixpoint containsb (p s : list ascii) : bool :=
  prefixb p s || match s with [] => false | _ :: s' => containsb p s' end.

Definition str_in (sub s : string) : bool :=
  containsb (list_ascii_of_string sub) (list_ascii_of_string s).

(** [s.split()]: maximal runs of non-whitespace characters. *)
Fixpoint split_words_aux (l : list ascii) (cur : list ascii)
    : list (list ascii) :=
  match l with
  | [] => match cur with [] => [] | _ => [rev cur] end
  | c :: l' =>
      if is_space c then
        match cur with
        | [] => split_words_aux l' []
        | _ => rev cur :: split_words_aux l' []
        end
      else split_words_aux l' (c :: cur)
  end.

Definition py_split (s : string) : list string :=
  List.map string_of_list_ascii (split_words_aux (list_ascii_of_string s) []).

(* ------------------------------------------------------------------ *)
(** ** [float(x)] *)

Fixpoint take_digits (l : list ascii) : list ascii * list ascii :=
  match l with
  | c :: l' =>
      if is_digit c then let (ds, r) := take_digits l' in (c :: ds, r)
      else ([], l)
  | [] => ([], [])
  end.

Definition digit_val (c : ascii) : Z := Z.of_nat (nat_of_ascii c - 48).

Definition digits_value (ds : list ascii) : Z :=
  fold_left (fun acc d => acc * 10 + digit_val d) ds 0.

Fixpoint drop_spaces (l : list ascii) : list ascii :=
  match l with
  | c :: l' => if is_space c then drop_spaces l' else l
  | [] => []
  end.

(** [s.strip()] *)
Definition strip_spaces (l : list ascii) : list ascii :=
  rev (drop_spaces (rev (drop_spaces l))).

Definition take_sign (l : list ascii) : Z * list ascii :=
  match l with
  | "-"%char :: l' => (-1, l')
  | "+"%char :: l' => (1, l')
  | _ => (1, l)
  end.

(** Decimal value [sign * m * 10^e] as a rational. *)
Definition dec_to_Q (m : Z) (e : Z) : Q :=
  if 0 <=? e then inject_Z (m * 10 ^ e)
  else Qmake m (Z.to_pos (10 ^ (- e))).

(** The decimal literals accepted by Python's [float(str)]: surrounding
    whitespace, an optional sign, digits with an optional fraction and an
    optional exponent.  The special spellings [inf], [nan] and digit
    separators [_] are outside the model (they are rejected). *)
Definition py_float_of_string (s : string) : option Q :=
  let l := strip_spaces (list_ascii_of_string s) in
  let (sgn, l1) := take_sign l in
  let (ip, l2) := take_digits l1 in
  let '(fp, l3) :=
    match l2 with
    | "."%char :: r => take_digits r
    | _ => ([], l2)
    end in
  match ip, fp with
  | [], [] => None
  | _, _ =>
      let m := sgn * digits_value (ip ++ fp) in
      let fl := Z.of_nat (length fp) in
      match l3 with
      | [] => Some (dec_to_Q m (- fl))
      | c :: r =>
          if Ascii.eqb c "e"%char || Ascii.eqb c "E"%char then
            let (esg, r1) := take_sign r in
            let (eds, r2) := take_digits r1 in
            match eds, r2 with
            | _ :: _, [] => Some (dec_to_Q m (esg * digits_value eds - fl))
            | _, _ => None
            end
          else None
      end
  end.

(** [a < b] on numbers. *)
Definition Qlt_bool (a b : Q) : bool := negb (Qle_bool b a).

(** [float(v)] *)
Definition py_float (v : pyval) : result Q :=
  match v with
  | PNum q => Ok q
  | PBool b => Ok (if b then 1%Q else 0%Q)
  | PStr s =>
      match py_float_of_string s with
      | Some q => Ok q
      | None => Raise ValueError
      end
  | PNone | PList _ | PDict _ => Raise TypeError
  end.

(** [float(d.get('amount', 0))] *)
Definition amount_of (d : record) : result Q :=
  py_float (py_get d "amount" (PNum 0)).

(* ------------------------------------------------------------------ *)
(** ** Regular expressions ([re.search])

    A backtracking matcher in continuation-passing style over the byte
    list of the subject.  [re_match fuel s r i k] tries [r] at position
    [i] and calls [k] on every end position a match of [r] can reach.
    Only the existence of a match is observed by the code ([re.search]
    used as a truth value), so greedy and lazy quantifiers coincide. *)
Inductive regex : Type :=
| REps
| RLit (w : list ascii)
| RClass (p : ascii -> bool)
| RAny
| RBound
| RSeq (r1 r2 : regex)
| RAlt (r1 r2 : regex)
| RStar (r : regex).

(** [\b]: the word-character status changes between [i-1] and [i]. *)
Definition at_boundary (s : list ascii) (i : nat) : bool :=
  let before :=
    match i with
    | O => false
    | S j => match nth_error s j with Some c => is_word c | None => false end
    end in
  let after := match nth_error s i with Some c => is_word c | None => false end in
  xorb before after.

(** [r*] given the matcher [m] of [r]: stop here, or take one more
    iteration that consumes at least one character ([n] bounds the number
    of iterations). *)
Fixpoint re_star (m : nat -> (nat -> bool) -> bool) (k : nat -> bool)
    (n i : nat) : bool :=
  k i ||
  match n with
  | O => false
  | S n' => m i (fun j => (i <? j)%nat && re_star m k n' j)
  end.

Fixpoint re_match (fuel : nat) (s : list ascii) (r : regex) (i : nat)
    (k : nat -> bool) : bool :=
  match r with
  | REps => k i
  | RLit w => prefixb w (skipn i s) && k (i + length w)%nat
  | RClass p =>
      match nth_error s i with Some c => p c && k (S i) | None => false end
  | RAny =>
      match nth_error s i with
      | Some c => negb (Ascii.eqb c "010"%char) && k (S i)
      | None => false
      end
  | RBound => at_boundary s i && k i
  | RSeq r1 r2 => re_match fuel s r1 i (fun j => re_match fuel s r2 j k)
  | RAlt r1 r2 => re_match fuel s r1 i k || re_match fuel s r2 i k
  | RStar r1 => re_star (fun i k' => re_match fuel s r1 i k') k fuel i
  end.

(** [re.search(pattern, s)] used as a truth value. *)
Definition re_search (r : regex) (s : string) : bool :=
  let l := list_ascii_of_string s in
  existsb (fun i => re_match (S (length l)) l r i (fun _ => true))
    (seq 0 (S (length l))).

Definition lit (w : string) : regex := RLit (list_ascii_of_string w).

Fixpoint alts (ws : list string) : regex :=
  match ws with
  | [] => RClass (fun _ => false)
  | [w] => lit w
  | w :: ws' => RAlt (lit w) (alts ws')
  end.

Fixpoint seqs (rs : list regex) : regex :=
  match rs with
  | [] => REps
  | [r] => r
  | r :: rs' => RSeq r (seqs rs')
  end.

Definition plus (r : regex) : regex := RSeq r (RStar r).
Definition opt (r : regex) : regex := RAlt r REps.
Fixpoint rep (n : nat) (r : regex) : regex :=
  match n with O => REps | S n' => RSeq r (rep n' r) end.

Definition r_space : regex := RClass is_space.
Definition r_digit : regex := RClass is_digit.
Definition r_hex : regex :=
  RClass (fun c => is_digit c ||
                   let n := nat_of_ascii c in (97 <=? n)%nat && (n <=? 102)%nat).
Definition r_lazy_any : regex := RStar RAny.

Example re_ex1 :
  re_search (seqs [RBound; alts ["count"; "total"]; plus r_space;
                   r_lazy_any; lit "transaction"])
            "total of my transactions" = true.
Proof. vm_compute. reflexivity. Qed.
Example re_ex2 :
  re_search (seqs [RBound; alts ["count"; "total"]; plus r_space;
                   r_lazy_any; lit "transaction"])
            "subtotal transactions" = false.
Proof. vm_compute. reflexivity. Qed.

(* ------------------------------------------------------------------ *)
(** ** [detect_query_mode] (app/utils/query_mode.py) *)

Inductive QueryMode : Type :=
| VECTOR_SEARCH
| SMART_FULL
| STATISTICAL.

Definition any_in (words : list string) (s : string) : bool :=
  existsb (fun w => str_in w s) words.

Definition count_words : list string := ["how many"; "kitne"; "count"; "total"].
Definition hindi_count_words : list string := ["कितने"; "कितनी"].

(** [counting_patterns] of priority 1, in source order. *)
Definition counting_patterns : list regex :=
  [ (* \b(how many|kitne|count|total)\s+.*?transaction *)
    seqs [RBound; alts count_words; plus r_space; r_lazy_any; lit "transaction"];
    (* transaction.*?\b(how many|kitne|count|total) *)
    seqs [lit "transaction"; r_lazy_any; RBound; alts count_words];
    (* \b(कितने|कितनी)\s+.*?(transaction|ट्रांज) *)
    seqs [RBound; alts hindi_count_words; plus r_space; r_lazy_any;
          alts ["transaction"; "ट्रांज"]];
    (* (transaction|ट्रांज).*?\b(कितने|कितनी) *)
    seqs [alts ["transaction"; "ट्रांज"]; r_lazy_any; RBound;
          alts hindi_count_words];
    (* \b(how|kitne)\s+many\b *)
    seqs [RBound; alts ["how"; "kitne"]; plus r_space; lit "many"; RBound];
    (* \bnumber of\s+transaction *)
    seqs [RBound; lit "number of"; plus r_space; lit "transaction"] ].

(** [[0-9a-f]{8}-[0-9a-f]{4}-[0-9a-f]{4}-[0-9a-f]{4}-[0-9a-f]{12}] *)
Definition account_pattern : regex :=
  seqs [rep 8 r_hex; lit "-"; rep 4 r_hex; lit "-"; rep 4 r_hex; lit "-";
        rep 4 r_hex; lit "-"; rep 12 r_hex].

(** [\b(account|acc|खाता)\s*(?:number|no|#)?\b] *)
Definition account_keyword_pattern : regex :=
  seqs [RBound; alts ["account"; "acc"; "खाता"]; RStar r_space;
        opt (alts ["number"; "no"; "#"]); RBound].

Definition exclude_patterns : list regex :=
  [ seqs [lit "account"; RStar r_space; lit "number"];
    seqs [lit "transaction"; RStar r_space; lit "number"];
    seqs [lit "reference"; RStar r_space; lit "number"] ].

Definition stats_keywords : list string :=
  ["total amount"; "sum of"; "average amount"; "count of";
   "how many transactions"; "kitne transactions"].

Definition full_scan_keywords : list string :=
  ["all"; "saari"; "sabhi"; "sab"; "every"; "show me"; "dikhao";
   "list"; "display"; "between"; "above"; "below"; "largest"; "smallest"].

(** [\b(20\d{2})\b] *)
Definition year_pattern : regex :=
  seqs [RBound; lit "20"; r_digit; r_digit; RBound].

Definition month_words : list string :=
  ["january"; "february"; "march"; "april"; "may"; "june"; "july";
   "august"; "september"; "october"; "november"; "december"].

Definition month_pattern : regex := seqs [RBound; alts month_words; RBound].

Definition analytical_keywords : list string :=
  ["summarize"; "summarise"; "summary"; "analyze"; "analyse"; "analysis";
   "insights"; "patterns"; "trends"; "overview"; "explain"; "tell me about";
   "what happened"; "describe"; "understand"; "help me"; "guide"; "advice";
   "recommend"; "suggest"; "why"; "how"; "when"; "where"; "what";
   "batao"; "samjhao"; "bataiye"; "explain karo"; "kya hua"].

(** The priority cascade of [detect_query_mode]; [documents] is unused by
    the source as well. *)
Definition detect_query_mode (question : string) (documents : list record)
    : QueryMode :=
  let question_lower := lower question in
  (* PRIORITY 1: counting queries *)
  if existsb (fun p => re_search p question_lower) counting_patterns
  then VECTOR_SEARCH else
  (* PRIORITY 2: account number queries *)
  let has_account := re_search account_pattern question_lower in
  let has_account_keyword := re_search account_keyword_pattern question_lower in
  if (has_account || has_account_keyword)
     && any_in ["transaction"; "saari"; "all"; "list"; "dikhao"] question_lower
  then SMART_FULL else
  (* PRIORITY 3: statistical keywords *)
  let is_excluded :=
    existsb (fun p => re_search p question_lower) exclude_patterns in
  if negb is_excluded && any_in stats_keywords question_lower
  then STATISTICAL else
  (* PRIORITY 4: full scan keywords *)
  if any_in full_scan_keywords question_lower then SMART_FULL else
  (* PRIORITY 5: date/time period queries *)
  let has_year := re_search year_pattern question_lower in
  let has_month := re_search month_pattern question_lower in
  if (has_year || has_month) && str_in "transaction" question_lower
  then SMART_FULL else
  (* PRIORITY 6: analytical queries *)
  if any_in analytical_keywords question_lower then VECTOR_SEARCH else
  VECTOR_SEARCH.

Example detect_ex1 :
  detect_query_mode "Show me all transactions above 5000 in March 2024 by UPI" []
  = SMART_FULL.
Proof. vm_compute. reflexivity. Qed.
Example detect_ex2 : detect_query_mode "What is the total amount spent?" []
  = STATISTICAL.
Proof. vm_compute. reflexivity. Qed.
Example detect_ex3 : detect_query_mode "कितने ट्रांजैक्शन हैं" [] = VECTOR_SEARCH.
Proof. vm_compute. reflexivity. Qed.

(* ------------------------------------------------------------------ *)
(** ** Filter sets and descriptions (app/utils/filters.py) *)

(** [date_filter]: the dict [{'month': m, 'year': y}], each key optional. *)
Record DateFilter : Type := {
  df_month : option Z;
  df_year : option Z
}.

(** The filters dict built by [extract_filters_from_query]. *)
Record FilterSet : Type := {
  amount_above : option Q;
  amount_below : option Q;
  amount_range : option (Q * Q);
  date_filter : option DateFilter;
  mode : option string;
  type : option string;
  account_id : option string;
  person_name : option string;
  strict_name_match : bool
}.

Definition empty_filters : FilterSet :=
  {| amount_above := None; amount_below := None; amount_range := None;
     date_filter := None; mode := None; type := None; account_id := None;
     person_name := None; strict_name_match := false |}.

(** The f-strings appended to [descriptions], one constructor per
    template. *)
Inductive FilterDesc : Type :=
| DescDate (month_name : string) (year : Z)   (* f"Date: {mon} {year}" *)
| DescYear (year : Z)                         (* f"Year: {year}" *)
| DescMode (m : string)                       (* f"Mode: {mode}" *)
| DescType (t : string)                       (* f"Type: {txn_type}" *)
| DescRange (lo hi : Q)                       (* f"Amount: ₹{lo} - ₹{hi}" *)
| DescAbove (t : Q)                           (* f"Amount above: ₹{t}" *)
| DescBelow (t : Q)                           (* f"Amount below: ₹{t}" *)
| DescAccount (a : string)                    (* f"Account: {acc_id}" *)
| DescExactName (n : string)                  (* f"EXACT name: '{name}'" *)
| DescPerson (n : string).                    (* f"Person: '{name}'" *)

(** Truthiness of the optional filter values, [if filters.get(k):]. *)
Definition opt_str_truthy (o : option string) : bool :=
  match o with Some s => negb (String.eqb s "") | None => false end.

Definition opt_num_truthy (o : option Q) : bool :=
  match o with Some q => negb (Qeq_bool q 0) | None => false end.

Definition df_truthy (df : DateFilter) : bool :=
  match df_month df, df_year df with None, None => false | _, _ => true end.

(** [l[i]] with Python's negative indices; [None] is an [IndexError]. *)
Definition py_index {A} (l : list A) (i : Z) : option A :=
  let n := Z.of_nat (length l) in
  if (0 <=? i) && (i <? n) then nth_error l (Z.to_nat i)
  else if (- n <=? i) && (i <? 0) then nth_error l (Z.to_nat (n + i))
  else None.

(* ------------------------------------------------------------------ *)
(** ** [datetime.strptime(s, '%Y-%m-%d')]

    [_strptime] matches the regex
    [(?P<Y>\d\d\d\d)-(?P<m>1[0-2]|0[1-9]|[1-9])-(?P<d>3[01]|[12]\d|0[1-9]|[1-9]| [1-9])]
    at the start of the string, takes the first match in alternative
    order, fails if characters remain, then builds [date(Y, m, d)], which
    fails for a year 0 or a day beyond the month. *)

Definition digit2 (a b : ascii) : Z := digit_val a * 10 + digit_val b.

Definition in_range (c : ascii) (lo hi : nat) : bool :=
  let n := nat_of_ascii c in (lo <=? n)%nat && (n <=? hi)%nat.

(** The alternatives of the month group, in order. *)
Definition parse_month (l : list ascii) : list (Z * list ascii) :=
  (match l with
   | a :: b :: r =>
       if Ascii.eqb a "1"%char && in_range b 48 50 then [(digit2 a b, r)] else []
   | _ => [] end) ++
  (match l with
   | a :: b :: r =>
       if Ascii.eqb a "0"%char && in_range b 49 57 then [(digit2 a b, r)] else []
   | _ => [] end) ++
  (match l with
   | a :: r => if in_range a 49 57 then [(digit_val a, r)] else []
   | _ => [] end).

(** The alternatives of the day group, in order. *)
Definition parse_day (l : list ascii) : list (Z * list ascii) :=
  (match l with
   | a :: b :: r =>
       if Ascii.eqb a "3"%char && in_range b 48 49 then [(digit2 a b, r)] else []
   | _ => [] end) ++
  (match l with
   | a :: b :: r =>
       if in_range a 49 50 && is_digit b then [(digit2 a b, r)] else []
   | _ => [] end) ++
  (match l with
   | a :: b :: r =>
       if Ascii.eqb a "0"%char && in_range b 49 57 then [(digit2 a b, r)] else []
   | _ => [] end) ++
  (match l with
   | a :: r => if in_range a 49 57 then [(digit_val a, r)] else []
   | _ => [] end) ++
  (match l with
   | a :: b :: r =>
       if Ascii.eqb a " "%char && in_range b 49 57 then [(digit_val b, r)] else []
   | _ => [] end).

(** All matches of the format regex, in the order the regex engine tries
    them: year, month alternatives, then day alternatives. *)
Definition ymd_matches (l : list ascii) : list (Z * Z * Z * list ascii) :=
  match l with
  | y1 :: y2 :: y3 :: y4 :: "-"%char :: r =>
      if is_digit y1 && is_digit y2 && is_digit y3 && is_digit y4 then
        let y := digit2 y1 y2 * 100 + digit2 y3 y4 in
        flat_map (fun '(m, r1) =>
          match r1 with
          | "-"%char :: r2 => List.map (fun '(d, r3) => (y, m, d, r3)) (parse_day r2)
          | _ => []
          end) (parse_month r)
      else []
  | _ => []
  end.

Definition is_leap (y : Z) : bool :=
  (Z.modulo y 4 =? 0) && negb (Z.modulo y 100 =? 0) || (Z.modulo y 400 =? 0).

Definition days_in_month (y m : Z) : Z :=
  if m =? 2 then (if is_leap y then 29 else 28)
  else if (m =? 4) || (m =? 6) || (m =? 9) || (m =? 11) then 30 else 31.

(** [datetime.strptime(s, '%Y-%m-%d')] as (year, month, day), [None] for
    the [ValueError] cases. *)
Definition strptime_ymd (s : string) : option (Z * Z * Z) :=
  match ymd_matches (list_ascii_of_string s) with
  | (y, m, d, rest) :: _ =>
      match rest with
      | [] => if (1 <=? y) && (d <=? days_in_month y m) then Some (y, m, d)
              else None
      | _ => None
      end
  | [] => None
  end.

Example strptime_ex1 : strptime_ymd "2024-03-15" = Some (2024, 3, 15).
Proof. reflexivity. Qed.
Example strptime_ex2 : strptime_ymd "2024-3-5" = Some (2024, 3, 5).
Proof. reflexivity. Qed.
Example strptime_ex3 : strptime_ymd "2023-02-29" = None.
Proof. reflexivity. Qed.
Example strptime_ex4 : strptime_ymd "2024-03-1T" = None.
Proof. reflexivity. Qed.

(* ------------------------------------------------------------------ *)
(** ** [apply_filters] *)

(** The state threaded through [apply_filters]:
    [(filtered, descriptions)]. *)
Definition FilterAcc : Type := (list record * list FilterDesc)%type.

(** Date stage, per record: [createdAt] must be a non-empty string whose
    first 10 characters parse; any exception in the [try] block drops the
    record ([except: pass]). *)
Definition date_matches (date_f : DateFilter) (d : record) : bool :=
  let date_str := py_get d "createdAt" (PStr "") in
  if truthy date_str then
    match date_str with
    | PStr s =>
        match strptime_ymd (substring 0 10 s) with
        | Some (y, m, _) =>
            (match df_year date_f with Some fy => Z.eqb y fy | None => true end)
            && (match df_month date_f with Some fm => Z.eqb m fm | None => true end)
        | None => false
        end
    | _ => false  (* [date_str[:10]] or [strptime] raises [TypeError] *)
    end
  else false.

Definition month_names : list string :=
  ["Jan"; "Feb"; "Mar"; "Apr"; "May"; "Jun";
   "Jul"; "Aug"; "Sep"; "Oct"; "Nov"; "Dec"].

Definition date_description (date_f : DateFilter) : result (list FilterDesc) :=
  match df_month date_f, df_year date_f with
  | Some m, Some y =>
      match py_index month_names (m - 1) with
      | Some n => Ok [DescDate n y]
      | None => Raise IndexError
      end
  | None, Some y => Ok [DescYear y]
  | _, None => Ok []
  end.

Definition date_stage (filters : FilterSet) (st : FilterAcc) : result FilterAcc :=
  let (filtered, descriptions) := st in
  match date_filter filters with
  | Some date_f =>
      if df_truthy date_f then
        let new_filtered := List.filter (date_matches date_f) filtered in
        let* ds := date_description date_f in
        Ok (new_filtered, descriptions ++ ds)
      else Ok st
  | None => Ok st
  end.

(** [d.get('mode', d.get('txnMode', '')).upper() == mode.upper()] *)
Definition mode_matches (m : string) (d : record) : result bool :=
  match py_get d "mode" (py_get d "txnMode" (PStr "")) with
  | PStr s => Ok (String.eqb (upper s) (upper m))
  | _ => Raise AttributeError
  end.

Definition mode_stage (filters : FilterSet) (st : FilterAcc) : result FilterAcc :=
  let (filtered, descriptions) := st in
  match mode filters with
  | Some m =>
      if opt_str_truthy (mode filters) then
        let* f := filterM (mode_matches m) filtered in
        Ok (f, descriptions ++ [DescMode m])
      else Ok st
  | None => Ok st
  end.

(** [txn_type in d.get('pk_GSI_1', '')]: substring test on a string,
    membership on a list, key test on a dict, [TypeError] otherwise. *)
Definition type_matches (t : string) (d : record) : result bool :=
  match py_get d "pk_GSI_1" (PStr "") with
  | PStr s => Ok (str_in t s)
  | PList l =>
      Ok (existsb (fun v => match v with PStr s => String.eqb t s | _ => false end) l)
  | PDict kv => Ok (existsb (fun kv1 => String.eqb t (fst kv1)) kv)
  | _ => Raise TypeError
  end.

Definition type_stage (filters : FilterSet) (st : FilterAcc) : result FilterAcc :=
  let (filtered, descriptions) := st in
  match type filters with
  | Some t =>
      if opt_str_truthy (type filters) then
        let* f := filterM (type_matches t) filtered in
        Ok (f, descriptions ++ [DescType t])
      else Ok st
  | None => Ok st
  end.

Definition in_range_pred (lo hi : Q) (d : record) : result bool :=
  let* a := amount_of d in Ok (Qle_bool lo a && Qle_bool a hi).

Definition above_pred (t : Q) (d : record) : result bool :=
  let* a := amount_of d in Ok (Qlt_bool t a).

Definition below_pred (t : Q) (d : record) : result bool :=
  let* a := amount_of d in Ok (Qlt_bool a t).

(** Amount stage: range, else above, else below.  The truthiness tests
    [elif filters.get('amount_above'):] are those of the source: a
    threshold equal to [0] is falsy. *)
Definition amount_stage (filters : FilterSet) (st : FilterAcc) : result FilterAcc :=
  let (filtered, descriptions) := st in
  match amount_range filters with
  | Some (min_amt, max_amt) =>
      let* f := filterM (in_range_pred min_amt max_amt) filtered in
      Ok (f, descriptions ++ [DescRange min_amt max_amt])
  | None =>
      if opt_num_truthy (amount_above filters) then
        let threshold := match amount_above filters with Some t => t | None => 0%Q end in
        let* f := filterM (above_pred threshold) filtered in
        (* Validation: [min([float(d.get('amount', 0)) for d in filtered])] *)
        let* _ := match f with
                  | [] => Ok []
                  | _ => mapM amount_of f
                  end in
        Ok (f, descriptions ++ [DescAbove threshold])
      else if opt_num_truthy (amount_below filters) then
        let threshold := match amount_below filters with Some t => t | None => 0%Q end in
        let* f := filterM (below_pred threshold) filtered in
        Ok (f, descriptions ++ [DescBelow threshold])
      else Ok st
  end.

(** [d.get('accountId', d.get('accountNumber', '')).lower() == acc_id.lower()] *)
Definition account_matches (acc_id : string) (d : record) : result bool :=
  match py_get d "accountId" (py_get d "accountNumber" (PStr "")) with
  | PStr s => Ok (String.eqb (lower s) (lower acc_id))
  | _ => Raise AttributeError
  end.

Definition account_stage (filters : FilterSet) (st : FilterAcc) : result FilterAcc :=
  let (filtered, descriptions) := st in
  match account_id filters with
  | Some acc_id =>
      if opt_str_truthy (account_id filters) then
        let* f := filterM (account_matches acc_id) filtered in
        Ok (f, descriptions ++ [DescAccount acc_id])
      else Ok st
  | None => Ok st
  end.

Fixpoint intersperse (sep : regex) (rs : list regex) : list regex :=
  match rs with
  | [] => []
  | [r] => [r]
  | r :: rs' => r :: sep :: intersperse sep rs'
  end.

(** [r'\b' + r'\s+'.join(re.escape(w) for w in name_words) + r'\b']
    searched with [re.IGNORECASE]: pattern words and subject are compared
    in lower case. *)
Definition name_pattern (name_words : list string) : regex :=
  seqs ([RBound] ++ intersperse (plus r_space)
                     (List.map (fun w => lit (lower w)) name_words) ++ [RBound]).

(** Strict person match of one record. *)
Definition strict_name_matches (name : string) (d : record) : result bool :=
  let narration := py_get d "narration" (PStr "") in
  let name_words := py_split name in
  if (2 <=? length name_words)%nat then
    match narration with
    | PStr s => Ok (re_search (name_pattern name_words) (lower s))
    | _ => Raise TypeError
    end
  else
    match narration with
    | PStr s => Ok (str_in (lower name) (lower s))
    | _ => Raise AttributeError
    end.

(** Loose person match: [name.lower() in d.get('narration', '').lower()] *)
Definition loose_name_matches (name : string) (d : record) : result bool :=
  match py_get d "narration" (PStr "") with
  | PStr s => Ok (str_in (lower name) (lower s))
  | _ => Raise AttributeError
  end.

Definition person_stage (filters : FilterSet) (st : FilterAcc) : result FilterAcc :=
  let (filtered, descriptions) := st in
  match person_name filters with
  | Some name =>
      if opt_str_truthy (person_name filters) then
        if strict_name_match filters then
          let* f := filterM (strict_name_matches name) filtered in
          Ok (f, descriptions ++ [DescExactName name])
        else
          let* f := filterM (loose_name_matches name) filtered in
          Ok (f, descriptions ++ [DescPerson name])
      else Ok st
  | None => Ok st
  end.

(** [apply_filters(documents, filters, question)]: the stages in source
    order, starting from [(documents.copy(), [])]; [question] is unused. *)
Definition apply_filters (documents : list record) (filters : FilterSet)
    (question : string) : result (list record * list FilterDesc) :=
  let* st1 := date_stage filters (documents, []) in
  let* st2 := mode_stage filters st1 in
  let* st3 := type_stage filters st2 in
  let* st4 := amount_stage filters st3 in
  let* st5 := account_stage filters st4 in
  person_stage filters st5.

Definition txn (id : string) (amt : Q) (created : string) (m : string)
    (narr : string) : record :=
  [("txnId", PStr id); ("amount", PNum amt); ("createdAt", PStr created);
   ("mode", PStr m); ("narration", PStr narr); ("pk_GSI_1", PStr "TYPE#DEBIT")].

Example apply_ex1 :
  apply_filters
    [txn "t1" 6000 "2024-03-02T10:00:00" "UPI" "paid to Ravi Kumar";
     txn "t2" 100 "2024-03-05T10:00:00" "UPI" "tea";
     txn "t3" 9000 "2024-04-01T10:00:00" "UPI" "rent"]
    {| amount_above := Some 5000%Q; amount_below := None; amount_range := None;
       date_filter := Some {| df_month := Some 3; df_year := Some 2024 |};
       mode := Some "UPI"; type := None; account_id := None;
       person_name := Some "Ravi Kumar"; strict_name_match := true |} ""
  = Ok ([txn "t1" 6000 "2024-03-02T10:00:00" "UPI" "paid to Ravi Kumar"],
        [DescDate "Mar" 2024; DescMode "UPI"; DescAbove 5000%Q;
         DescExactName "Ravi Kumar"]).
Proof. vm_compute. reflexivity. Qed.

(* ------------------------------------------------------------------ *)
(** ** [calculate_statistics] (app/utils/query_mode.py) *)

Record Statistics : Type := {
  st_count : nat;
  st_total : Q;
  st_average : Q;
  st_max : Q;
  st_min : Q
}.

Definition zero_statistics : Statistics :=
  {| st_count := 0; st_total := 0; st_average := 0; st_max := 0; st_min := 0 |}.

Definition q_sum (l : list Q) : Q := fold_left Qplus l 0%Q.

(** [max(l)] / [min(l)] on a non-empty list (first element as seed). *)
Definition q_max (l : list Q) : Q :=
  match l with
  | [] => 0%Q
  | x :: l' => fold_left (fun a b => if Qlt_bool a b then b else a) l' x
  end.

Definition q_min (l : list Q) : Q :=
  match l with
  | [] => 0%Q
  | x :: l' => fold_left (fun a b => if Qlt_bool b a then b else a) l' x
  end.

Definition calculate_statistics (documents : list record) (filters : FilterSet)
    : result Statistics :=
  let* r := apply_filters documents filters "" in
  let filtered_docs := fst r in
  match filtered_docs with
  | [] => Ok zero_statistics
  | _ =>
      let* amounts := mapM amount_of filtered_docs in
      let n := length filtered_docs in
      Ok {| st_count := n;
            st_total := q_sum amounts;
            st_average :=
              match amounts with
              | [] => 0%Q
              | _ => q_sum amounts / inject_Z (Z.of_nat (length amounts))
              end;
            st_max := q_max amounts;
            st_min := q_min amounts |}
  end.

Example stats_ex1 :
  calculate_statistics [txn "a" 10 "" "UPI" ""; txn "b" 30 "" "UPI" ""]
    empty_filters
  = Ok {| st_count := 2; st_total := 40; st_average := 40 / 2;
          st_max := 30; st_min := 10 |}.
Proof. vm_compute. reflexivity. Qed.

(* ------------------------------------------------------------------ *)
(** ** The amount section of [extract_filters_from_query] *)

Fixpoint take_comma_groups (fuel : nat) (l : list ascii) : list ascii * list ascii :=
  match fuel with
  | O => ([], l)
  | S fuel' =>
      match l with
      | ","%char :: r =>
          match take_digits r with
          | ((_ :: _) as ds, r') =>
              let (gs, r'') := take_comma_groups fuel' r' in
              (","%char :: ds ++ gs, r'')
          | ([], _) => ([], l)
          end
      | _ => ([], l)
      end
  end.

(** One match of [\d+(?:,\d+)*(?:\.\d+)?[kKlL]?] at the head of [l]
    (every quantifier is greedy and what follows is optional, so the
    first match is the longest one). *)
Definition number_token (l : list ascii) : option (list ascii * list ascii) :=
  match take_digits l with
  | ([], _) => None
  | (ds, r1) =>
      let (gs, r2) := take_comma_groups (length r1) r1 in
      let '(fr, r3) :=
        match r2 with
        | "."%char :: r =>
            match take_digits r with
            | ((_ :: _) as fd, r') => ("."%char :: fd, r')
            | ([], _) => ([], r2)
            end
        | _ => ([], r2)
        end in
      match r3 with
      | c :: r4 =>
          if existsb (Ascii.eqb c) ["k"; "K"; "l"; "L"]%char
          then Some (ds ++ gs ++ fr ++ [c], r4)
          else Some (ds ++ gs ++ fr, r3)
      | [] => Some (ds ++ gs ++ fr, r3)
      end
  end.

(** [re.findall(...)]: scan left to right, resume after each match. *)
Fixpoint findall_numbers (fuel : nat) (l : list ascii) : list (list ascii) :=
  match fuel with
  | O => []
  | S fuel' =>
      match l with
      | [] => []
      | _ :: l' =>
          match number_token l with
          | Some (tok, r) => tok :: findall_numbers fuel' r
          | None => findall_numbers fuel' l'
          end
      end
  end.

Definition remove_char (c : ascii) (l : list ascii) : list ascii :=
  List.filter (fun x => negb (Ascii.eqb x c)) l.

(** [re.match(r'^202[0-9]$', num_clean)] *)
Definition is_year_token (l : list ascii) : bool :=
  match l with
  | ["2"; "0"; "2"; d]%char => is_digit d
  | _ => false
  end.

(** The loop building [amounts_processed]. *)
Definition amounts_processed (question_lower : string) : list Q :=
  let raw := findall_numbers (S (String.length question_lower))
               (list_ascii_of_string question_lower) in
  flat_map (fun num_str =>
    let num_clean := List.map lower_char (remove_char ","%char num_str) in
    if is_year_token num_clean then []
    else
      let value :=
        if existsb (Ascii.eqb "k"%char) num_clean then
          option_map (fun v => v * 1000)%Q
            (py_float_of_string (string_of_list_ascii (remove_char "k"%char num_clean)))
        else if existsb (Ascii.eqb "l"%char) num_clean then
          option_map (fun v => v * 100000)%Q
            (py_float_of_string (string_of_list_ascii (remove_char "l"%char num_clean)))
        else py_float_of_string (string_of_list_ascii num_clean) in
      match value with Some v => [v] | None => [] (* except ValueError *) end)
    raw.

Definition above_words : list string :=
  ["above"; "greater than"; "more than"; "over"; "zyada"; "se zyada"].
Definition below_words : list string :=
  ["below"; "less than"; "under"; "kam"; "se kam"].

(** The values of [amount_above], [amount_below] and [amount_range] after
    the range / above / below cascade (all start as [None]). *)
Definition extract_amount_filters (question : string)
    : option Q * option Q * option (Q * Q) :=
  let question_lower := lower question in
  let amounts := amounts_processed question_lower in
  if str_in "between" question_lower && (2 <=? length amounts)%nat then
    match amounts with
    | a :: b :: _ =>
        let '(min_amt, max_amt) := if Qlt_bool b a then (b, a) else (a, b) in
        (None, None, Some (min_amt, max_amt))
    | _ => (None, None, None)
    end
  else if any_in above_words question_lower then
    match amounts with
    | a :: _ => (Some a, None, None)
    | [] => (None, None, None)
    end
  else if any_in below_words question_lower then
    match amounts with
    | a :: _ => (None, Some a, None)
    | [] => (None, None, None)
    end
  else (None, None, None).

Example amounts_ex1 :
  amounts_processed "between 1,500.50 and 2k in 2024" = [150050 # 100; 2000]%Q.
Proof. vm_compute. reflexivity. Qed.
Example extract_ex1 :
  extract_amount_filters "Show all transactions above 5000 in March 2024"
  = (Some 5000%Q, None, None).
Proof. vm_compute. reflexivity. Qed.

(* ------------------------------------------------------------------ *)
(** ** The query cache (app/utils/cache.py) *)

Record CacheEntry : Type := {
  c_answer : string;
  c_mode : QueryMode;
  c_filtered_docs : list record;
  c_filters_applied : option (list FilterDesc);
  c_statistics : option Statistics;
  c_timestamp : Z
}.

(** The module-level dict [query_cache]. *)
Abbreviation QueryCache := (gmap string CacheEntry).

Definition CACHE_TTL_MINUTES : Z := 30.

(** [timedelta(minutes=settings.CACHE_TTL_MINUTES)] in microseconds. *)
Definition cache_ttl : Z := CACHE_TTL_MINUTES * 60 * 1000000.

(** [current_time - cache_data["timestamp"] > timedelta(...)] *)
Definition is_expired (current_time : Z) (e : CacheEntry) : bool :=
  cache_ttl <? current_time - c_timestamp e.

(** [cleanup_expired_cache()] at clock reading [current_time]: collect the
    expired keys, then delete them one by one. *)
Definition cleanup_expired_cache (query_cache : QueryCache) (current_time : Z)
    : QueryCache :=
  let expired_keys :=
    List.map fst (List.filter (fun kv => is_expired current_time (snd kv))
                    (map_to_list query_cache)) in
  fold_left (fun c key => delete key c) expired_keys query_cache.

(** [get_cached_query(query_id)]: [t_sweep] is the clock read by the sweep,
    [t_check] the one read by the validity test ([t_sweep <= t_check]).
    Returns the hit (or [None]) and the cache after the call. *)
Definition get_cached_query (query_id : string) (query_cache : QueryCache)
    (t_sweep t_check : Z) : option CacheEntry * QueryCache :=
  let query_cache1 := cleanup_expired_cache query_cache t_sweep in
  match query_cache1 !! query_id with
  | Some cache_data =>
      if t_check - c_timestamp cache_data <=? cache_ttl
      then (Some cache_data, query_cache1)
      else (None, delete query_id query_cache1)
  | None => (None, query_cache1)
  end.

(** [cache_query_results(...)] at clock reading [now]. *)
Definition cache_query_results (query_id : string) (answer : string)
    (m : QueryMode) (filtered_docs : list record)
    (filters_applied : option (list FilterDesc))
    (statistics : option Statistics) (now : Z) (query_cache : QueryCache)
    : QueryCache :=
  <[query_id := {| c_answer := answer; c_mode := m;
                   c_filtered_docs := filtered_docs;
                   c_filters_applied := filters_applied;
                   c_statistics := statistics; c_timestamp := now |}]> query_cache.

(* ------------------------------------------------------------------ *)
(** ** Pagination (app/api/transactions.py) *)

(** [sorted(docs, key=lambda x: float(x.get('amount', 0)), reverse=True)]:
    all keys are computed first (any failure raises), then a stable sort
    by decreasing key, equal keys keeping their input order. *)
Fixpoint insert_desc (x : Q * record) (l : list (Q * record)) : list (Q * record) :=
  match l with
  | [] => [x]
  | y :: l' => if Qlt_bool (fst y) (fst x) then x :: l else y :: insert_desc x l'
  end.

Definition sort_by_amount_desc (docs : list record) : result (list record) :=
  let* keys := mapM amount_of docs in
  Ok (List.map snd (fold_left (fun acc x => insert_desc x acc)
                      (combine keys docs) [])).

Record Pagination : Type := {
  pg_page : nat;
  pg_page_size : nat;
  total_items : nat;
  total_pages : nat;
  has_next : bool;
  has_prev : bool
}.

(** [sorted_docs[start:end]] for [0 <= start <= end]. *)
Definition py_slice {A} (l : list A) (start end_ : nat) : list A :=
  firstn (end_ - start) (skipn start l).

(** The block [if request.show_all and filtered_docs: ...]: the page of
    records (before [format_transaction_for_api] renders each one) and the
    pagination metadata.  [page >= 1] and [1 <= page_size <= 100] are
    enforced by the request schema. *)
Definition paginate (filtered_docs : list record) (show_all : bool)
    (page page_size : nat) : result (option (list record) * option Pagination) :=
  match show_all, filtered_docs with
  | true, _ :: _ =>
      let* sorted_docs := sort_by_amount_desc filtered_docs in
      let start_idx := ((page - 1) * page_size)%nat in
      let end_idx := (start_idx + page_size)%nat in
      let paginated_docs := py_slice sorted_docs start_idx end_idx in
      let n := length filtered_docs in
      Ok (Some paginated_docs,
          Some {| pg_page := page; pg_page_size := page_size;
                  total_items := n;
                  total_pages := ((n + page_size - 1) / page_size)%nat;
                  has_next := (end_idx <? n)%nat;
                  has_prev := (1 <? page)%nat |})
  | _, _ => Ok (None, None)
  end.

(* ------------------------------------------------------------------ *)
(** ** The cache path of the [/prompt] endpoint *)

Record PromptRequest : Type := {
  prompt : string;
  page : nat;
  page_size : nat;
  show_all : bool;
  use_full_data : option bool;
  req_query_id : option string
}.

Record RAGResponse : Type := {
  query_id : string;
  r_answer : string;
  r_mode : QueryMode;
  matching_transactions_count : nat;
  r_filters_applied : option (list FilterDesc);
  transactions : option (list record);
  pagination : option Pagination;
  r_statistics : option Statistics
}.

(** What [query_with_prompt] does after the cache lookup: answer from the
    cache (lines 260-302), or fall through to the full pipeline (line 304
    onwards: mode detection, the text-generation calls and a fresh
    [cache_query_results]). *)
Inductive PromptOutcome : Type :=
| Respond (resp : RAGResponse)
| RunPipeline.

(** Lines 257-304 of [query_with_prompt], for the query id resolved at
    lines 249-255 (the request's own [query_id] or [generate_query_id]).
    [t_sweep <= t_check] are the clock readings of [get_cached_query]. *)
Definition prompt_cache_step (qid : string) (request : PromptRequest)
    (query_cache : QueryCache) (t_sweep t_check : Z)
    : result PromptOutcome * QueryCache :=
  let (cached_data, query_cache1) :=
    get_cached_query qid query_cache t_sweep t_check in
  match cached_data with
  | Some c =>
      if (1 <? page request)%nat then
        let filtered_docs := c_filtered_docs c in
        match paginate filtered_docs (show_all request) (page request)
                (page_size request) with
        | Ok (txs, pg) =>
            (Ok (Respond {| query_id := qid;
                            r_answer := c_answer c;
                            r_mode := c_mode c;
                            matching_transactions_count := length filtered_docs;
                            r_filters_applied := c_filters_applied c;
                            transactions := txs;
                            pagination := pg;
                            r_statistics := c_statistics c |}), query_cache1)
        | Raise e => (Raise e, query_cache1)
        end
      else (Ok RunPipeline, query_cache1)
  | None => (Ok RunPipeline, query_cache1)
  end.

(* ------------------------------------------------------------------ *)
(** ** [apply_filters] read as a single filter

    The predicate each stage of [apply_filters] applies to a record, listed
    for the stages that are active for a filter set, in stage order. *)

(** A predicate evaluation that returned [True]. *)
Definition ok_true (r : result bool) : bool :=
  match r with Ok true => true | _ => false end.

Definition date_preds (filters : FilterSet) : list (record -> result bool) :=
  match date_filter filters with
  | Some date_f => if df_truthy date_f then [fun d => Ok (date_matches date_f d)] else []
  | None => []
  end.

Definition mode_preds (filters : FilterSet) : list (record -> result bool) :=
  match mode filters with
  | Some m => if opt_str_truthy (mode filters) then [mode_matches m] else []
  | None => []
  end.

Definition type_preds (filters : FilterSet) : list (record -> result bool) :=
  match type filters with
  | Some t => if opt_str_truthy (type filters) then [type_matches t] else []
  | None => []
  end.

Definition amount_preds (filters : FilterSet) : list (record -> result bool) :=
  match amount_range filters with
  | Some (min_amt, max_amt) => [in_range_pred min_amt max_amt]
  | None =>
      if opt_num_truthy (amount_above filters) then
        [above_pred (match amount_above filters with Some t => t | None => 0%Q end)]
      else if opt_num_truthy (amount_below filters) then
        [below_pred (match amount_below filters with Some t => t | None => 0%Q end)]
      else []
  end.

Definition account_preds (filters : FilterSet) : list (record -> result bool) :=
  match account_id filters with
  | Some a => if opt_str_truthy (account_id filters) then [account_matches a] else []
  | None => []
  end.

Definition person_preds (filters : FilterSet) : list (record -> result bool) :=
  match person_name filters with
  | Some n =>
      if opt_str_truthy (person_name filters) then
        if strict_name_match filters then [strict_name_matches n]
        else [loose_name_matches n]
      else []
  | None => []
  end.

Definition active_preds (filters : FilterSet) : list (record -> result bool) :=
  date_preds filters ++ mode_preds filters ++ type_preds filters
  ++ amount_preds filters ++ account_preds filters ++ person_preds filters.

(** A record passes when every listed predicate evaluates to [True]. *)
Definition passes_all (ps : list (record -> result bool)) (d : record) : bool :=
  forallb (fun p => ok_true (p d)) ps.

(** The filter set with its date filter removed. *)
Definition without_date (filters : FilterSet) : FilterSet :=
  {| amount_above := amount_above filters; amount_below := amount_below filters;
     amount_range := amount_range filters; date_filter := None;
     mode := mode filters; type := type filters;
     account_id := account_id filters; person_name := person_name filters;
     strict_name_match := strict_name_match filters |}.

(* ------------------------------------------------------------------ *)
(** ** Capture groups of [re.search] / [re.findall]

    [extract_filters_from_query] reads the text of capture groups, so it
    needs the positions of a match and not only its existence.  Here a
    pattern piece maps a start position to the list of its end positions,
    in the order Python's backtracking engine tries them (greedy
    quantifiers longest first, alternatives left to right).  Every
    repeated piece below consumes at least one character per iteration. *)

Definition matcher : Type := list ascii -> nat -> list nat.

Definition m_eps : matcher := fun _ j => [j].

Definition m_lit (w : string) : matcher := fun s j =>
  if prefixb (list_ascii_of_string w) (skipn j s)
  then [(j + String.length w)%nat] else [].

Definition m_class (p : ascii -> bool) : matcher := fun s j =>
  match nth_error s j with
  | Some c => if p c then [S j] else []
  | None => []
  end.

Definition m_bound : matcher := fun s j => if at_boundary s j then [j] else [].

Definition m_seq (a b : matcher) : matcher := fun s j => flat_map (b s) (a s j).

Definition m_alt (a b : matcher) : matcher := fun s j => a s j ++ b s j.

Fixpoint m_alts (ws : list string) : matcher :=
  match ws with
  | [] => fun _ _ => []
  | w :: ws' => m_alt (m_lit w) (m_alts ws')
  end.

Definition m_opt (a : matcher) : matcher := m_alt a m_eps.

(** Greedy [a*]: one more iteration first, then stop.  The fuel bounds the
    number of iterations; [length s] of them always suffice. *)
Fixpoint m_star_fuel (n : nat) (a : matcher) (s : list ascii) (j : nat) : list nat :=
  match n with
  | O => [j]
  | S n' =>
      flat_map (fun k => if (j <? k)%nat then m_star_fuel n' a s k else [])
        (a s j) ++ [j]
  end.

Definition m_star (a : matcher) : matcher := fun s j => m_star_fuel (length s) a s j.

Definition m_plus (a : matcher) : matcher := m_seq a (m_star a).

Fixpoint m_rep (n : nat) (a : matcher) : matcher :=
  match n with O => m_eps | S n' => m_seq a (m_rep n' a) end.

(** The span [(start, end)] of the capture group of the first match of
    [prefix (group) suffix] found by [re.search]: leftmost start, then
    the first success in backtracking order. *)
Definition search_group (prefix group suffix : matcher) (s : list ascii)
    : option (nat * nat) :=
  head (flat_map (fun i =>
          flat_map (fun gs =>
            flat_map (fun ge =>
              match suffix s ge with [] => [] | _ :: _ => [(gs, ge)] end)
              (group s gs))
            (prefix s i))
          (seq 0 (S (length s)))).

Definition span_text (s : list ascii) (sp : nat * nat) : list ascii :=
  firstn (snd sp - fst sp) (skipn (fst sp) s).

Definition m_space : matcher := m_class is_space.
Definition m_digit : matcher := m_class is_digit.

(* ------------------------------------------------------------------ *)
(** ** [extract_filters_from_query] (app/utils/filters.py) *)

(** [months_hindi], in insertion (iteration) order. *)
Definition months_hindi : list (string * Z) :=
  [("january", 1); ("jan", 1); ("जनवरी", 1);
   ("february", 2); ("feb", 2); ("फरवरी", 2);
   ("march", 3); ("mar", 3); ("मार्च", 3);
   ("april", 4); ("apr", 4); ("अप्रैल", 4);
   ("may", 5); ("मई", 5);
   ("june", 6); ("jun", 6); ("जून", 6);
   ("july", 7); ("jul", 7); ("जुलाई", 7);
   ("august", 8); ("aug", 8); ("अगस्त", 8);
   ("september", 9); ("sep", 9); ("सितंबर", 9);
   ("october", 10); ("oct", 10); ("अक्टूबर", 10);
   ("november", 11); ("nov", 11); ("नवंबर", 11);
   ("december", 12); ("dec", 12); ("दिसंबर", 12)].

(** [int(m.group(1))] of a group of ASCII digits. *)
Definition group_int (s : list ascii) (sp : nat * nat) : Z :=
  digits_value (span_text s sp).

(** The date section: the first month name contained in the question, with
    [re.search(rf'{month_name}\s*(\d{4})', question_lower)] for its year;
    otherwise [re.search(r'\b(20\d{2})\b', question_lower)]. *)
Definition extract_date_filter (question_lower : string) : option DateFilter :=
  let s := list_ascii_of_string question_lower in
  match List.find (fun '(month_name, _) => str_in month_name question_lower)
          months_hindi with
  | Some (month_name, month_num) =>
      Some {| df_month := Some month_num;
              df_year :=
                option_map (group_int s)
                  (search_group (m_seq (m_lit month_name) (m_star m_space))
                                (m_rep 4 m_digit) m_eps s) |}
  | None =>
      match search_group m_bound (m_seq (m_lit "20") (m_rep 2 m_digit)) m_bound s with
      | Some sp => Some {| df_month := None; df_year := Some (group_int s sp) |}
      | None => None
      end
  end.

Definition modes : list string :=
  ["UPI"; "CASH"; "NEFT"; "IMPS"; "RTGS"; "DEBIT CARD"; "CREDIT CARD"].

(** The first mode whose lower-case spelling occurs in the question. *)
Definition extract_mode (question_lower : string) : option string :=
  List.find (fun m => str_in (lower m) question_lower) modes.

Definition extract_type (question_lower : string) : option string :=
  if any_in ["credit"; "credited"; "क्रेडिट"] question_lower then Some "CREDIT"
  else if any_in ["debit"; "debited"; "डेबिट"] question_lower then Some "DEBIT"
  else None.

Definition m_hex : matcher :=
  m_class (fun c => is_digit c ||
                    let n := nat_of_ascii c in (97 <=? n)%nat && (n <=? 102)%nat).

(** [[0-9a-f]{8}-[0-9a-f]{4}-[0-9a-f]{4}-[0-9a-f]{4}-[0-9a-f]{12}] *)
Definition m_uuid : matcher :=
  m_seq (m_rep 8 m_hex) (m_seq (m_lit "-") (m_seq (m_rep 4 m_hex)
    (m_seq (m_lit "-") (m_seq (m_rep 4 m_hex) (m_seq (m_lit "-")
      (m_seq (m_rep 4 m_hex) (m_seq (m_lit "-") (m_rep 12 m_hex)))))))).

(** [[a-zA-Z0-9\-]] *)
Definition is_account_char (c : ascii) : bool :=
  is_upper c || is_lower c || is_digit c || Ascii.eqb c "-"%char.

(** [(?:account|acc|खाता)\s*(?:number|no|#)?\s*[:=]?\s*] *)
Definition m_account_prefix : matcher :=
  m_seq (m_alts ["account"; "acc"; "खाता"])
    (m_seq (m_star m_space)
      (m_seq (m_opt (m_alts ["number"; "no"; "#"]))
        (m_seq (m_star m_space)
          (m_seq (m_opt (m_class (fun c => Ascii.eqb c ":"%char || Ascii.eqb c "="%char)))
            (m_star m_space))))).

(** The account section: the UUID ([group(0)]), else group 1 of the
    keyword pattern. *)
Definition extract_account_id (question_lower : string) : option string :=
  let s := list_ascii_of_string question_lower in
  match search_group m_eps m_uuid m_eps s with
  | Some sp => Some (string_of_list_ascii (span_text s sp))
  | None =>
      match search_group m_account_prefix (m_plus (m_class is_account_char)) m_eps s with
      | Some sp => Some (string_of_list_ascii (span_text s sp))
      | None => None
      end
  end.

Definition name_keywords : list string :=
  ["by"; "from"; "to"; "with"; "se"; "ko"; "द्वारा"].

(** [[A-Z][a-z]+] *)
Definition m_cap_word : matcher :=
  m_seq (m_class is_upper) (m_plus (m_class is_lower)).

(** The person section, on the question as typed: group 1 of the first
    match of [(?:by|...)\s+([A-Z][a-z]+(?:\s+[A-Z][a-z]+)+)] (strict), else
    of [(?:by|...)\s+([A-Z][a-z]+)] (loose); [.strip()] on the group. *)
Definition extract_person (question : string) : option string * bool :=
  let s := list_ascii_of_string question in
  let pre := m_seq (m_alts name_keywords) (m_plus m_space) in
  match search_group pre (m_seq m_cap_word (m_plus (m_seq (m_plus m_space) m_cap_word)))
          m_eps s with
  | Some sp => (Some (string_of_list_ascii (strip_spaces (span_text s sp))), true)
  | None =>
      match search_group pre m_cap_word m_eps s with
      | Some sp => (Some (string_of_list_ascii (strip_spaces (span_text s sp))), false)
      | None => (None, false)
      end
  end.

(** [extract_filters_from_query(question)]. *)
Definition extract_filters_from_query (question : string) : FilterSet :=
  let question_lower := lower question in
  let '(above, below, range) := extract_amount_filters question in
  let (name, strict) := extract_person question in
  {| amount_above := above; amount_below := below; amount_range := range;
     date_filter := extract_date_filter question_lower;
     mode := extract_mode question_lower;
     type := extract_type question_lower;
     account_id := extract_account_id question_lower;
     person_name := name; strict_name_match := strict |}.

Example extract_filters_ex1 :
  extract_filters_from_query
    "Show UPI debits above 5000 in March 2024 paid to Ravi Kumar from account no 12ab-9"
  = {| amount_above := Some 5000%Q; amount_below := None; amount_range := None;
       date_filter := Some {| df_month := Some 3; df_year := Some 2024 |};
       mode := Some "UPI"; type := Some "DEBIT"; account_id := Some "12ab-9";
       person_name := Some "Ravi Kumar"; strict_name_match := true |}.
Proof. vm_compute. reflexivity. Qed.

Example extract_filters_ex2 :
  extract_filters_from_query "account no" = 
  {| amount_above := None; amount_below := None; amount_range := None;
     date_filter := None; mode := None; type := None; account_id := Some "no";
     person_name := None; strict_name_match := false |}.
Proof. vm_compute. reflexivity. Qed.

Example extract_filters_ex3 :
  extract_filters_from_query "spent in 2023 with Amit" =
  {| amount_above := None; amount_below := None; amount_range := None;
     date_filter := Some {| df_month := None; df_year := Some 2023 |};
     mode := None; type := None; account_id := None;
     person_name := Some "Amit"; strict_name_match := false |}.
Proof. vm_compute. reflexivity. Qed.

(* ------------------------------------------------------------------ *)
(** ** Record formatting (app/utils/formatters.py) *)

(** [s.replace(old, new)] for a non-empty [old]: occurrences are replaced
    left to right, without overlap. *)
Fixpoint replace_fuel (fuel : nat) (old new l : list ascii) : list ascii :=
  match fuel with
  | O => l
  | S fuel' =>
      match l with
      | [] => []
      | c :: r =>
          if prefixb old l
          then new ++ replace_fuel fuel' old new (skipn (length old) l)
          else c :: replace_fuel fuel' old new r
      end
  end.

Definition py_str_replace (s old new : string) : string :=
  let l := list_ascii_of_string s in
  string_of_list_ascii
    (replace_fuel (length l) (list_ascii_of_string old)
       (list_ascii_of_string new) l).

(** [v.replace(old, new)] on a JSON value: only [str] has the method. *)
Definition py_replace (v : pyval) (old new : string) : result string :=
  match v with
  | PStr s => Ok (py_str_replace s old new)
  | _ => Raise AttributeError
  end.

(** Validation of a [str] field of a pydantic model: JSON values other
    than strings are refused ([ValidationError], a [ValueError]). *)
Definition pyd_str (v : pyval) : result string :=
  match v with
  | PStr s => Ok s
  | _ => Raise ValueError
  end.

(** The pydantic model [TransactionInfo] (app/models/schemas.py). *)
Record TransactionInfo : Type := {
  ti_transaction_id : string;
  ti_account_number : string;
  ti_date : string;
  ti_amount : Q;
  ti_type : string;
  ti_mode : string;
  ti_balance_after : Q;
  ti_narration : string;
  ti_reference : string
}.

(** [format_transaction_for_api(doc)]: the keyword arguments are evaluated
    left to right ([float] and [.replace] may raise), then the model
    validates its [str] fields. *)
Definition format_transaction_for_api (doc : record) : result TransactionInfo :=
  let transaction_id := py_get doc "txnId" (PStr "N/A") in
  let account_number :=
    py_get doc "accountId" (py_get doc "accountNumber" (PStr "N/A")) in
  let date := py_get doc "createdAt" (PStr "N/A") in
  let* amount := py_float (py_get doc "amount" (PNum 0)) in
  let* type_ := py_replace (py_get doc "pk_GSI_1" (PStr "N/A")) "TYPE#" "" in
  let mode_ := py_get doc "mode" (py_get doc "txnMode" (PStr "N/A")) in
  let* balance_after :=
    py_float (py_get doc "currentBalance" (py_get doc "balance" (PNum 0))) in
  let narration := py_get doc "narration" (PStr "N/A") in
  let reference := py_get doc "reference" (py_get doc "txnRef" (PStr "N/A")) in
  let* transaction_id' := pyd_str transaction_id in
  let* account_number' := pyd_str account_number in
  let* date' := pyd_str date in
  let* mode' := pyd_str mode_ in
  let* narration' := pyd_str narration in
  let* reference' := pyd_str reference in
  Ok {| ti_transaction_id := transaction_id'; ti_account_number := account_number';
        ti_date := date'; ti_amount := amount; ti_type := type_; ti_mode := mode';
        ti_balance_after := balance_after; ti_narration := narration';
        ti_reference := reference' |}.

Example format_api_ex1 :
  format_transaction_for_api
    [("txnId", PStr "t1"); ("amount", PStr "250.5"); ("pk_GSI_1", PStr "TYPE#DEBIT");
     ("txnMode", PStr "UPI"); ("balance", PNum 1000)]
  = Ok {| ti_transaction_id := "t1"; ti_account_number := "N/A"; ti_date := "N/A";
          ti_amount := 2505 # 10; ti_type := "DEBIT"; ti_mode := "UPI";
          ti_balance_after := 1000; ti_narration := "N/A"; ti_reference := "N/A" |}.
Proof. vm_compute. reflexivity. Qed.

(** The outcome of an endpoint: its response, or the status code of the
    [HTTPException] it raises. *)
Inductive http_result (A : Type) : Type :=
| HttpOk (a : A)
| HttpError (status_code : Z).
Arguments HttpOk {A} a.
Arguments HttpError {A} status_code.

Record IngestResponse : Type := {
  ir_status : string;
  ir_message : string;
  transactions_ingested : nat;
  ir_timestamp : string
}.

Section Endpoints.

(** [str(v)] of a JSON value, as an f-string renders it. *)
Variable py_str : pyval -> string.
(** The format spec [:,.2f] applied to a float. *)
Variable fmt_money : Q -> string.

Definition nl : string := String (ascii_of_nat 10) EmptyString.

(** [format_transaction_for_vector(record)]: the replacement fields are
    evaluated left to right. *)
Definition format_transaction_for_vector (r : record) : result string :=
  let account := py_get r "accountId" (py_get r "accountNumber" (PStr "N/A")) in
  let txn_id := py_get r "txnId" (PStr "N/A") in
  let date := py_get r "createdAt" (PStr "N/A") in
  let* amount := py_float (py_get r "amount" (PNum 0)) in
  let* balance :=
    py_float (py_get r "currentBalance" (py_get r "balance" (PNum 0))) in
  let mode_ := py_get r "mode" (py_get r "txnMode" (PStr "N/A")) in
  let narration := py_get r "narration" (PStr "N/A") in
  let reference := py_get r "reference" (py_get r "txnRef" (PStr "N/A")) in
  let* ttype := py_replace (py_get r "pk_GSI_1" (PStr "N/A")) "TYPE#" "" in
  Ok ("Account Number: " ++ py_str account ++ nl ++
      "Transaction ID: " ++ py_str txn_id ++ nl ++
      "Date: " ++ py_str date ++ nl ++
      "Amount: ₹" ++ fmt_money amount ++ nl ++
      "Current Balance: ₹" ++ fmt_money balance ++ nl ++
      "Mode: " ++ py_str mode_ ++ nl ++
      "Narration: " ++ py_str narration ++ nl ++
      "Reference: " ++ py_str reference ++ nl ++
      "Transaction Type: " ++ ttype ++ nl)%string.

(** A LangChain [Document]. *)
Record Document : Type := {
  page_content : string;
  doc_metadata : list (string * pyval)
}.

(** The vector index built by [FAISS.from_documents]. *)
Variable VectorStore : Type.
Variable from_documents : list Document -> result VectorStore.

(** One iteration of the loop of [RAGService.create_vector_store]. *)
Definition make_document (txn : record) : result Document :=
  let* formatted_content := format_transaction_for_vector txn in
  let txn_id := py_get txn "txnId" (PStr "") in
  let date := py_get txn "createdAt" (PStr "") in
  let* amount := py_float (py_get txn "amount" (PNum 0)) in
  let mode_ := py_get txn "mode" (py_get txn "txnMode" (PStr "")) in
  let* ttype := py_replace (py_get txn "pk_GSI_1" (PStr "")) "TYPE#" "" in
  let account := py_get txn "accountId" (py_get txn "accountNumber" (PStr "N/A")) in
  let narration := py_get txn "narration" (PStr "N/A") in
  Ok {| page_content := formatted_content;
        doc_metadata := [("txnId", txn_id); ("date", date); ("amount", PNum amount);
                         ("mode", mode_); ("type", PStr ttype);
                         ("accountNumber", account); ("narration", narration)] |}.

(** [RAGService.create_vector_store(documents)] *)
Definition create_vector_store (documents : list record)
    : result (VectorStore * list Document) :=
  let* langchain_docs := mapM make_document documents in
  let* vectorstore := from_documents langchain_docs in
  Ok (vectorstore, langchain_docs).

(** The module-level dict [ingested_data_store] (app/utils/data_store.py). *)
Record IngestedStore : Type := {
  store_transactions : list record;
  store_vectorstore : option VectorStore;
  store_langchain_docs : list Document;
  store_last_updated : option string
}.

(** [set_ingested_data(...)]; [now_iso] is [datetime.now().isoformat()]. *)
Definition set_ingested_data (transactions_ : list record)
    (vectorstore : VectorStore) (langchain_docs : list Document)
    (now_iso : string) (store : IngestedStore) : IngestedStore :=
  {| store_transactions := transactions_;
     store_vectorstore := Some vectorstore;
     store_langchain_docs := langchain_docs;
     store_last_updated := Some now_iso |}.

(** [has_ingested_data()] *)
Definition has_ingested_data (store : IngestedStore) : bool :=
  (0 <? length (store_transactions store))%nat.

(** [ingest_context_data(request)] (app/api/transactions.py): [models_ready]
    is [embeddings_model and llm]; any exception inside the [try] becomes
    status 500. *)
Definition ingest_context_data (models_ready : bool) (context_data : list record)
    (now_iso : string) (store : IngestedStore)
    : http_result IngestResponse * IngestedStore :=
  if negb models_ready then (HttpError 503, store) else
  match create_vector_store context_data with
  | Raise _ => (HttpError 500, store)
  | Ok (vectorstore, langchain_docs) =>
      let store' := set_ingested_data context_data vectorstore langchain_docs
                      now_iso store in
      (HttpOk {| ir_status := "success";
                 ir_message := "Context data ingested successfully";
                 transactions_ingested := length context_data;
                 ir_timestamp := now_iso |}, store')
  end.

(* ------------------------------------------------------------------ *)
(** ** The [/prompt] endpoint (app/api/transactions.py)

    The text-producing services are left abstract: the hash of the query
    id, the LLM answers, the vector retrieval and the float rendering of
    the statistical answer. *)

(** [generate_query_id(prompt, filters)] (an md5 hex digest). *)
Variable generate_query_id : string -> FilterSet -> string.
(** [generate_conversational_answer(prompt, filtered_docs, filters,
    filter_descriptions, show_all, llm)] *)
Variable generate_conversational_answer :
  string -> list record -> FilterSet -> list FilterDesc -> bool -> result string.
(** The answer text built at lines 65-84 of [process_statistical_query]. *)
Variable statistical_answer : string -> Statistics -> list FilterDesc -> string.
(** [rag_service.process_analytical_query(documents, prompt)] *)
Variable process_analytical_query : list record -> string -> result string.
(** [rag_service.process_vector_search_query(vectorstore, prompt, k)] *)
Variable process_vector_search_query :
  option VectorStore -> string -> nat -> result string.

(** [RAGService.process_statistical_query(documents, prompt)] *)
Definition process_statistical_query (documents : list record) (prompt_ : string)
    : result (string * Statistics * list FilterDesc * nat) :=
  let filters := extract_filters_from_query prompt_ in
  let* stats := calculate_statistics documents filters in
  let* r := apply_filters documents filters prompt_ in
  let (filtered_docs, filter_desc) := r in
  Ok (statistical_answer prompt_ stats filter_desc, stats, filter_desc,
      length filtered_docs).

(** [RAGService.process_smart_full_query(documents, prompt, show_all)] *)
Definition process_smart_full_query (documents : list record) (prompt_ : string)
    (show_all_ : bool) : result (string * list record * list FilterDesc) :=
  let filters := extract_filters_from_query prompt_ in
  let* r := apply_filters documents filters prompt_ in
  let (filtered_docs, filter_descriptions) := r in
  let* answer := generate_conversational_answer prompt_ filtered_docs filters
                   filter_descriptions show_all_ in
  Ok (answer, filtered_docs, filter_descriptions).

(** The keyword list of [is_analytical] at lines 378-381. *)
Definition endpoint_analytical_keywords : list string :=
  ["summarize"; "summarise"; "summary"; "analyze"; "analyse";
   "overview"; "insights"; "patterns"; "trends"].

(** The [counting_patterns] of lines 383-389. *)
Definition endpoint_counting_patterns : list regex :=
  [ seqs [RBound; alts count_words; plus r_space; r_lazy_any; lit "transaction"];
    seqs [lit "transaction"; r_lazy_any; RBound; alts count_words];
    seqs [RBound; alts hindi_count_words; plus r_space; r_lazy_any;
          alts ["transaction"; "ट्रांज"]];
    seqs [alts ["transaction"; "ट्रांज"]; r_lazy_any; RBound;
          alts hindi_count_words];
    seqs [RBound; lit "number of"; plus r_space; lit "transaction"] ].

(** Lines 311-313: the detected mode, unless [use_full_data] is given. *)
Definition resolve_mode (request : PromptRequest) (documents : list record)
    : QueryMode :=
  match use_full_data request with
  | Some true => SMART_FULL
  | Some false => VECTOR_SEARCH
  | None => detect_query_mode (prompt request) documents
  end.

(** Lines 304-407 of [query_with_prompt]: the pipeline run on a cache miss
    or for page 1, at clock reading [now] of [cache_query_results].  The
    response keeps the page of records; [render_response] formats them. *)
Definition prompt_pipeline (documents : list record)
    (vectorstore : option VectorStore) (filters : FilterSet) (qid : string)
    (request : PromptRequest) (now : Z) (query_cache : QueryCache)
    : result RAGResponse * QueryCache :=
  let m := resolve_mode request documents in
  match m with
  | STATISTICAL =>
      match process_statistical_query documents (prompt request) with
      | Raise e => (Raise e, query_cache)
      | Ok (answer, stats, filter_desc, match_count) =>
          match apply_filters documents filters (prompt request) with
          | Raise e => (Raise e, query_cache)
          | Ok (filtered_docs, _) =>
              (Ok {| query_id := qid; r_answer := answer; r_mode := m;
                     matching_transactions_count := match_count;
                     r_filters_applied := Some filter_desc;
                     transactions := None; pagination := None;
                     r_statistics := Some stats |},
               cache_query_results qid answer m filtered_docs
                 (Some filter_desc) (Some stats) now query_cache)
          end
      end
  | _ =>
      if match m with SMART_FULL => true | _ => false end
         || match use_full_data request with Some true => true | _ => false end
      then
        match process_smart_full_query documents (prompt request)
                (show_all request) with
        | Raise e => (Raise e, query_cache)
        | Ok (answer, filtered_docs, filter_descriptions) =>
            let query_cache' :=
              cache_query_results qid answer m filtered_docs
                (Some filter_descriptions) None now query_cache in
            match paginate filtered_docs (show_all request) (page request)
                    (page_size request) with
            | Raise e => (Raise e, query_cache')
            | Ok (txs, pg) =>
                (Ok {| query_id := qid; r_answer := answer; r_mode := m;
                       matching_transactions_count := length filtered_docs;
                       r_filters_applied := Some filter_descriptions;
                       transactions := txs; pagination := pg;
                       r_statistics := None |}, query_cache')
            end
        end
      else
        let prompt_lower := lower (prompt request) in
        let is_analytical := any_in endpoint_analytical_keywords prompt_lower in
        let is_counting_query :=
          existsb (fun p => re_search p prompt_lower) endpoint_counting_patterns in
        if is_analytical || is_counting_query then
          match process_analytical_query documents (prompt request) with
          | Raise e => (Raise e, query_cache)
          | Ok res =>
              (Ok {| query_id := qid; r_answer := res; r_mode := m;
                     matching_transactions_count := length documents;
                     r_filters_applied := None; transactions := None;
                     pagination := None; r_statistics := None |},
               cache_query_results qid res m [] None None now query_cache)
          end
        else
          let k_value := Nat.min 50 (length documents) in
          match process_vector_search_query vectorstore (prompt request) k_value with
          | Raise e => (Raise e, query_cache)
          | Ok res =>
              (Ok {| query_id := qid; r_answer := res; r_mode := m;
                     matching_transactions_count := k_value;
                     r_filters_applied := None; transactions := None;
                     pagination := None; r_statistics := None |}, query_cache)
          end
  end.

(** The body of the returned [RAGResponse]: [transactions] holds the
    [TransactionInfo] objects, [resp_data] the rest of [response_data]
    (its [transactions] field the records they were formatted from). *)
Record PromptResponse : Type := {
  resp_data : RAGResponse;
  resp_transactions : option (list TransactionInfo)
}.

(** [[format_transaction_for_api(doc) for doc in paginated_docs]] *)
Definition render_response (r : RAGResponse) : result PromptResponse :=
  match transactions r with
  | None => Ok {| resp_data := r; resp_transactions := None |}
  | Some docs =>
      let* infos := mapM format_transaction_for_api docs in
      Ok {| resp_data := r; resp_transactions := Some infos |}
  end.

(** Lines 249-255: a non-empty [query_id] of the request, else the hash. *)
Definition resolve_query_id (request : PromptRequest) (filters : FilterSet)
    : string :=
  match req_query_id request with
  | Some q => if String.eqb q "" then generate_query_id (prompt request) filters
              else q
  | None => generate_query_id (prompt request) filters
  end.

(** [query_with_prompt(request)]: [t_sweep <= t_check] are the clock
    readings of [get_cached_query], [now] that of [cache_query_results]. *)
Definition query_with_prompt (models_ready : bool) (store : IngestedStore)
    (request : PromptRequest) (query_cache : QueryCache) (t_sweep t_check now : Z)
    : http_result PromptResponse * QueryCache :=
  if negb models_ready then (HttpError 503, query_cache) else
  if negb (has_ingested_data store) then (HttpError 400, query_cache) else
  let documents := store_transactions store in
  let filters := extract_filters_from_query (prompt request) in
  let qid := resolve_query_id request filters in
  let (outcome, query_cache1) :=
    prompt_cache_step qid request query_cache t_sweep t_check in
  let (res, query_cache2) :=
    match outcome with
    | Raise e => (Raise e, query_cache1)
    | Ok (Respond r) => (Ok r, query_cache1)
    | Ok RunPipeline =>
        prompt_pipeline documents (store_vectorstore store) filters qid request
          now query_cache1
    end in
  match bind res render_response with
  | Ok r => (HttpOk r, query_cache2)
  | Raise _ => (HttpError 500, query_cache2)
  end.

End Endpoints.

Arguments Build_IngestedStore {VectorStore} _ _ _ _.
Arguments store_transactions {VectorStore} i.
Arguments store_vectorstore {VectorStore} i.
Arguments store_langchain_docs {VectorStore} i.
Arguments store_last_updated {VectorStore} i.
Arguments has_ingested_data {VectorStore} store.

(* ------------------------------------------------------------------ *)
(** ** Predicates used by the endpoint properties *)

(** A JSON value that is a [str]. *)
Definition is_str (v : pyval) : Prop := exists s, v = PStr s.

(** The records [format_transaction_for_api] accepts, field by field. *)
Definition api_formattable (doc : record) : Prop :=
  (exists a, py_float (py_get doc "amount" (PNum 0)) = Ok a) /\
  is_str (py_get doc "pk_GSI_1" (PStr "N/A")) /\
  (exists b, py_float (py_get doc "currentBalance" (py_get doc "balance" (PNum 0))) = Ok b) /\
  is_str (py_get doc "txnId" (PStr "N/A")) /\
  is_str (py_get doc "accountId" (py_get doc "accountNumber" (PStr "N/A"))) /\
  is_str (py_get doc "createdAt" (PStr "N/A")) /\
  is_str (py_get doc "mode" (py_get doc "txnMode" (PStr "N/A"))) /\
  is_str (py_get doc "narration" (PStr "N/A")) /\
  is_str (py_get doc "reference" (py_get doc "txnRef" (PStr "N/A"))).


(** [is_analytical or is_counting_query] at lines 378-391 of
    [query_with_prompt]. *)
Definition endpoint_is_analytical (prompt_ : string) : bool :=
  any_in endpoint_analytical_keywords (lower prompt_)
  || existsb (fun p => re_search p (lower prompt_)) endpoint_counting_patterns.

(* ------------------------------------------------------------------ *)
(** ** Concrete services for the endpoint witnesses *)

Definition demo_generate_query_id (p : string) (_ : FilterSet) : string := p.
Definition demo_answer (_ : string) (_ : list record) (_ : FilterSet)
    (_ : list FilterDesc) (_ : bool) : result string := Ok "answer".
Definition demo_statistical_answer (_ : string) (_ : Statistics)
    (_ : list FilterDesc) : string := "stats".
Definition demo_analytical (_ : list record) (_ : string) : result string :=
  Ok "analysis".
Definition demo_vector_search (_ : option unit) (_ : string) (_ : nat)
    : result string := Ok "found".

Definition demo_store : IngestedStore unit :=
  {| store_transactions :=
       [txn "t1" 6000 "2024-03-02T10:00:00" "UPI" "paid to Ravi Kumar";
        txn "t2" 300 "2024-03-05T10:00:00" "CASH" "tea"];
     store_vectorstore := Some tt; store_langchain_docs := [];
     store_last_updated := Some "2026-01-01T00:00:00" |}.

Definition demo_request (p : string) (pg : nat) (u : option bool)
    (q : option string) : PromptRequest :=
  {| prompt := p; page := pg; page_size := 1; show_all := true;
     use_full_data := u; req_query_id := q |}.

Abbreviation demo_query :=
  (query_with_prompt unit demo_generate_query_id demo_answer
     demo_statistical_answer demo_analytical demo_vector_search).

(** A record sent as JSON with ["mode": null]. *)
Definition null_mode_record : record :=
  [("txnId", PStr "t1"); ("amount", PNum 500);
   ("createdAt", PStr "2024-03-02T10:00:00"); ("mode", PNone);
   ("narration", PStr "paid to Ravi"); ("pk_GSI_1", PStr "TYPE#DEBIT")].

Definition empty_store : IngestedStore unit :=
  {| store_transactions := []; store_vectorstore := None;
     store_langchain_docs := []; store_last_updated := None |}.

Abbreviation demo_ingest :=
  (ingest_context_data (fun _ => ""%string) (fun _ => ""%string) unit
     (fun _ => Ok tt) true).

(* ================================================================== *)
(** * Properties *)

(* ------------------------------------------------------------------ *)
(** ** Helper lemmas *)

Lemma filterM_nil {A} (p : A -> result bool) : filterM p [] = Ok [].
Proof. reflexivity. Qed.

Definition month_in_lexicon (filters : FilterSet) : Prop :=
  match date_filter filters with
  | Some df => match df_month df with Some m => 1 <= m <= 12 | None => True end
  | None => True
  end.

Lemma date_description_ok (df : DateFilter) :
  match df_month df with Some m => 1 <= m <= 12 | None => True end ->
  exists ds, date_description df = Ok ds.
Proof.
  unfold date_description. intros Hm.
  destruct (df_month df) as [m|], (df_year df) as [y|]; eauto.
  assert (m = 1 \/ m = 2 \/ m = 3 \/ m = 4 \/ m = 5 \/ m = 6 \/ m = 7 \/
          m = 8 \/ m = 9 \/ m = 10 \/ m = 11 \/ m = 12) as Hc by lia.
  repeat destruct Hc as [Hc|Hc]; subst; eexists; reflexivity.
Qed.

(** On an empty record list every stage succeeds and keeps it empty, as
    long as the month index of the date description is in range. *)
Lemma apply_filters_nil (filters : FilterSet) (question : string) :
  month_in_lexicon filters ->
  exists ds, apply_filters [] filters question = Ok ([], ds).
Proof.
  unfold month_in_lexicon, apply_filters. intros Hm.
  assert (exists ds1, date_stage filters ([], []) = Ok ([], ds1)) as [ds1 ->].
  { unfold date_stage. destruct (date_filter filters) as [df|]; eauto.
    destruct (df_truthy df); eauto.
    destruct (date_description_ok df Hm) as [ds Hds]. rewrite Hds. simpl. eauto. }
  simpl.
  unfold mode_stage, type_stage, amount_stage, account_stage, person_stage.
  destruct (mode filters); [destruct (opt_str_truthy _)|]; simpl;
  (destruct (type filters); [destruct (opt_str_truthy _)|]); simpl;
  (destruct (amount_range filters) as [[lo hi]|];
   [|destruct (opt_num_truthy (amount_above filters));
     [|destruct (opt_num_truthy (amount_below filters))]]); simpl;
  (destruct (account_id filters); [destruct (opt_str_truthy _)|]); simpl;
  (destruct (person_name filters); [destruct (opt_str_truthy _);
     [destruct (strict_name_match filters)|]|]); simpl; eauto.
Qed.

(* ------------------------------------------------------------------ *)
(** ** C8: the counting rule wins over the analytical rule *)

(** Claim C8: every prompt matching one of the priority-1 counting
    patterns (and also the priority-6 analytical keyword family) is
    classified VECTOR_SEARCH by the first test of the cascade: the
    conclusion needs nothing but the counting match. *)
Theorem detect_counting_before_analytical (question : string)
    (documents : list record) :
  existsb (fun p => re_search p (lower question)) counting_patterns = true ->
  any_in analytical_keywords (lower question) = true ->
  detect_query_mode question documents = VECTOR_SEARCH.
Proof.
  intros Hcount _. unfold detect_query_mode. cbv zeta. now rewrite Hcount.
Qed.

Lemma detect_counting_before_analytical_witness :
  existsb (fun p => re_search p (lower "How many transactions, and what trends?"))
    counting_patterns = true /\
  any_in analytical_keywords (lower "How many transactions, and what trends?") = true /\
  detect_query_mode "How many transactions, and what trends?" [] = VECTOR_SEARCH.
Proof.
  assert (H1 : existsb (fun p => re_search p (lower "How many transactions, and what trends?"))
                 counting_patterns = true) by (vm_compute; reflexivity).
  assert (H2 : any_in analytical_keywords (lower "How many transactions, and what trends?")
                 = true) by (vm_compute; reflexivity).
  split; [exact H1|]. split; [exact H2|].
  exact (detect_counting_before_analytical _ [] H1 H2).
Defined.

(* ------------------------------------------------------------------ *)
(** ** C9: statistics of an empty result *)

(** Claim C9: when the filtered result is empty, [calculate_statistics]
    returns the all-zero object without raising; in particular on an empty
    record set, for any filter set whose month (if any) is a month of the
    extractor's lexicon (1..12). *)
Theorem calculate_statistics_empty (documents : list record)
    (filters : FilterSet) :
  (forall ds, apply_filters documents filters "" = Ok ([], ds) ->
     calculate_statistics documents filters = Ok zero_statistics) /\
  (month_in_lexicon filters ->
     calculate_statistics [] filters = Ok zero_statistics).
Proof.
  split.
  - intros ds H. unfold calculate_statistics. rewrite H. reflexivity.
  - intros Hm. destruct (apply_filters_nil filters "" Hm) as [ds H].
    unfold calculate_statistics. rewrite H. reflexivity.
Qed.

Lemma calculate_statistics_empty_witness :
  calculate_statistics [txn "a" 10 "2024-01-01" "UPI" ""]
    {| amount_above := Some 50%Q; amount_below := None; amount_range := None;
       date_filter := None; mode := None; type := None; account_id := None;
       person_name := None; strict_name_match := false |} = Ok zero_statistics /\
  calculate_statistics []
    {| amount_above := None; amount_below := None; amount_range := None;
       date_filter := Some {| df_month := Some 3; df_year := Some 2024 |};
       mode := Some "UPI"; type := None; account_id := None;
       person_name := None; strict_name_match := false |} = Ok zero_statistics.
Proof.
  split.
  - apply (proj1 (calculate_statistics_empty _ _) [DescAbove 50%Q]).
    vm_compute. reflexivity.
  - apply (proj2 (calculate_statistics_empty [] _)).
    unfold month_in_lexicon. simpl. lia.
Defined.

(* ------------------------------------------------------------------ *)
(** ** C5: a range wins over above and below *)

(** Claim C5: when the lowered question contains "between" and at least
    two numeric tokens survive (even if above- and below-keywords are also
    present), only [amount_range] is set, with its bounds ordered. *)
Theorem extract_between_only_range (question : string) :
  str_in "between" (lower question) = true ->
  (2 <= length (amounts_processed (lower question)))%nat ->
  any_in above_words (lower question) = true ->
  any_in below_words (lower question) = true ->
  exists lo hi, extract_amount_filters question = (None, None, Some (lo, hi))
                /\ (lo <= hi)%Q.
Proof.
  intros Hb Hlen _ _. unfold extract_amount_filters. cbv zeta.
  rewrite Hb. apply Nat.leb_le in Hlen. rewrite Hlen. simpl.
  apply Nat.leb_le in Hlen.
  destruct (amounts_processed (lower question)) as [|a [|b rest]];
    simpl in Hlen; try lia.
  destruct (Qlt_bool b a) eqn:Hba; eexists; eexists; split; try reflexivity.
  - unfold Qlt_bool in Hba. apply negb_true_iff in Hba.
    destruct (Qle_bool a b) eqn:Hab; [discriminate|].
    apply Qlt_le_weak, Qnot_le_lt. intros Hle.
    apply Qle_bool_iff in Hle. congruence.
  - unfold Qlt_bool in Hba. apply negb_false_iff in Hba.
    now apply Qle_bool_iff.
Qed.

Lemma extract_between_only_range_witness :
  exists lo hi,
    extract_amount_filters "between 30,000 and 10k, above or below?"
    = (None, None, Some (lo, hi)) /\ (lo <= hi)%Q.
Proof.
  apply extract_between_only_range; vm_compute; try reflexivity; lia.
Defined.

(* ------------------------------------------------------------------ *)
(** ** C7: pagination tiles the sorted result *)

Lemma mapM_length {A B} (f : A -> result B) (l : list A) (l' : list B) :
  mapM f l = Ok l' -> length l' = length l.
Proof.
  revert l'. induction l as [|x l IH]; intros l' H; simpl in H.
  - now inversion H.
  - destruct (f x); [|discriminate]. simpl in H.
    destruct (mapM f l) as [r|]; [|discriminate]. simpl in H.
    inversion H; subst. simpl. now rewrite (IH r eq_refl).
Qed.

Lemma insert_desc_length (x : Q * record) (l : list (Q * record)) :
  length (insert_desc x l) = S (length l).
Proof.
  induction l as [|y l IH]; simpl; [reflexivity|].
  destruct (Qlt_bool (fst y) (fst x)); simpl; congruence.
Qed.

Lemma fold_insert_length (xs acc : list (Q * record)) :
  length (fold_left (fun acc x => insert_desc x acc) xs acc)
  = (length xs + length acc)%nat.
Proof.
  revert acc. induction xs as [|x xs IH]; intros acc; simpl; [reflexivity|].
  rewrite IH, insert_desc_length. lia.
Qed.

Lemma sort_by_amount_desc_length (docs sorted_docs : list record) :
  sort_by_amount_desc docs = Ok sorted_docs ->
  length sorted_docs = length docs.
Proof.
  unfold sort_by_amount_desc. destruct (mapM amount_of docs) as [keys|] eqn:Hk;
    [|discriminate]. simpl. intros H. inversion H; subst.
  rewrite length_map, fold_insert_length, length_combine.
  apply mapM_length in Hk. simpl. lia.
Qed.

(** Consecutive [page_size]-slices starting at 0 rebuild any list that
    they cover. *)
Lemma concat_slices (ps k : nat) (l : list record) :
  (length l <= k * ps)%nat ->
  concat (List.map (fun i => firstn ps (skipn (i * ps) l)) (seq 0 k)) = l.
Proof.
  revert l. induction k as [|k IH]; intros l Hlen.
  - simpl in *. destruct l; simpl in *; [reflexivity | lia].
  - rewrite <- cons_seq, <- seq_shift. simpl.
    rewrite List.map_map.
    replace (List.map (fun x => firstn ps (skipn (S x * ps) l)) (seq 0 k))
      with (List.map (fun i => firstn ps (skipn (i * ps) (skipn ps l))) (seq 0 k)).
    + rewrite IH; [apply firstn_skipn|]. rewrite length_skipn. simpl in Hlen. lia.
    + apply map_ext. intros i. rewrite skipn_skipn. f_equal. f_equal. lia.
Qed.

Lemma ceil_div_cover (n ps : nat) :
  (1 <= ps)%nat -> (n <= ((n + ps - 1) / ps) * ps)%nat.
Proof.
  intros Hps.
  pose proof (Nat.div_mod (n + ps - 1) ps ltac:(lia)) as Hdm.
  pose proof (Nat.mod_upper_bound (n + ps - 1) ps ltac:(lia)) as Hub.
  nia.
Qed.

Lemma skipn_nonempty_iff {A} (k : nat) (l : list A) :
  skipn k l <> [] <-> (k < length l)%nat.
Proof.
  split.
  - intros H. destruct (Nat.lt_ge_cases k (length l)) as [|Hge]; [assumption|].
    exfalso. apply H. now apply skipn_all2.
  - intros H Hnil. pose proof (length_skipn k l) as Hl. rewrite Hnil in Hl.
    simpl in Hl. lia.
Qed.

(** The page returned for [page] is the slice
    [[(page-1)*page_size, page*page_size)] of the sorted records. *)
Lemma paginate_page (filtered_docs sorted_docs : list record)
    (page page_size : nat) :
  filtered_docs <> [] ->
  sort_by_amount_desc filtered_docs = Ok sorted_docs ->
  paginate filtered_docs true page page_size
  = Ok (Some (py_slice sorted_docs ((page - 1) * page_size)
                                   ((page - 1) * page_size + page_size)),
        Some {| pg_page := page; pg_page_size := page_size;
                total_items := length filtered_docs;
                total_pages := ((length filtered_docs + page_size - 1) / page_size)%nat;
                has_next := ((page - 1) * page_size + page_size <? length filtered_docs)%nat;
                has_prev := (1 <? page)%nat |}).
Proof.
  intros Hne Hs. unfold paginate.
  destruct filtered_docs as [|d ds]; [contradiction|]. rewrite Hs. reflexivity.
Qed.

(** Claim C7: for [page_size >= 1], the pages [1 .. total_pages] returned
    by the pagination block, concatenated, are exactly the records sorted
    by decreasing amount (no gap, no overlap), with
    [total_pages = ceil(total_items / page_size)]; and for every page
    [has_next] holds iff [page*page_size < total_items] (iff a later slice
    is non-empty) and [has_prev] iff [page > 1]. *)
Theorem paginate_tiles (filtered_docs sorted_docs : list record)
    (page_size : nat) :
  (1 <= page_size)%nat ->
  filtered_docs <> [] ->
  sort_by_amount_desc filtered_docs = Ok sorted_docs ->
  let n := length filtered_docs in
  let tp := ((n + page_size - 1) / page_size)%nat in
  concat (List.map (fun p =>
            match paginate filtered_docs true p page_size with
            | Ok (Some xs, _) => xs
            | _ => []
            end) (seq 1 tp)) = sorted_docs /\
  forall page, (1 <= page)%nat ->
    exists xs pg,
      paginate filtered_docs true page page_size = Ok (Some xs, Some pg) /\
      xs = py_slice sorted_docs ((page - 1) * page_size) (page * page_size) /\
      total_items pg = n /\
      total_pages pg = tp /\
      (has_next pg = true <-> (page * page_size < n)%nat) /\
      (has_next pg = true <-> skipn (page * page_size) sorted_docs <> []) /\
      (has_prev pg = true <-> (1 < page)%nat).
Proof.
  intros Hps Hne Hs n tp.
  pose proof (sort_by_amount_desc_length _ _ Hs) as Hlen.
  split.
  - rewrite <- seq_shift, List.map_map.
    erewrite map_ext.
    + apply concat_slices. rewrite Hlen. apply ceil_div_cover. assumption.
    + intros i. rewrite (paginate_page _ _ _ _ Hne Hs). unfold py_slice.
      f_equal; [lia|]. f_equal. lia.
  - intros page Hpage.
    rewrite (paginate_page _ _ _ _ Hne Hs).
    eexists; eexists; split; [reflexivity|].
    assert (((page - 1) * page_size + page_size)%nat = (page * page_size)%nat)
      as Hend by nia.
    simpl. rewrite Hend. split; [reflexivity|].
    split; [reflexivity|]. split; [reflexivity|].
    split; [apply Nat.ltb_lt|].
    split; [rewrite skipn_nonempty_iff, Hlen; apply Nat.ltb_lt|].
    apply Nat.ltb_lt.
Qed.

Lemma paginate_tiles_witness :
  (1 <= 2)%nat /\
  [txn "a" 10 "" "UPI" ""; txn "b" 30 "" "UPI" ""; txn "c" 20 "" "UPI" ""] <> [] /\
  sort_by_amount_desc
    [txn "a" 10 "" "UPI" ""; txn "b" 30 "" "UPI" ""; txn "c" 20 "" "UPI" ""]
  = Ok [txn "b" 30 "" "UPI" ""; txn "c" 20 "" "UPI" ""; txn "a" 10 "" "UPI" ""] /\
  concat (List.map (fun p =>
            match paginate
                    [txn "a" 10 "" "UPI" ""; txn "b" 30 "" "UPI" ""; txn "c" 20 "" "UPI" ""]
                    true p 2 with
            | Ok (Some xs, _) => xs
            | _ => []
            end) (seq 1 2))
  = [txn "b" 30 "" "UPI" ""; txn "c" 20 "" "UPI" ""; txn "a" 10 "" "UPI" ""].
Proof.
  assert (Hs : sort_by_amount_desc
    [txn "a" 10 "" "UPI" ""; txn "b" 30 "" "UPI" ""; txn "c" 20 "" "UPI" ""]
    = Ok [txn "b" 30 "" "UPI" ""; txn "c" 20 "" "UPI" ""; txn "a" 10 "" "UPI" ""])
    by (vm_compute; reflexivity).
  assert (Hne : [txn "a" 10 "" "UPI" ""; txn "b" 30 "" "UPI" ""; txn "c" 20 "" "UPI" ""]
                <> []) by discriminate.
  split; [lia|]. split; [exact Hne|]. split; [exact Hs|].
  exact (proj1 (paginate_tiles _ _ 2 ltac:(lia) Hne Hs)).
Defined.

(* ------------------------------------------------------------------ *)
(** ** C4: TTL semantics of the query cache *)

Lemma lookup_fold_delete (ks : list string) (m : QueryCache) (k : string) :
  fold_left (fun c key => delete key c) ks m !! k
  = if existsb (String.eqb k) ks then None else m !! k.
Proof.
  revert m. induction ks as [|k' ks IH]; intros m; simpl.
  - reflexivity.
  - rewrite IH. destruct (existsb (String.eqb k) ks) eqn:Hin.
    + now rewrite orb_true_r.
    + rewrite orb_false_r. destruct (String.eqb k k') eqn:Hkk.
      * apply String.eqb_eq in Hkk. subst k'. apply lookup_delete_eq.
      * apply String.eqb_neq in Hkk. apply lookup_delete_ne. congruence.
Qed.

(** What survives the sweep: exactly the entries not expired at the sweep
    clock reading. *)
Lemma lookup_cleanup (m : QueryCache) (t : Z) (k : string) :
  cleanup_expired_cache m t !! k
  = match m !! k with
    | Some e => if is_expired t e then None else Some e
    | None => None
    end.
Proof.
  unfold cleanup_expired_cache. rewrite lookup_fold_delete.
  destruct (existsb _ _) eqn:Hin.
  - apply existsb_exists in Hin as [k' [Hin Hk]].
    apply String.eqb_eq in Hk. subst k'.
    apply in_map_iff in Hin as [[k' e] [Hk Hin]]. simpl in Hk. subst k'.
    apply filter_In in Hin as [Hin Hexp]. simpl in Hexp.
    apply list_elem_of_In, elem_of_map_to_list in Hin. rewrite Hin, Hexp.
    reflexivity.
  - destruct (m !! k) as [e|] eqn:Hk; [|reflexivity].
    destruct (is_expired t e) eqn:Hexp; [|reflexivity].
    exfalso. apply (proj2 (not_true_iff_false _) Hin).
    apply existsb_exists. exists k. split; [|apply String.eqb_refl].
    apply in_map_iff. exists (k, e). split; [reflexivity|].
    apply filter_In. split; [|exact Hexp].
    apply list_elem_of_In, elem_of_map_to_list. exact Hk.
Qed.

(** Claim C4: with [t_sweep <= t_check] the two clock readings of one
    [get_cached_query] call,
    - it returns the stored entry iff the entry exists and
      [t_check - insertion <= TTL], and otherwise reports a miss with the
      key absent from the store afterwards;
    - after the call no entry whose age at the sweep exceeds the TTL
      remains, and every entry of the store was expired from it
      (so an entry is evicted at the first access of any key past its
      expiry); the call only removes entries. *)
Theorem get_cached_query_ttl (qid : string) (query_cache : QueryCache)
    (t_sweep t_check : Z) :
  t_sweep <= t_check ->
  let (res, query_cache') := get_cached_query qid query_cache t_sweep t_check in
  (forall e, res = Some e <->
             query_cache !! qid = Some e /\ t_check - c_timestamp e <= cache_ttl) /\
  (res = None -> query_cache' !! qid = None) /\
  (forall k e, query_cache' !! k = Some e -> t_sweep - c_timestamp e <= cache_ttl) /\
  (forall k e, query_cache !! k = Some e -> cache_ttl < t_sweep - c_timestamp e ->
               query_cache' !! k = None) /\
  (forall k e, query_cache' !! k = Some e -> query_cache !! k = Some e).
Proof.
  intros Hle.
  assert (Hkeep : forall k e, cleanup_expired_cache query_cache t_sweep !! k = Some e ->
            query_cache !! k = Some e /\ t_sweep - c_timestamp e <= cache_ttl).
  { intros k e H. rewrite lookup_cleanup in H.
    destruct (query_cache !! k) as [e'|]; [|discriminate].
    destruct (is_expired t_sweep e') eqn:Hx; [discriminate|]. inversion H; subst.
    unfold is_expired in Hx. apply Z.ltb_ge in Hx. split; [reflexivity | lia]. }
  assert (Hdrop : forall k e, query_cache !! k = Some e ->
            cache_ttl < t_sweep - c_timestamp e ->
            cleanup_expired_cache query_cache t_sweep !! k = None).
  { intros k e H Hx. rewrite lookup_cleanup, H.
    unfold is_expired. apply Z.ltb_lt in Hx. now rewrite Hx. }
  unfold get_cached_query.
  destruct (cleanup_expired_cache query_cache t_sweep !! qid) as [c|] eqn:Hc.
  - destruct (Hkeep _ _ Hc) as [Hq Hage].
    destruct (t_check - c_timestamp c <=? cache_ttl) eqn:Hchk.
    + apply Z.leb_le in Hchk.
      split; [|split; [|split; [|split]]].
      * intros e. split.
        -- intros H. inversion H; subst. split; assumption.
        -- intros [H1 H2]. congruence.
      * discriminate.
      * intros k e H. exact (proj2 (Hkeep _ _ H)).
      * exact Hdrop.
      * intros k e H. exact (proj1 (Hkeep _ _ H)).
    + apply Z.leb_gt in Hchk.
      split; [|split; [|split; [|split]]].
      * intros e. split; [discriminate|]. intros [H1 H2].
        rewrite Hq in H1. inversion H1; subst. lia.
      * intros _. apply lookup_delete_eq.
      * intros k e H. destruct (String.eqb k qid) eqn:Hk.
        -- apply String.eqb_eq in Hk. subst k. rewrite lookup_delete_eq in H.
           discriminate.
        -- apply String.eqb_neq in Hk. rewrite lookup_delete_ne in H by congruence.
           exact (proj2 (Hkeep _ _ H)).
      * intros k e H Hx. destruct (String.eqb k qid) eqn:Hk.
        -- apply String.eqb_eq in Hk. subst k. apply lookup_delete_eq.
        -- apply String.eqb_neq in Hk. rewrite lookup_delete_ne by congruence.
           exact (Hdrop _ _ H Hx).
      * intros k e H. destruct (String.eqb k qid) eqn:Hk.
        -- apply String.eqb_eq in Hk. subst k. rewrite lookup_delete_eq in H.
           discriminate.
        -- apply String.eqb_neq in Hk. rewrite lookup_delete_ne in H by congruence.
           exact (proj1 (Hkeep _ _ H)).
  - split; [|split; [|split; [|split]]].
    + intros e. split; [discriminate|]. intros [H1 H2].
      rewrite lookup_cleanup, H1 in Hc.
      destruct (is_expired t_sweep e) eqn:Hx; [|discriminate].
      unfold is_expired in Hx. apply Z.ltb_lt in Hx. lia.
    + intros _. exact Hc.
    + intros k e H. exact (proj2 (Hkeep _ _ H)).
    + exact Hdrop.
    + intros k e H. exact (proj1 (Hkeep _ _ H)).
Qed.

Definition sample_entry (ts : Z) : CacheEntry :=
  {| c_answer := "You have 3 transactions above 5000"; c_mode := SMART_FULL;
     c_filtered_docs := [txn "a" 6000 "" "UPI" ""; txn "b" 7000 "" "UPI" "";
                         txn "c" 9000 "" "UPI" ""];
     c_filters_applied := Some [DescAbove 5000%Q];
     c_statistics := None; c_timestamp := ts |}.

Lemma get_cached_query_ttl_witness :
  0 <= 5 /\
  (let (res, query_cache') :=
     get_cached_query "q1" (<["q1" := sample_entry 0]> ∅) 0 5 in
   (forall e, res = Some e <->
      (<["q1" := sample_entry 0]> ∅ : QueryCache) !! "q1" = Some e /\
      5 - c_timestamp e <= cache_ttl) /\
   (res = None -> query_cache' !! "q1" = None) /\
   (forall k e, query_cache' !! k = Some e -> 0 - c_timestamp e <= cache_ttl) /\
   (forall k e, (<["q1" := sample_entry 0]> ∅ : QueryCache) !! k = Some e ->
      cache_ttl < 0 - c_timestamp e -> query_cache' !! k = None) /\
   (forall k e, query_cache' !! k = Some e ->
      (<["q1" := sample_entry 0]> ∅ : QueryCache) !! k = Some e)).
Proof.
  split; [lia|].
  apply (get_cached_query_ttl "q1" (<["q1" := sample_entry 0]> ∅) 0 5).
  lia.
Defined.

(* ------------------------------------------------------------------ *)
(** ** The cache lookup of the [/prompt] endpoint *)

Lemma get_cached_query_hit (qid : string) (query_cache : QueryCache)
    (t_sweep t_check : Z) (e : CacheEntry) :
  t_sweep <= t_check ->
  query_cache !! qid = Some e ->
  t_check - c_timestamp e <= cache_ttl ->
  fst (get_cached_query qid query_cache t_sweep t_check) = Some e.
Proof.
  intros Hle Hq Hage. unfold get_cached_query.
  rewrite lookup_cleanup, Hq.
  assert (Hx : is_expired t_sweep e = false)
    by (unfold is_expired; apply Z.ltb_ge; lia).
  rewrite Hx. apply Z.leb_le in Hage. now rewrite Hage.
Qed.

(* ------------------------------------------------------------------ *)
(** ** C2: exclusive amount thresholds, and the zero threshold *)

Definition above_filters (t : Q) : FilterSet :=
  {| amount_above := Some t; amount_below := None; amount_range := None;
     date_filter := None; mode := None; type := None; account_id := None;
     person_name := None; strict_name_match := false |}.

Definition below_filters (t : Q) : FilterSet :=
  {| amount_above := None; amount_below := Some t; amount_range := None;
     date_filter := None; mode := None; type := None; account_id := None;
     person_name := None; strict_name_match := false |}.

(** Claim C2 at the threshold [0]: [elif filters.get('amount_above'):]
    treats the threshold [0.0] as "no filter", so a record of amount [0]
    (not [> 0]) is kept and no description is produced; likewise
    [amount_below = 0] keeps a record of amount [5] (not [< 0]).  The
    extractor does produce these filter sets, e.g. for "above 0". *)
Lemma apply_filters_zero_threshold :
  extract_amount_filters "transactions above 0" = (Some 0%Q, None, None) /\
  apply_filters [txn "t0" 0 "2024-03-01" "UPI" "zero"] (above_filters 0) ""
    = Ok ([txn "t0" 0 "2024-03-01" "UPI" "zero"], []) /\
  apply_filters [txn "t5" 5 "2024-03-01" "UPI" "five"] (below_filters 0) ""
    = Ok ([txn "t5" 5 "2024-03-01" "UPI" "five"], []).
Proof. split; [|split]; vm_compute; reflexivity. Qed.

(* ------------------------------------------------------------------ *)
(** ** C3: a record with a null [mode] makes [apply_filters] raise *)

(** Claim C3 fails on input the service accepts.  [/ingest] stores a
    record whose [mode] is JSON [null] (only [amount], [balance] and
    [pk_GSI_1] are converted there, and they are valid); the question
    "list all UPI transactions" yields the filter [mode = 'UPI'] and the
    mode SMART_FULL, and the mode stage of [apply_filters] then evaluates
    [None.upper()], which raises [AttributeError]: the [/prompt] request
    fails with status 500 instead of treating the record as a
    non-match. *)
Lemma apply_filters_null_mode :
  fst (demo_ingest [null_mode_record] "2026-01-01T00:00:00" empty_store)
    = HttpOk {| ir_status := "success";
                ir_message := "Context data ingested successfully";
                transactions_ingested := 1;
                ir_timestamp := "2026-01-01T00:00:00" |} /\
  store_transactions (snd (demo_ingest [null_mode_record] "2026-01-01T00:00:00"
                             empty_store))
    = [null_mode_record] /\
  mode (extract_filters_from_query "list all UPI transactions") = Some "UPI" /\
  detect_query_mode "list all UPI transactions" [null_mode_record] = SMART_FULL /\
  apply_filters [null_mode_record]
    (extract_filters_from_query "list all UPI transactions")
    "list all UPI transactions" = Raise AttributeError /\
  fst (demo_query true
         (snd (demo_ingest [null_mode_record] "2026-01-01T00:00:00" empty_store))
         (demo_request "list all UPI transactions" 1 None None) ∅ 0 0 0)
    = HttpError 500.
Proof. repeat split; vm_compute; reflexivity. Qed.

(* ------------------------------------------------------------------ *)
(** ** C6: [apply_filters] is idempotent *)

Lemma bind_ok {A B} (m : result A) (k : A -> result B) (b : B) :
  bind m k = Ok b -> exists a, m = Ok a /\ k a = Ok b.
Proof. destruct m; simpl; [eauto | discriminate]. Qed.

Lemma filterM_sound {A} (p : A -> result bool) (l l' : list A) :
  filterM p l = Ok l' -> incl l' l /\ Forall (fun x => p x = Ok true) l'.
Proof.
  revert l'. induction l as [|x l IH]; intros l' H; simpl in H.
  - inversion H; subst. split; [apply incl_nil_l | constructor].
  - apply bind_ok in H as [b [Hb H]]. apply bind_ok in H as [r [Hr H]].
    inversion H; subst. destruct (IH r Hr) as [Hi Hf].
    destruct b.
    + split; [apply incl_cons; [now left | now apply incl_tl]|].
      constructor; assumption.
    + split; [now apply incl_tl | assumption].
Qed.

Lemma filterM_keep {A} (p : A -> result bool) (l : list A) :
  Forall (fun x => p x = Ok true) l -> filterM p l = Ok l.
Proof.
  induction 1 as [|x l Hx Hl IH]; simpl; [reflexivity|].
  now rewrite Hx; simpl; rewrite IH.
Qed.

Lemma filter_keep {A} (f : A -> bool) (l : list A) :
  Forall (fun x => f x = true) l -> List.filter f l = l.
Proof.
  induction 1 as [|x l Hx Hl IH]; simpl; [reflexivity|]. now rewrite Hx, IH.
Qed.

Lemma filter_sound {A} (f : A -> bool) (l : list A) :
  incl (List.filter f l) l /\ Forall (fun x => f x = true) (List.filter f l).
Proof.
  split.
  - intros x Hx. now apply filter_In in Hx.
  - apply List.Forall_forall. intros x Hx. now apply filter_In in Hx.
Qed.

Lemma mapM_ok {A B} (f : A -> result B) (l : list A) :
  Forall (fun x => exists y, f x = Ok y) l -> exists ys, mapM f l = Ok ys.
Proof.
  induction 1 as [|x l [y Hy] Hl [ys IH]]; simpl; [eauto|].
  rewrite Hy; simpl; rewrite IH; simpl; eauto.
Qed.

(** The shape shared by all stages: a successful run appends descriptions
    that depend on the filter set only and keeps a sub-list of records
    that all satisfy some predicate [P]; any list whose records all
    satisfy [P] then goes through the stage unchanged, with the same
    descriptions. *)
Definition stage_shape (S : FilterAcc -> result FilterAcc) : Prop :=
  forall l0 ds0 l0' ds0', S (l0, ds0) = Ok (l0', ds0') ->
  exists (P : record -> Prop) (dS : list FilterDesc),
    ds0' = ds0 ++ dS /\ incl l0' l0 /\ Forall P l0' /\
    forall l ds, Forall P l -> S (l, ds) = Ok (l, ds ++ dS).

Lemma inactive_shape (S : FilterAcc -> result FilterAcc) :
  (forall st, S st = Ok st) -> stage_shape S.
Proof.
  intros HS l0 ds0 l0' ds0' H. rewrite HS in H. inversion H; subst.
  exists (fun _ => True), []. rewrite app_nil_r.
  split; [reflexivity|]. split; [apply incl_refl|].
  split; [apply Forall_forall; auto|].
  intros l ds _. now rewrite HS, app_nil_r.
Qed.

Lemma filterM_shape (p : record -> result bool) (d : list FilterDesc)
    (S : FilterAcc -> result FilterAcc) :
  (forall l ds, S (l, ds) = let* f := filterM p l in Ok (f, ds ++ d)) ->
  stage_shape S.
Proof.
  intros HS l0 ds0 l0' ds0' H. rewrite HS in H.
  apply bind_ok in H as [f [Hf H]]. inversion H; subst.
  destruct (filterM_sound p l0 l0' Hf) as [Hi Hp].
  exists (fun x => p x = Ok true), d.
  split; [reflexivity|]. split; [exact Hi|]. split; [exact Hp|].
  intros l ds Hl. rewrite HS, (filterM_keep p l Hl). reflexivity.
Qed.

Lemma date_stage_shape (filters : FilterSet) : stage_shape (date_stage filters).
Proof.
  unfold date_stage. destruct (date_filter filters) as [df|];
    [|apply inactive_shape; intros []; reflexivity].
  destruct (df_truthy df); [|apply inactive_shape; intros []; reflexivity].
  intros l0 ds0 l0' ds0' H.
  apply bind_ok in H as [dd [Hdd H]]. inversion H; subst.
  destruct (filter_sound (date_matches df) l0) as [Hi Hp].
  exists (fun x => date_matches df x = true), dd.
  split; [reflexivity|]. split; [exact Hi|]. split; [exact Hp|].
  intros l ds Hl. rewrite (filter_keep _ l Hl), Hdd. reflexivity.
Qed.

Lemma mode_stage_shape (filters : FilterSet) : stage_shape (mode_stage filters).
Proof.
  unfold mode_stage. destruct (mode filters) as [m|];
    [|apply inactive_shape; intros []; reflexivity].
  destruct (opt_str_truthy (Some m)); [|apply inactive_shape; intros []; reflexivity].
  apply (filterM_shape (mode_matches m) [DescMode m]). reflexivity.
Qed.

Lemma type_stage_shape (filters : FilterSet) : stage_shape (type_stage filters).
Proof.
  unfold type_stage. destruct (type filters) as [t|];
    [|apply inactive_shape; intros []; reflexivity].
  destruct (opt_str_truthy (Some t)); [|apply inactive_shape; intros []; reflexivity].
  apply (filterM_shape (type_matches t) [DescType t]). reflexivity.
Qed.

Lemma account_stage_shape (filters : FilterSet) : stage_shape (account_stage filters).
Proof.
  unfold account_stage. destruct (account_id filters) as [a|];
    [|apply inactive_shape; intros []; reflexivity].
  destruct (opt_str_truthy (Some a)); [|apply inactive_shape; intros []; reflexivity].
  apply (filterM_shape (account_matches a) [DescAccount a]). reflexivity.
Qed.

Lemma person_stage_shape (filters : FilterSet) : stage_shape (person_stage filters).
Proof.
  unfold person_stage. destruct (person_name filters) as [n|];
    [|apply inactive_shape; intros []; reflexivity].
  destruct (opt_str_truthy (Some n)); [|apply inactive_shape; intros []; reflexivity].
  destruct (strict_name_match filters).
  - apply (filterM_shape (strict_name_matches n) [DescExactName n]). reflexivity.
  - apply (filterM_shape (loose_name_matches n) [DescPerson n]). reflexivity.
Qed.

Lemma amount_stage_shape (filters : FilterSet) : stage_shape (amount_stage filters).
Proof.
  unfold amount_stage. destruct (amount_range filters) as [[lo hi]|].
  - apply (filterM_shape (in_range_pred lo hi) [DescRange lo hi]). reflexivity.
  - destruct (opt_num_truthy (amount_above filters)).
    + set (t := match amount_above filters with Some t => t | None => 0%Q end).
      intros l0 ds0 l0' ds0' H.
      apply bind_ok in H as [f [Hf H]]. apply bind_ok in H as [v [Hv H]].
      inversion H; subst.
      destruct (filterM_sound _ l0 l0' Hf) as [Hi Hp].
      exists (fun x => above_pred t x = Ok true), [DescAbove t].
      split; [reflexivity|]. split; [exact Hi|]. split; [exact Hp|].
      intros l ds Hl. rewrite (filterM_keep _ l Hl). simpl.
      destruct (mapM_ok amount_of l) as [ys Hys].
      { eapply List.Forall_impl; [|exact Hl]. intros x Hx.
        unfold above_pred in Hx. destruct (amount_of x) as [a|]; [eauto|discriminate]. }
      destruct l; simpl; [reflexivity|]. simpl in Hys. rewrite Hys. reflexivity.
    + destruct (opt_num_truthy (amount_below filters));
        [|apply inactive_shape; intros []; reflexivity].
      set (t := match amount_below filters with Some t => t | None => 0%Q end).
      apply (filterM_shape (below_pred t) [DescBelow t]). reflexivity.
Qed.

Lemma Forall_incl_sub {A} (P : A -> Prop) (l l' : list A) :
  incl l' l -> Forall P l -> Forall P l'.
Proof.
  intros Hi Hl. apply List.Forall_forall. intros x Hx.
  exact (proj1 (List.Forall_forall P l) Hl x (Hi x Hx)).
Qed.

(** Claim C6: running [apply_filters] with the same filter set on the
    records it returned gives back exactly those records (and the same
    descriptions). *)
Theorem apply_filters_idempotent (documents : list record)
    (filters : FilterSet) (question : string)
    (filtered : list record) (descriptions : list FilterDesc) :
  apply_filters documents filters question = Ok (filtered, descriptions) ->
  apply_filters filtered filters question = Ok (filtered, descriptions).
Proof.
  unfold apply_filters. intros H.
  apply bind_ok in H as [[l1 d1] [H1 H]].
  apply bind_ok in H as [[l2 d2] [H2 H]].
  apply bind_ok in H as [[l3 d3] [H3 H]].
  apply bind_ok in H as [[l4 d4] [H4 H]].
  apply bind_ok in H as [[l5 d5] [H5 H6]].
  destruct (date_stage_shape filters _ _ _ _ H1) as (P1 & e1 & -> & I1 & F1 & K1).
  destruct (mode_stage_shape filters _ _ _ _ H2) as (P2 & e2 & -> & I2 & F2 & K2).
  destruct (type_stage_shape filters _ _ _ _ H3) as (P3 & e3 & -> & I3 & F3 & K3).
  destruct (amount_stage_shape filters _ _ _ _ H4) as (P4 & e4 & -> & I4 & F4 & K4).
  destruct (account_stage_shape filters _ _ _ _ H5) as (P5 & e5 & -> & I5 & F5 & K5).
  destruct (person_stage_shape filters _ _ _ _ H6) as (P6 & e6 & -> & I6 & F6 & K6).
  assert (J5 : incl filtered l5) by exact I6.
  assert (J4 : incl filtered l4) by (eapply incl_tran; [exact J5 | exact I5]).
  assert (J3 : incl filtered l3) by (eapply incl_tran; [exact J4 | exact I4]).
  assert (J2 : incl filtered l2) by (eapply incl_tran; [exact J3 | exact I3]).
  assert (J1 : incl filtered l1) by (eapply incl_tran; [exact J2 | exact I2]).
  rewrite (K1 filtered [] (Forall_incl_sub _ _ _ J1 F1)). cbn [bind].
  rewrite (K2 filtered _ (Forall_incl_sub _ _ _ J2 F2)). cbn [bind].
  rewrite (K3 filtered _ (Forall_incl_sub _ _ _ J3 F3)). cbn [bind].
  rewrite (K4 filtered _ (Forall_incl_sub _ _ _ J4 F4)). cbn [bind].
  rewrite (K5 filtered _ (Forall_incl_sub _ _ _ J5 F5)). cbn [bind].
  rewrite (K6 filtered _ F6). reflexivity.
Qed.

Lemma apply_filters_idempotent_witness :
  apply_filters
    [txn "t1" 6000 "2024-03-02T10:00:00" "UPI" "paid to Ravi Kumar";
     txn "t2" 100 "2024-03-05T10:00:00" "UPI" "tea";
     txn "t3" 9000 "2024-04-01T10:00:00" "UPI" "rent"]
    {| amount_above := Some 5000%Q; amount_below := None; amount_range := None;
       date_filter := Some {| df_month := Some 3; df_year := Some 2024 |};
       mode := Some "UPI"; type := None; account_id := None;
       person_name := None; strict_name_match := false |} ""
  = Ok ([txn "t1" 6000 "2024-03-02T10:00:00" "UPI" "paid to Ravi Kumar"],
        [DescDate "Mar" 2024; DescMode "UPI"; DescAbove 5000%Q]) /\
  apply_filters
    [txn "t1" 6000 "2024-03-02T10:00:00" "UPI" "paid to Ravi Kumar"]
    {| amount_above := Some 5000%Q; amount_below := None; amount_range := None;
       date_filter := Some {| df_month := Some 3; df_year := Some 2024 |};
       mode := Some "UPI"; type := None; account_id := None;
       person_name := None; strict_name_match := false |} ""
  = Ok ([txn "t1" 6000 "2024-03-02T10:00:00" "UPI" "paid to Ravi Kumar"],
        [DescDate "Mar" 2024; DescMode "UPI"; DescAbove 5000%Q]).
Proof.
  assert (H : apply_filters
    [txn "t1" 6000 "2024-03-02T10:00:00" "UPI" "paid to Ravi Kumar";
     txn "t2" 100 "2024-03-05T10:00:00" "UPI" "tea";
     txn "t3" 9000 "2024-04-01T10:00:00" "UPI" "rent"]
    {| amount_above := Some 5000%Q; amount_below := None; amount_range := None;
       date_filter := Some {| df_month := Some 3; df_year := Some 2024 |};
       mode := Some "UPI"; type := None; account_id := None;
       person_name := None; strict_name_match := false |} ""
  = Ok ([txn "t1" 6000 "2024-03-02T10:00:00" "UPI" "paid to Ravi Kumar"],
        [DescDate "Mar" 2024; DescMode "UPI"; DescAbove 5000%Q]))
    by (vm_compute; reflexivity).
  split; [exact H|]. exact (apply_filters_idempotent _ _ _ _ _ H).
Defined.

(* ------------------------------------------------------------------ *)
(** ** C10: the first counting pattern and the statistical keywords *)


Lemma skipn_app_length (a b : list ascii) : skipn (length a) (a ++ b) = b.
Proof. induction a; simpl; auto. Qed.

Lemma prefixb_app (p r : list ascii) : prefixb p (p ++ r) = true.
Proof.
  induction p as [|c p IH]; simpl; [reflexivity|].
  now rewrite Ascii.eqb_refl, IH.
Qed.

Lemma re_match_lit_at (f : nat) (a b w : list ascii) (k : nat -> bool) :
  k (length a + length w)%nat = true ->
  re_match f (a ++ w ++ b) (RLit w) (length a) k = true.
Proof.
  intros Hk. cbn [re_match]. rewrite skipn_app_length, prefixb_app, Hk.
  reflexivity.
Qed.


Lemma re_star_here (m : nat -> (nat -> bool) -> bool) (k : nat -> bool)
    (n i : nat) :
  k i = true -> re_star m k n i = true.
Proof. intros Hk. destruct n; simpl; now rewrite Hk. Qed.









(* ------------------------------------------------------------------ *)
(** ** [apply_filters]: the result is one filter of the input *)

Lemma filterM_filter {A} (p : A -> result bool) (l l' : list A) :
  filterM p l = Ok l' -> l' = List.filter (fun x => ok_true (p x)) l.
Proof.
  revert l'. induction l as [|x l IH]; intros l' H; simpl in H.
  - now inversion H.
  - apply bind_ok in H as [b [Hb H]]. apply bind_ok in H as [r [Hr H]].
    inversion H; subst. simpl. rewrite Hb, (IH r Hr).
    destruct b; reflexivity.
Qed.

Lemma filter_true_id {A} (l : list A) : List.filter (fun _ => true) l = l.
Proof. induction l as [|x l IH]; simpl; congruence. Qed.

Lemma filter_ext_eq {A} (f g : A -> bool) (l : list A) :
  (forall x, f x = g x) -> List.filter f l = List.filter g l.
Proof.
  intros H. induction l as [|x l IH]; simpl; [reflexivity|].
  rewrite H, IH. reflexivity.
Qed.

Lemma filter_filter_and {A} (f g : A -> bool) (l : list A) :
  List.filter g (List.filter f l) = List.filter (fun x => f x && g x) l.
Proof.
  induction l as [|x l IH]; simpl; [reflexivity|].
  destruct (f x); simpl; [destruct (g x)|]; simpl; congruence.
Qed.

(** A stage that keeps exactly the records passing [ps]. *)
Definition stage_filters (S : FilterAcc -> result FilterAcc)
    (ps : list (record -> result bool)) : Prop :=
  forall l ds l' ds', S (l, ds) = Ok (l', ds') -> l' = List.filter (passes_all ps) l.

Lemma inactive_filters (S : FilterAcc -> result FilterAcc) :
  (forall st, S st = Ok st) -> stage_filters S [].
Proof.
  intros HS l ds l' ds' H. rewrite HS in H. inversion H; subst.
  symmetry. apply filter_true_id.
Qed.

Lemma single_filters (S : FilterAcc -> result FilterAcc) (p : record -> result bool) :
  (forall l ds l' ds', S (l, ds) = Ok (l', ds') -> filterM p l = Ok l') ->
  stage_filters S [p].
Proof.
  intros HS l ds l' ds' H. rewrite (filterM_filter p l l' (HS _ _ _ _ H)).
  apply filter_ext_eq. intros x. unfold passes_all. simpl.
  now rewrite andb_true_r.
Qed.

Ltac filterM_stage :=
  apply single_filters; intros ? ? ? ? H;
  apply bind_ok in H as [? [? H]]; inversion H; subst; assumption.

Lemma date_stage_filters (filters : FilterSet) :
  stage_filters (date_stage filters) (date_preds filters).
Proof.
  unfold date_stage, date_preds. destruct (date_filter filters) as [df|];
    [|apply inactive_filters; intros []; reflexivity].
  destruct (df_truthy df); [|apply inactive_filters; intros []; reflexivity].
  intros l ds l' ds' H. apply bind_ok in H as [dd [_ H]]. inversion H; subst.
  apply filter_ext_eq. intros x. unfold passes_all. simpl.
  now destruct (date_matches df x).
Qed.

Lemma mode_stage_filters (filters : FilterSet) :
  stage_filters (mode_stage filters) (mode_preds filters).
Proof.
  unfold mode_stage, mode_preds. destruct (mode filters) as [m|];
    [|apply inactive_filters; intros []; reflexivity].
  destruct (opt_str_truthy (Some m)); [filterM_stage|].
  apply inactive_filters; intros []; reflexivity.
Qed.

Lemma type_stage_filters (filters : FilterSet) :
  stage_filters (type_stage filters) (type_preds filters).
Proof.
  unfold type_stage, type_preds. destruct (type filters) as [t|];
    [|apply inactive_filters; intros []; reflexivity].
  destruct (opt_str_truthy (Some t)); [filterM_stage|].
  apply inactive_filters; intros []; reflexivity.
Qed.

Lemma account_stage_filters (filters : FilterSet) :
  stage_filters (account_stage filters) (account_preds filters).
Proof.
  unfold account_stage, account_preds. destruct (account_id filters) as [a|];
    [|apply inactive_filters; intros []; reflexivity].
  destruct (opt_str_truthy (Some a)); [filterM_stage|].
  apply inactive_filters; intros []; reflexivity.
Qed.

Lemma person_stage_filters (filters : FilterSet) :
  stage_filters (person_stage filters) (person_preds filters).
Proof.
  unfold person_stage, person_preds. destruct (person_name filters) as [n|];
    [|apply inactive_filters; intros []; reflexivity].
  destruct (opt_str_truthy (Some n)); [|apply inactive_filters; intros []; reflexivity].
  destruct (strict_name_match filters); filterM_stage.
Qed.

Lemma amount_stage_filters (filters : FilterSet) :
  stage_filters (amount_stage filters) (amount_preds filters).
Proof.
  unfold amount_stage, amount_preds. destruct (amount_range filters) as [[lo hi]|].
  - filterM_stage.
  - destruct (opt_num_truthy (amount_above filters)).
    + apply single_filters. intros l ds l' ds' H.
      apply bind_ok in H as [f [Hf H]]. apply bind_ok in H as [v [_ H]].
      inversion H; subst. exact Hf.
    + destruct (opt_num_truthy (amount_below filters)); [filterM_stage|].
      apply inactive_filters; intros []; reflexivity.
Qed.

(** [apply_filters] keeps, in their input order, exactly the records on
    which the predicate of every active stage evaluates to [True]: a
    record is dropped by the first stage whose test fails, and the result
    does not depend on the order of the stages. *)
Theorem apply_filters_as_filter (documents : list record) (filters : FilterSet)
    (question : string) (filtered : list record) (descriptions : list FilterDesc) :
  apply_filters documents filters question = Ok (filtered, descriptions) ->
  filtered = List.filter (passes_all (active_preds filters)) documents.
Proof.
  unfold apply_filters. intros H.
  apply bind_ok in H as [[l1 d1] [H1 H]].
  apply bind_ok in H as [[l2 d2] [H2 H]].
  apply bind_ok in H as [[l3 d3] [H3 H]].
  apply bind_ok in H as [[l4 d4] [H4 H]].
  apply bind_ok in H as [[l5 d5] [H5 H6]].
  rewrite (person_stage_filters filters _ _ _ _ H6),
          (account_stage_filters filters _ _ _ _ H5),
          (amount_stage_filters filters _ _ _ _ H4),
          (type_stage_filters filters _ _ _ _ H3),
          (mode_stage_filters filters _ _ _ _ H2),
          (date_stage_filters filters _ _ _ _ H1).
  rewrite !filter_filter_and. apply filter_ext_eq. intros x.
  unfold active_preds, passes_all. rewrite !forallb_app.
  destruct (forallb _ (date_preds filters)), (forallb _ (mode_preds filters)),
    (forallb _ (type_preds filters)), (forallb _ (amount_preds filters)),
    (forallb _ (account_preds filters)), (forallb _ (person_preds filters));
    reflexivity.
Qed.

Lemma apply_filters_as_filter_witness :
  apply_filters
    [txn "t1" 6000 "2024-03-02T10:00:00" "UPI" "paid to Ravi Kumar";
     txn "t2" 100 "2024-03-05T10:00:00" "UPI" "tea"] (above_filters 5000) ""
  = Ok ([txn "t1" 6000 "2024-03-02T10:00:00" "UPI" "paid to Ravi Kumar"],
        [DescAbove 5000]) /\
  [txn "t1" 6000 "2024-03-02T10:00:00" "UPI" "paid to Ravi Kumar"]
  = List.filter (passes_all (active_preds (above_filters 5000)))
      [txn "t1" 6000 "2024-03-02T10:00:00" "UPI" "paid to Ravi Kumar";
       txn "t2" 100 "2024-03-05T10:00:00" "UPI" "tea"].
Proof.
  assert (H : apply_filters
    [txn "t1" 6000 "2024-03-02T10:00:00" "UPI" "paid to Ravi Kumar";
     txn "t2" 100 "2024-03-05T10:00:00" "UPI" "tea"] (above_filters 5000) ""
    = Ok ([txn "t1" 6000 "2024-03-02T10:00:00" "UPI" "paid to Ravi Kumar"],
          [DescAbove 5000])) by (vm_compute; reflexivity).
  split; [exact H|]. exact (apply_filters_as_filter _ _ _ _ _ H).
Defined.

(** With every filter value falsy (no date filter or an empty one, empty or
    missing strings, no range, thresholds missing or equal to 0),
    [apply_filters] returns its input unchanged and no description. *)
Theorem apply_filters_inactive (documents : list record) (filters : FilterSet)
    (question : string) :
  (forall df, date_filter filters = Some df -> df_truthy df = false) ->
  opt_str_truthy (mode filters) = false ->
  opt_str_truthy (type filters) = false ->
  amount_range filters = None ->
  opt_num_truthy (amount_above filters) = false ->
  opt_num_truthy (amount_below filters) = false ->
  opt_str_truthy (account_id filters) = false ->
  opt_str_truthy (person_name filters) = false ->
  apply_filters documents filters question = Ok (documents, []).
Proof.
  intros Hd Hm Ht Hr Ha Hb Hacc Hp.
  unfold apply_filters, date_stage, mode_stage, type_stage, amount_stage,
    account_stage, person_stage.
  destruct (date_filter filters) as [df|]; [rewrite (Hd df eq_refl)|]; cbn [bind];
  (destruct (mode filters); [rewrite Hm|]); cbn [bind];
  (destruct (type filters); [rewrite Ht|]); cbn [bind];
  rewrite Hr, Ha, Hb; cbn [bind];
  (destruct (account_id filters); [rewrite Hacc|]); cbn [bind];
  (destruct (person_name filters); [rewrite Hp|]); reflexivity.
Qed.

Lemma apply_filters_inactive_witness :
  apply_filters [txn "t1" 0 "" "UPI" ""] (above_filters 0) "q"
  = Ok ([txn "t1" 0 "" "UPI" ""], []).
Proof.
  apply apply_filters_inactive; try reflexivity.
  intros df H. discriminate.
Defined.

Lemma filterM_raise {A} (p : A -> result bool) (l : list A) (e0 : exn) :
  (forall x e, p x = Raise e -> e = e0) ->
  (exists x e, In x l /\ p x = Raise e) ->
  filterM p l = Raise e0.
Proof.
  intros Hall. induction l as [|x l IH]; intros (y & e & Hin & Hy); [destruct Hin|].
  simpl. destruct (p x) as [b|e'] eqn:Hx.
  - destruct Hin as [->|Hin]; [congruence|].
    simpl. rewrite IH by eauto. reflexivity.
  - simpl. now rewrite (Hall x e' Hx).
Qed.

(** A mode filter meets a record whose [mode] (or, without one,
    [txnMode]) value is not a string, e.g. a JSON [null]: [.upper()] raises
    [AttributeError] and so does [apply_filters], whatever the other
    records, when no date filter runs before. Likewise a type filter meets a
    [pk_GSI_1] that is a number, a boolean or [null]: [in] raises
    [TypeError]. *)
Theorem apply_filters_non_string_field (documents : list record)
    (filters : FilterSet) (question : string) (d : record) :
  date_filter filters = None ->
  In d documents ->
  (opt_str_truthy (mode filters) = true ->
   (forall s, py_get d "mode" (py_get d "txnMode" (PStr "")) <> PStr s) ->
   apply_filters documents filters question = Raise AttributeError) /\
  (opt_str_truthy (mode filters) = false ->
   opt_str_truthy (type filters) = true ->
   (forall s, py_get d "pk_GSI_1" (PStr "") <> PStr s) ->
   (forall l, py_get d "pk_GSI_1" (PStr "") <> PList l) ->
   (forall kv, py_get d "pk_GSI_1" (PStr "") <> PDict kv) ->
   apply_filters documents filters question = Raise TypeError).
Proof.
  intros Hdf Hin. split.
  - intros Hm Hd. unfold apply_filters, date_stage. rewrite Hdf. cbn [bind].
    unfold mode_stage. destruct (mode filters) as [m|]; [|discriminate].
    rewrite Hm. rewrite (filterM_raise (mode_matches m) documents AttributeError).
    + reflexivity.
    + intros x e. unfold mode_matches. destruct (py_get x _ _); congruence.
    + exists d, AttributeError. split; [exact Hin|]. unfold mode_matches.
      destruct (py_get d "mode" _) eqn:E; try reflexivity.
      exfalso. eapply Hd. first [exact E | reflexivity].
  - intros Hm Ht Hs Hl Hkv.
    assert (Hmode : mode_stage filters (documents, []) = Ok (documents, [])).
    { unfold mode_stage. destruct (mode filters); [rewrite Hm|]; reflexivity. }
    unfold apply_filters, date_stage. rewrite Hdf. cbn [bind].
    rewrite Hmode. cbn [bind].
    unfold type_stage. destruct (type filters) as [t|]; [|discriminate].
    rewrite Ht. rewrite (filterM_raise (type_matches t) documents TypeError);
      [reflexivity| |].
    + intros x e. unfold type_matches. destruct (py_get x _ _); congruence.
    + exists d, TypeError. split; [exact Hin|]. unfold type_matches.
      destruct (py_get d "pk_GSI_1" _) eqn:E; try reflexivity;
        exfalso; first [exact (Hs _ eq_refl) | exact (Hl _ eq_refl)
                       | exact (Hkv _ eq_refl)].
Qed.

Lemma apply_filters_non_string_field_witness :
  let F := {| amount_above := None; amount_below := None; amount_range := None;
              date_filter := None; mode := Some "UPI"; type := None;
              account_id := None; person_name := None;
              strict_name_match := false |} in
  let d := [("txnId", PStr "t2"); ("mode", PNone)] in
  apply_filters [txn "t1" 10 "" "UPI" ""; d] F "" = Raise AttributeError.
Proof.
  intros F d.
  apply (proj1 (apply_filters_non_string_field [txn "t1" 10 "" "UPI" ""; d] F "" d
                  eq_refl (or_intror (or_introl eq_refl)))).
  - reflexivity.
  - intros s H. discriminate.
Defined.


(* ------------------------------------------------------------------ *)
(** ** Pages past the end *)

Lemma ceil_div_le_iff (n ps a : nat) :
  (1 <= ps)%nat -> (n <= a * ps)%nat <-> (((n + ps - 1) / ps) <= a)%nat.
Proof.
  intros Hps.
  pose proof (Nat.div_mod (n + ps - 1) ps ltac:(lia)) as Hdm.
  pose proof (Nat.mod_upper_bound (n + ps - 1) ps ltac:(lia)) as Hub.
  set (q := ((n + ps - 1) / ps)%nat) in *.
  set (r := ((n + ps - 1) mod ps)%nat) in *.
  split; intros H.
  - destruct (Nat.le_gt_cases q a) as [|Hgt]; [assumption|].
    exfalso. assert (ps * (a + 1) <= ps * q)%nat by (apply Nat.mul_le_mono_l; lia).
    nia.
  - assert (ps * q <= ps * a)%nat by (apply Nat.mul_le_mono_l; lia). nia.
Qed.

(** For [page_size >= 1] and [page >= 1], a page holds at most [page_size]
    records, and it is empty exactly when [page > total_pages], in which
    case [has_next] is false. *)
Theorem paginate_page_bounds (filtered_docs page_records : list record)
    (page page_size : nat) (pg : Pagination) :
  (1 <= page_size)%nat -> (1 <= page)%nat ->
  paginate filtered_docs true page page_size = Ok (Some page_records, Some pg) ->
  (length page_records <= page_size)%nat /\
  (page_records = [] <-> (total_pages pg < page)%nat) /\
  (page_records = [] -> has_next pg = false).
Proof.
  intros Hps Hpage H.
  assert (Hne : filtered_docs <> []) by (intros ->; discriminate H).
  destruct (sort_by_amount_desc filtered_docs) as [sorted|] eqn:Hs;
    [|unfold paginate in H; destruct filtered_docs; [contradiction|];
      rewrite Hs in H; discriminate H].
  rewrite (paginate_page _ _ _ _ Hne Hs) in H. inversion H; subst. clear H.
  pose proof (sort_by_amount_desc_length _ _ Hs) as Hlen.
  unfold py_slice. simpl total_pages. simpl has_next.
  replace ((page - 1) * page_size + page_size - (page - 1) * page_size)%nat
    with page_size by lia.
  set (start := ((page - 1) * page_size)%nat).
  set (n := length filtered_docs).
  assert (Hempty : firstn page_size (skipn start sorted) = [] <-> (n <= start)%nat).
  { split.
    - intros Hf. destruct (skipn start sorted) as [|x rest] eqn:Esk.
      + pose proof (length_skipn start sorted) as Hl. rewrite Esk in Hl.
        simpl in Hl. unfold n. lia.
      + destruct page_size; [lia|]. discriminate.
    - intros Hle. rewrite skipn_all2; [apply firstn_nil|]. unfold n in Hle. lia. }
  assert (Hceil : (n <= start)%nat <-> ((n + page_size - 1) / page_size < page)%nat).
  { unfold start. rewrite (ceil_div_le_iff n page_size (page - 1) Hps). lia. }
  split; [rewrite length_firstn; lia|]. split.
  - rewrite Hempty. exact Hceil.
  - intros He. apply Hempty in He. apply Nat.ltb_ge. lia.
Qed.

Lemma paginate_page_bounds_witness :
  exists pg,
    paginate [txn "a" 10 "" "UPI" ""; txn "b" 30 "" "UPI" ""] true 3 1
      = Ok (Some [], Some pg) /\
    (length (@nil record) <= 1)%nat /\
    (@nil record = [] <-> (total_pages pg < 3)%nat) /\
    (@nil record = [] -> has_next pg = false).
Proof.
  eexists. split; [vm_compute; reflexivity|].
  apply (paginate_page_bounds [txn "a" 10 "" "UPI" ""; txn "b" 30 "" "UPI" ""]
           [] 3 1); [lia | lia | vm_compute; reflexivity].
Defined.

(* ------------------------------------------------------------------ *)
(** ** Storing then reading the query cache *)

(** An entry stored by [cache_query_results] at [now] is returned by a
    [get_cached_query] whose clock readings stay within the TTL of [now];
    storing leaves the entries of all other query ids as they were. *)
Theorem cache_query_results_then_get (qid : string) (answer : string)
    (m : QueryMode) (filtered_docs : list record)
    (filters_applied : option (list FilterDesc)) (statistics : option Statistics)
    (now t_sweep t_check : Z) (query_cache : QueryCache) :
  now <= t_sweep -> t_sweep <= t_check -> t_check - now <= cache_ttl ->
  fst (get_cached_query qid
         (cache_query_results qid answer m filtered_docs filters_applied
            statistics now query_cache) t_sweep t_check)
  = Some {| c_answer := answer; c_mode := m; c_filtered_docs := filtered_docs;
            c_filters_applied := filters_applied; c_statistics := statistics;
            c_timestamp := now |} /\
  (forall k, k <> qid ->
     cache_query_results qid answer m filtered_docs filters_applied statistics
       now query_cache !! k = query_cache !! k).
Proof.
  intros H1 H2 H3. split.
  - unfold get_cached_query. rewrite lookup_cleanup.
    unfold cache_query_results. rewrite lookup_insert_eq.
    unfold is_expired. cbn [c_timestamp].
    assert (E1 : (cache_ttl <? t_sweep - now) = false) by (apply Z.ltb_ge; lia).
    assert (E2 : (t_check - now <=? cache_ttl) = true) by (apply Z.leb_le; lia).
    rewrite E1. cbn [c_timestamp]. rewrite E2. reflexivity.
  - intros k Hk. unfold cache_query_results. apply lookup_insert_ne. congruence.
Qed.

Lemma cache_query_results_then_get_witness :
  fst (get_cached_query "q"
         (cache_query_results "q" "ok" STATISTICAL [] None None 0 ∅) 10 20)
  = Some {| c_answer := "ok"; c_mode := STATISTICAL; c_filtered_docs := [];
            c_filters_applied := None; c_statistics := None; c_timestamp := 0 |}.
Proof.
  apply (cache_query_results_then_get "q" "ok" STATISTICAL [] None None 0 10 20 ∅);
    unfold cache_ttl, CACHE_TTL_MINUTES; lia.
Defined.

(** Sweeps compose: sweeping at [t] and then at a later [t'] leaves the
    same store as sweeping at [t'] alone; in particular a sweep repeated at
    the same clock reading changes nothing. *)
Theorem cleanup_expired_cache_compose (query_cache : QueryCache) (t t' : Z) :
  t <= t' ->
  cleanup_expired_cache (cleanup_expired_cache query_cache t) t'
  = cleanup_expired_cache query_cache t'.
Proof.
  intros Ht. apply map_eq. intros k. rewrite !lookup_cleanup.
  destruct (query_cache !! k) as [e|]; [|reflexivity].
  destruct (is_expired t e) eqn:E1; [|reflexivity].
  unfold is_expired in *. apply Z.ltb_lt in E1.
  replace (cache_ttl <? t' - c_timestamp e) with true
    by (symmetry; apply Z.ltb_lt; lia).
  reflexivity.
Qed.

Lemma cleanup_expired_cache_compose_witness :
  cleanup_expired_cache (cleanup_expired_cache
    (<["a" := sample_entry 0]> (<["b" := sample_entry 5000000000]> ∅)) 2000000000)
    6000000000
  = cleanup_expired_cache
      (<["a" := sample_entry 0]> (<["b" := sample_entry 5000000000]> ∅)) 6000000000.
Proof. apply cleanup_expired_cache_compose. lia. Defined.

(* ------------------------------------------------------------------ *)
(** ** The amounts read off a question are never negative *)

(** The characters a token of [\d+(?:,\d+)*(?:\.\d+)?[kKlL]?] is made of. *)
Definition num_char (c : ascii) : bool :=
  is_digit c || existsb (Ascii.eqb c) [","; "."; "k"; "K"; "l"; "L"]%char.

Lemma take_digits_digits (l ds r : list ascii) :
  take_digits l = (ds, r) -> Forall (fun c => num_char c = true) ds.
Proof.
  revert ds r. induction l as [|c l IH]; intros ds r H; simpl in H.
  - inversion H; constructor.
  - destruct (is_digit c) eqn:Hc.
    + destruct (take_digits l) as [ds' r'] eqn:E. inversion H; subst.
      constructor; [unfold num_char; now rewrite Hc | exact (IH _ _ eq_refl)].
    + inversion H; constructor.
Qed.

Lemma take_comma_groups_chars (fuel : nat) (l gs r : list ascii) :
  take_comma_groups fuel l = (gs, r) -> Forall (fun c => num_char c = true) gs.
Proof.
  revert l gs r. induction fuel as [|fuel IH]; intros l gs r H; simpl in H.
  - inversion H; constructor.
  - destruct l as [|c l]; [inversion H; constructor|].
    destruct (Ascii.eqb c ",") eqn:Ec.
    + apply Ascii.eqb_eq in Ec. subst c.
      destruct (take_digits l) as [[|d ds] r'] eqn:Ed; [inversion H; constructor|].
      destruct (take_comma_groups fuel r') as [gs' r''] eqn:Eg.
      inversion H; subst. constructor; [reflexivity|].
      change (Forall (fun c => num_char c = true) ((d :: ds) ++ gs')).
      apply Forall_app. split; [exact (take_digits_digits _ _ _ Ed)|].
      exact (IH _ _ _ Eg).
    + assert (Hr : take_comma_groups (S fuel) (c :: l) = ([], c :: l)).
      { simpl. destruct c as [[] [] [] [] [] [] [] []];
          try reflexivity; discriminate Ec. }
      simpl in Hr. rewrite Hr in H. inversion H; constructor.
Qed.

Lemma number_token_chars (l tok r : list ascii) :
  number_token l = Some (tok, r) -> Forall (fun c => num_char c = true) tok.
Proof.
  unfold number_token. intros H.
  destruct (take_digits l) as [ds r1] eqn:Ed.
  pose proof (take_digits_digits _ _ _ Ed) as Hds.
  destruct ds as [|d ds']; [discriminate|].
  destruct (take_comma_groups (length r1) r1) as [gs r2] eqn:Eg.
  pose proof (take_comma_groups_chars _ _ _ _ Eg) as Hgs.
  set (fr3 := match r2 with
              | "."%char :: r =>
                  match take_digits r with
                  | ((_ :: _) as fd, r') => ("."%char :: fd, r')
                  | ([], _) => ([], r2)
                  end
              | _ => ([], r2)
              end) in H.
  assert (Hfr : Forall (fun c => num_char c = true) (fst fr3)).
  { unfold fr3. destruct r2 as [|c r2']; [constructor|].
    destruct (Ascii.eqb c ".") eqn:Ec.
    - apply Ascii.eqb_eq in Ec. subst c.
      destruct (take_digits r2') as [[|x xs] r'] eqn:Ef; simpl; [constructor|].
      constructor; [reflexivity | exact (take_digits_digits _ _ _ Ef)].
    - destruct c as [[] [] [] [] [] [] [] []];
        try discriminate Ec; constructor. }
  destruct fr3 as [fr r3]. simpl in Hfr.
  destruct r3 as [|c r4].
  - inversion H; subst. rewrite app_comm_cons.
    apply Forall_app; split; [exact Hds|]. apply Forall_app; split; assumption.
  - destruct (existsb (Ascii.eqb c) ["k"; "K"; "l"; "L"]%char) eqn:Ek;
      inversion H; subst; rewrite app_comm_cons;
      apply Forall_app; (split; [exact Hds|]);
      apply Forall_app; (split; [exact Hgs|]).
    + apply Forall_app. split; [exact Hfr|]. constructor; [|constructor].
      unfold num_char. apply orb_true_iff. right. simpl in Ek |- *.
      rewrite Ek. now rewrite !orb_true_r.
    + exact Hfr.
Qed.

Lemma findall_numbers_chars (fuel : nat) (l : list ascii) :
  Forall (fun tok => Forall (fun c => num_char c = true) tok)
         (findall_numbers fuel l).
Proof.
  revert l. induction fuel as [|fuel IH]; intros l; simpl; [constructor|].
  destruct l as [|c l']; [constructor|].
  destruct (number_token (c :: l')) as [[tok r]|] eqn:E; [|apply IH].
  constructor; [exact (number_token_chars _ _ _ E) | apply IH].
Qed.

Lemma num_char_lower (c : ascii) : num_char c = true -> num_char (lower_char c) = true.
Proof. destruct c as [[] [] [] [] [] [] [] []]; vm_compute; congruence. Qed.

Lemma num_char_no_minus (l : list ascii) :
  Forall (fun c => num_char c = true) l -> ~ In "-"%char l.
Proof.
  intros H Hin. rewrite List.Forall_forall in H. specialize (H _ Hin).
  discriminate H.
Qed.

Lemma drop_spaces_in (c : ascii) (l : list ascii) : In c (drop_spaces l) -> In c l.
Proof.
  induction l as [|x l IH]; simpl; [tauto|].
  destruct (is_space x); simpl; tauto.
Qed.

Lemma strip_spaces_in (c : ascii) (l : list ascii) : In c (strip_spaces l) -> In c l.
Proof.
  unfold strip_spaces. intros H.
  apply in_rev, drop_spaces_in, in_rev, drop_spaces_in in H. exact H.
Qed.

Lemma take_sign_cases (l : list ascii) (sgn : Z) (l1 : list ascii) :
  take_sign l = (sgn, l1) -> sgn = 1 \/ hd_error l = Some "-"%char.
Proof.
  destruct l as [|c l]; simpl; intros H; [inversion H; now left|].
  destruct c as [[] [] [] [] [] [] [] []]; inversion H; auto.
Qed.

Lemma digits_value_nonneg (ds : list ascii) : 0 <= digits_value ds.
Proof.
  unfold digits_value.
  assert (G : forall acc, 0 <= acc ->
            0 <= fold_left (fun acc d => acc * 10 + digit_val d) ds acc).
  { induction ds as [|d ds IH]; intros acc Hacc; simpl; [exact Hacc|].
    apply IH. unfold digit_val. lia. }
  apply G. lia.
Qed.

Lemma dec_to_Q_nonneg (m e : Z) : 0 <= m -> (0 <= dec_to_Q m e)%Q.
Proof.
  intros Hm. unfold dec_to_Q. destruct (0 <=? e) eqn:He.
  - apply Z.leb_le in He. unfold Qle. simpl.
    pose proof (Z.pow_nonneg 10 e ltac:(lia)). nia.
  - unfold Qle. simpl. lia.
Qed.

(** [float(s)] of a string without a minus sign is never negative. *)
Lemma py_float_of_string_nonneg (s : string) (v : Q) :
  ~ In "-"%char (list_ascii_of_string s) ->
  py_float_of_string s = Some v -> (0 <= v)%Q.
Proof.
  intros Hno. unfold py_float_of_string.
  set (l := strip_spaces (list_ascii_of_string s)).
  destruct (take_sign l) as [sgn l1] eqn:Es.
  assert (Hsgn : sgn = 1).
  { destruct (take_sign_cases _ _ _ Es) as [|Hhd]; [assumption|].
    exfalso. apply Hno, (strip_spaces_in "-"%char (list_ascii_of_string s)).
    fold l. destruct l; [discriminate|]. inversion Hhd; subst. now left. }
  subst sgn.
  destruct (take_digits l1) as [ip l2].
  destruct (match l2 with
            | "."%char :: r => take_digits r
            | _ => ([], l2)
            end) as [fp l3].
  assert (Hm : 0 <= 1 * digits_value (ip ++ fp))
    by (pose proof (digits_value_nonneg (ip ++ fp)); lia).
  intros H.
  destruct ip, fp;
    (discriminate H || (
      destruct l3 as [|c r];
      [inversion H; subst; apply dec_to_Q_nonneg; exact Hm|];
      destruct (Ascii.eqb c "e" || Ascii.eqb c "E"); [|discriminate H];
      destruct (take_sign r) as [esg r1];
      destruct (take_digits r1) as [eds r2];
      destruct eds, r2; try discriminate H;
      inversion H; subst; apply dec_to_Q_nonneg; exact Hm)).
Qed.

Lemma Qlt_bool_true (a b : Q) : Qlt_bool a b = true -> (a < b)%Q.
Proof.
  unfold Qlt_bool. intros H. apply negb_true_iff in H.
  apply Qnot_le_lt. intros Hle. apply Qle_bool_iff in Hle. congruence.
Qed.

Lemma Qlt_bool_false (a b : Q) : Qlt_bool a b = false -> (b <= a)%Q.
Proof.
  unfold Qlt_bool. intros H. apply negb_false_iff in H. now apply Qle_bool_iff.
Qed.

Lemma remove_char_forall (P : ascii -> Prop) (c : ascii) (l : list ascii) :
  Forall P l -> Forall P (remove_char c l).
Proof.
  intros H. unfold remove_char. rewrite List.Forall_forall in *.
  intros x Hx. apply filter_In in Hx. apply H, Hx.
Qed.

Lemma amounts_processed_nonneg (question_lower : string) :
  Forall (fun v => 0 <= v)%Q (amounts_processed question_lower).
Proof.
  unfold amounts_processed.
  pose proof (findall_numbers_chars (S (String.length question_lower))
                (list_ascii_of_string question_lower)) as Hall.
  induction Hall as [|tok toks Htok Htoks IH]; simpl; [constructor|].
  apply Forall_app. split; [|exact IH].
  set (num_clean := List.map lower_char (remove_char "," tok)).
  assert (Hc : Forall (fun c => num_char c = true) num_clean).
  { unfold num_clean. apply Forall_map.
    apply (List.Forall_impl (P := fun c => num_char c = true)); [exact num_char_lower|].
    apply remove_char_forall, Htok. }
  assert (Hf : forall l v, Forall (fun c => num_char c = true) l ->
             py_float_of_string (string_of_list_ascii l) = Some v -> (0 <= v)%Q).
  { intros l v Hl. apply py_float_of_string_nonneg.
    rewrite list_ascii_of_string_of_list_ascii. apply num_char_no_minus, Hl. }
  destruct (is_year_token num_clean); [constructor|].
  destruct (existsb (Ascii.eqb "k") num_clean).
  - destruct (py_float_of_string (string_of_list_ascii (remove_char "k" num_clean)))
      as [v|] eqn:E; simpl; [|constructor].
    constructor; [|constructor].
    pose proof (Hf _ _ (remove_char_forall _ _ _ Hc) E) as Hv.
    unfold Qle in *. simpl in *. lia.
  - destruct (existsb (Ascii.eqb "l") num_clean).
    + destruct (py_float_of_string (string_of_list_ascii (remove_char "l" num_clean)))
        as [v|] eqn:E; simpl; [|constructor].
      constructor; [|constructor].
      pose proof (Hf _ _ (remove_char_forall _ _ _ Hc) E) as Hv.
      unfold Qle in *. simpl in *. lia.
    + destruct (py_float_of_string (string_of_list_ascii num_clean))
        as [v|] eqn:E; simpl; [|constructor].
      constructor; [exact (Hf _ _ Hc E) | constructor].
Qed.

(** The amount part of [extract_filters_from_query] sets at most one of
    [amount_above], [amount_below] and [amount_range]; every amount it sets
    is non-negative, and a range has its smaller bound first. *)
Theorem extract_amount_filters_sound (question : string) :
  match extract_amount_filters question with
  | (Some a, None, None) => (0 <= a)%Q
  | (None, Some b, None) => (0 <= b)%Q
  | (None, None, Some (lo, hi)) => (0 <= lo)%Q /\ (lo <= hi)%Q
  | (None, None, None) => True
  | _ => False
  end.
Proof.
  unfold extract_amount_filters.
  pose proof (amounts_processed_nonneg (lower question)) as Hnn.
  destruct (amounts_processed (lower question)) as [|a [|b rest]] eqn:E.
  - destruct (_ && _); [exact I|].
    destruct (any_in above_words _); [exact I|].
    destruct (any_in below_words _); exact I.
  - inversion Hnn; subst.
    destruct (_ && _); [exact I|].
    destruct (any_in above_words _); [assumption|].
    destruct (any_in below_words _); [assumption | exact I].
  - inversion Hnn as [|? ? Ha Hrest]; subst. inversion Hrest as [|? ? Hb _]; subst.
    destruct (_ && _).
    + destruct (Qlt_bool b a) eqn:Hlt.
      * split; [exact Hb|]. apply Qlt_le_weak, Qlt_bool_true, Hlt.
      * split; [exact Ha|]. apply Qlt_bool_false, Hlt.
    + destruct (any_in above_words _); [assumption|].
      destruct (any_in below_words _); [assumption | exact I].
Qed.

(* ------------------------------------------------------------------ *)
(** ** [apply_filters] raises only on malformed records *)

(** The record fields [apply_filters] reads, with the types under which
    none of its comprehensions raises. *)
Definition well_formed_record (d : record) : Prop :=
  (exists s, py_get d "mode" (py_get d "txnMode" (PStr "")) = PStr s) /\
  match py_get d "pk_GSI_1" (PStr "") with
  | PStr _ | PList _ | PDict _ => True
  | _ => False
  end /\
  (exists a, amount_of d = Ok a) /\
  (exists s, py_get d "accountId" (py_get d "accountNumber" (PStr "")) = PStr s) /\
  (exists s, py_get d "narration" (PStr "") = PStr s).

Lemma filterM_total {A} (p : A -> result bool) (P : A -> Prop) (l : list A) :
  (forall x, P x -> exists b, p x = Ok b) -> Forall P l ->
  exists l', filterM p l = Ok l' /\ Forall P l'.
Proof.
  intros Hp. induction 1 as [|x l Hx Hl [l' [H1 H2]]]; simpl; [eauto|].
  destruct (Hp x Hx) as [b Hb]. rewrite Hb; simpl; rewrite H1; simpl.
  destruct b; eauto.
Qed.

Lemma filter_forall {A} (f : A -> bool) (P : A -> Prop) (l : list A) :
  Forall P l -> Forall P (List.filter f l).
Proof.
  rewrite !List.Forall_forall. intros H x Hx. apply filter_In in Hx. apply H, Hx.
Qed.

Lemma stages_total (filters : FilterSet) (l : list record) (ds : list FilterDesc) :
  Forall well_formed_record l ->
  exists l' ds',
    (let* st2 := mode_stage filters (l, ds) in
     let* st3 := type_stage filters st2 in
     let* st4 := amount_stage filters st3 in
     let* st5 := account_stage filters st4 in
     person_stage filters st5) = Ok (l', ds') /\ Forall well_formed_record l'.
Proof.
  intros Hl.
  assert (Hmode : exists l1 ds1, mode_stage filters (l, ds) = Ok (l1, ds1) /\
                  Forall well_formed_record l1).
  { unfold mode_stage. destruct (mode filters) as [m|]; [|eauto].
    destruct (opt_str_truthy _); [|eauto].
    destruct (filterM_total (mode_matches m) well_formed_record l) as [l' [Hf Hl']];
      [|exact Hl|rewrite Hf; simpl; eauto].
    intros d [[s Hs] _]. unfold mode_matches. rewrite Hs. eauto. }
  destruct Hmode as [l1 [ds1 [-> Hl1]]]. cbn [bind].
  assert (Htype : exists l2 ds2, type_stage filters (l1, ds1) = Ok (l2, ds2) /\
                  Forall well_formed_record l2).
  { unfold type_stage. destruct (type filters) as [t|]; [|eauto].
    destruct (opt_str_truthy _); [|eauto].
    destruct (filterM_total (type_matches t) well_formed_record l1) as [l' [Hf Hl']];
      [|exact Hl1|rewrite Hf; simpl; eauto].
    intros d [_ [Ht _]]. unfold type_matches.
    destruct (py_get d "pk_GSI_1" (PStr "")); try contradiction; eauto. }
  destruct Htype as [l2 [ds2 [-> Hl2]]]. cbn [bind].
  assert (Hamt : forall d, well_formed_record d -> exists a, amount_of d = Ok a)
    by (intros d [_ [_ [Ha _]]]; exact Ha).
  assert (Hamount : exists l3 ds3, amount_stage filters (l2, ds2) = Ok (l3, ds3) /\
                    Forall well_formed_record l3).
  { unfold amount_stage. destruct (amount_range filters) as [[lo hi]|].
    - destruct (filterM_total (in_range_pred lo hi) well_formed_record l2)
        as [l' [Hf Hl']]; [|exact Hl2|rewrite Hf; simpl; eauto].
      intros d Hd. destruct (Hamt d Hd) as [a Ha].
      unfold in_range_pred. rewrite Ha. simpl. eauto.
    - destruct (opt_num_truthy (amount_above filters)).
      + set (t := match amount_above filters with Some t => t | None => 0%Q end).
        destruct (filterM_total (above_pred t) well_formed_record l2)
          as [l' [Hf Hl']]; [|exact Hl2|].
        { intros d Hd. destruct (Hamt d Hd) as [a Ha].
          unfold above_pred. rewrite Ha. simpl. eauto. }
        rewrite Hf. simpl.
        destruct (mapM_ok amount_of l') as [ys Hys].
        { rewrite List.Forall_forall in Hl' |- *. intros d Hd. apply Hamt, Hl', Hd. }
        destruct l' as [|d0 l'']; cbn [bind]; [eauto|].
        rewrite Hys. cbn [bind]. eauto.
      + destruct (opt_num_truthy (amount_below filters)); [|eauto].
        set (t := match amount_below filters with Some t => t | None => 0%Q end).
        destruct (filterM_total (below_pred t) well_formed_record l2)
          as [l' [Hf Hl']]; [|exact Hl2|rewrite Hf; simpl; eauto].
        intros d Hd. destruct (Hamt d Hd) as [a Ha].
        unfold below_pred. rewrite Ha. simpl. eauto. }
  destruct Hamount as [l3 [ds3 [-> Hl3]]]. cbn [bind].
  assert (Hacc : exists l4 ds4, account_stage filters (l3, ds3) = Ok (l4, ds4) /\
                 Forall well_formed_record l4).
  { unfold account_stage. destruct (account_id filters) as [a|]; [|eauto].
    destruct (opt_str_truthy _); [|eauto].
    destruct (filterM_total (account_matches a) well_formed_record l3)
      as [l' [Hf Hl']]; [|exact Hl3|rewrite Hf; simpl; eauto].
    intros d [_ [_ [_ [[s Hs] _]]]]. unfold account_matches. rewrite Hs. eauto. }
  destruct Hacc as [l4 [ds4 [-> Hl4]]]. cbn [bind].
  unfold person_stage. destruct (person_name filters) as [name|]; [|eauto].
  destruct (opt_str_truthy _); [|eauto].
  destruct (strict_name_match filters).
  - destruct (filterM_total (strict_name_matches name) well_formed_record l4)
      as [l' [Hf Hl']]; [|exact Hl4|rewrite Hf; simpl; eauto].
    intros d [_ [_ [_ [_ [s Hs]]]]]. unfold strict_name_matches. rewrite Hs.
    destruct (2 <=? _)%nat; eauto.
  - destruct (filterM_total (loose_name_matches name) well_formed_record l4)
      as [l' [Hf Hl']]; [|exact Hl4|rewrite Hf; simpl; eauto].
    intros d [_ [_ [_ [_ [s Hs]]]]]. unfold loose_name_matches. rewrite Hs. eauto.
Qed.

Lemma apply_filters_total (documents : list record) (filters : FilterSet)
    (question : string) :
  month_in_lexicon filters -> Forall well_formed_record documents ->
  exists filtered descriptions,
    apply_filters documents filters question = Ok (filtered, descriptions).
Proof.
  intros Hm Hd. unfold apply_filters.
  assert (Hdate : exists l1 ds1, date_stage filters (documents, []) = Ok (l1, ds1) /\
                  Forall well_formed_record l1).
  { unfold date_stage. unfold month_in_lexicon in Hm.
    destruct (date_filter filters) as [df|]; [|eauto].
    destruct (df_truthy df); [|eauto].
    destruct (date_description_ok df Hm) as [ds Hds]. rewrite Hds. simpl.
    do 2 eexists. split; [reflexivity|]. apply filter_forall, Hd. }
  destruct Hdate as [l1 [ds1 [-> Hl1]]]. cbn [bind].
  destruct (stages_total filters l1 ds1 Hl1) as [l' [ds' [H _]]]. eauto.
Qed.

(** When the month of the date filter (if any) is in [1..12], [apply_filters]
    raises on no list of records whose mode, [pk_GSI_1], amount, account
    and narration fields have the types the filters expect. *)
Theorem apply_filters_well_formed (documents : list record)
    (filters : FilterSet) (question : string) :
  month_in_lexicon filters -> Forall well_formed_record documents ->
  exists filtered descriptions,
    apply_filters documents filters question = Ok (filtered, descriptions).
Proof. apply apply_filters_total. Qed.

Lemma apply_filters_well_formed_witness :
  let F := {| amount_above := Some 5000%Q; amount_below := None;
              amount_range := None;
              date_filter := Some {| df_month := Some 3; df_year := Some 2024 |};
              mode := Some "UPI"; type := Some "DEBIT"; account_id := None;
              person_name := Some "Ravi Kumar"; strict_name_match := true |} in
  let D := [txn "t1" 6000 "2024-03-02T10:00:00" "UPI" "paid to Ravi Kumar"] in
  month_in_lexicon F /\ Forall well_formed_record D /\
  exists filtered descriptions,
    apply_filters D F "" = Ok (filtered, descriptions).
Proof.
  intros F D.
  assert (Hm : month_in_lexicon F) by (unfold month_in_lexicon; simpl; lia).
  assert (Hd : Forall well_formed_record D).
  { constructor; [|constructor].
    unfold well_formed_record. simpl.
    split; [eauto|]. split; [exact I|]. split; [eexists; reflexivity|].
    split; eauto. }
  split; [exact Hm|]. split; [exact Hd|].
  exact (apply_filters_well_formed D F "" Hm Hd).
Defined.

(* ------------------------------------------------------------------ *)
(** ** The date filter read off a question *)

Lemma nth_error_skipn_cons {A} (s : list A) (i : nat) (c : A) :
  nth_error s i = Some c -> skipn i s = c :: skipn (S i) s.
Proof.
  revert i. induction s as [|a s IH]; intros [|i] H; simpl in *;
    try discriminate; [now inversion H | now apply IH].
Qed.

Lemma in_m_seq (a b : matcher) (s : list ascii) (j ge : nat) :
  In ge (m_seq a b s j) -> exists k, In k (a s j) /\ In ge (b s k).
Proof. unfold m_seq. intros H. apply in_flat_map in H as [k [H1 H2]]. eauto. Qed.

Lemma in_m_class (p : ascii -> bool) (s : list ascii) (j ge : nat) :
  In ge (m_class p s j) -> ge = S j /\ exists c, nth_error s j = Some c /\ p c = true.
Proof.
  unfold m_class. destruct (nth_error s j) as [c|] eqn:E; [|intros []].
  destruct (p c) eqn:Hp; [|intros []]. intros [<-|[]]. eauto.
Qed.

Lemma in_m_lit (w : string) (s : list ascii) (j ge : nat) :
  In ge (m_lit w s j) -> ge = (j + String.length w)%nat /\
    prefixb (list_ascii_of_string w) (skipn j s) = true.
Proof.
  unfold m_lit. destruct (prefixb _ _) eqn:E; [|intros []]. intros [<-|[]]. auto.
Qed.

Lemma m_rep_digits (n : nat) (s : list ascii) (j ge : nat) :
  In ge (m_rep n m_digit s j) ->
  ge = (j + n)%nat /\
  exists ds, length ds = n /\ Forall (fun c => is_digit c = true) ds /\
             skipn j s = ds ++ skipn (j + n) s.
Proof.
  revert j. induction n as [|n IH]; intros j H; simpl in H.
  - destruct H as [<-|[]]. split; [lia|]. exists []. simpl.
    rewrite Nat.add_0_r. auto.
  - apply in_m_seq in H as [k [Hk H]].
    apply in_m_class in Hk as [-> [c [Hc Hd]]].
    destruct (IH _ H) as [-> [ds [Hlen [Hall Hsk]]]].
    split; [lia|]. exists (c :: ds). split; [simpl; lia|].
    split; [constructor; assumption|].
    rewrite (nth_error_skipn_cons _ _ _ Hc), Hsk.
    replace (j + S n)%nat with (S j + n)%nat by lia. reflexivity.
Qed.

Lemma prefixb_sound (p l : list ascii) :
  prefixb p l = true -> l = p ++ skipn (length p) l.
Proof.
  revert l. induction p as [|c p IH]; intros l H; [reflexivity|].
  destruct l as [|c' l]; simpl in H; [discriminate|].
  apply andb_true_iff in H as [Hc H]. apply Ascii.eqb_eq in Hc. subst c'.
  simpl. f_equal. apply IH, H.
Qed.

Lemma search_group_sound (P G Sfx : matcher) (s : list ascii) (gs ge : nat) :
  search_group P G Sfx s = Some (gs, ge) -> In ge (G s gs).
Proof.
  unfold search_group. intros H.
  destruct (flat_map _ _) as [|x rest] eqn:E; [discriminate|].
  simpl in H. inversion H; subst.
  assert (Hin : In (gs, ge) ((gs, ge) :: rest)) by (now left).
  rewrite <- E in Hin.
  apply in_flat_map in Hin as [i [_ Hin]].
  apply in_flat_map in Hin as [gs' [_ Hin]].
  apply in_flat_map in Hin as [ge' [Hge Hin]].
  destruct (Sfx s ge'); [destruct Hin|].
  destruct Hin as [Heq|[]]. inversion Heq; subst. exact Hge.
Qed.

Lemma digit_val_bound (c : ascii) : is_digit c = true -> 0 <= digit_val c <= 9.
Proof.
  unfold is_digit, digit_val. intros H. apply andb_true_iff in H as [H1 H2].
  apply Nat.leb_le in H1, H2. lia.
Qed.

Lemma digits_value_acc_bound (ds : list ascii) (acc : Z) :
  Forall (fun c => is_digit c = true) ds -> 0 <= acc ->
  acc * 10 ^ Z.of_nat (length ds)
    <= fold_left (fun acc d => acc * 10 + digit_val d) ds acc
    < (acc + 1) * 10 ^ Z.of_nat (length ds).
Proof.
  intros Hall. revert acc.
  induction Hall as [|c ds Hc Hds IH]; intros acc Hacc; simpl.
  - lia.
  - pose proof (digit_val_bound c Hc).
    specialize (IH (acc * 10 + digit_val c) ltac:(lia)).
    rewrite Nat2Z.inj_succ, Z.pow_succ_r by lia.
    pose proof (Z.pow_pos_nonneg 10 (Z.of_nat (length ds)) ltac:(lia) ltac:(lia)).
    nia.
Qed.

Lemma span_text_app (s ds : list ascii) (gs n : nat) :
  length ds = n -> skipn gs s = ds ++ skipn (gs + n) s ->
  span_text s (gs, (gs + n)%nat) = ds.
Proof.
  intros Hlen Hsk. unfold span_text. simpl. rewrite Hsk.
  replace (gs + n - gs)%nat with n by lia. rewrite <- Hlen.
  rewrite firstn_app, Nat.sub_diag, firstn_all. simpl. apply app_nil_r.
Qed.

Lemma month_year_group_bound (name : string) (s : list ascii) (sp : nat * nat) :
  search_group (m_seq (m_lit name) (m_star m_space)) (m_rep 4 m_digit) m_eps s
    = Some sp -> 0 <= group_int s sp <= 9999.
Proof.
  destruct sp as [gs ge]. intros H. apply search_group_sound in H.
  apply m_rep_digits in H as [-> [ds [Hlen [Hall Hsk]]]].
  unfold group_int. rewrite (span_text_app s ds gs 4 Hlen Hsk).
  pose proof (digits_value_acc_bound ds 0 Hall ltac:(lia)) as Hb.
  unfold digits_value. rewrite Hlen in Hb. simpl in Hb. lia.
Qed.

Lemma year_group_bound (s : list ascii) (sp : nat * nat) :
  search_group m_bound (m_seq (m_lit "20") (m_rep 2 m_digit)) m_bound s = Some sp ->
  2000 <= group_int s sp <= 2099.
Proof.
  destruct sp as [gs ge]. intros H. apply search_group_sound in H.
  apply in_m_seq in H as [k [Hk H]]. apply in_m_lit in Hk as [-> Hpre].
  apply m_rep_digits in H as [-> [ds [Hlen [Hall Hsk]]]].
  simpl String.length in Hsk |- *.
  assert (Hsk0 : skipn gs s = ("2" :: "0" :: ds)%char ++ skipn (gs + 2 + 2) s).
  { pose proof (prefixb_sound _ _ Hpre) as Hp. simpl in Hp.
    rewrite skipn_skipn in Hp.
    replace (2 + gs)%nat with (gs + 2)%nat in Hp by lia.
    rewrite Hsk in Hp. exact Hp. }
  unfold group_int.
  replace (gs + 2 + 2)%nat with (gs + 4)%nat in * by lia.
  rewrite (span_text_app s ("2" :: "0" :: ds)%char gs 4 ltac:(simpl; lia) Hsk0).
  pose proof (digits_value_acc_bound ds 20 Hall ltac:(lia)) as Hb.
  unfold digits_value. simpl. rewrite Hlen in Hb. simpl in Hb.
  unfold digit_val in Hb |- *. simpl in Hb |- *.
  change ((0 * 10 + Z.of_nat 2) * 10 + Z.of_nat 0) with 20. simpl in Hb. lia.
Qed.

Lemma months_hindi_range :
  Forall (fun p => 1 <= snd p <= 12) months_hindi.
Proof. repeat constructor; simpl; lia. Qed.

Lemma extract_date_filter_bounds (question_lower : string) :
  match extract_date_filter question_lower with
  | Some df =>
      match df_month df with
      | Some m => 1 <= m <= 12 /\
                  (forall y, df_year df = Some y -> 0 <= y <= 9999)
      | None => exists y, df_year df = Some y /\ 2000 <= y <= 2099
      end
  | None => True
  end.
Proof.
  unfold extract_date_filter.
  destruct (List.find _ months_hindi) as [[month_name month_num]|] eqn:Ef.
  - simpl. apply find_some in Ef as [Hin _].
    pose proof months_hindi_range as Hr. rewrite List.Forall_forall in Hr.
    split; [exact (Hr _ Hin)|].
    intros y Hy.
    destruct (search_group _ _ _ _) as [sp|] eqn:Es; [|discriminate].
    simpl in Hy. inversion Hy; subst. exact (month_year_group_bound _ _ _ Es).
  - destruct (search_group _ _ _ _) as [sp|] eqn:Es; [|exact I].
    simpl. eexists. split; [reflexivity|]. exact (year_group_bound _ _ Es).
Qed.

(** The date filter built by [extract_filters_from_query] has a month in
    [1..12] when it has a month (and then a year, if any, of four digits),
    and otherwise a year in [2000..2099]. *)
Theorem extract_filters_date_ranges (question : string) :
  match date_filter (extract_filters_from_query question) with
  | Some df =>
      match df_month df with
      | Some m => 1 <= m <= 12 /\
                  (forall y, df_year df = Some y -> 0 <= y <= 9999)
      | None => exists y, df_year df = Some y /\ 2000 <= y <= 2099
      end
  | None => True
  end.
Proof.
  unfold extract_filters_from_query.
  destruct (extract_amount_filters question) as [[above below] range].
  destruct (extract_person question) as [name strict].
  apply extract_date_filter_bounds.
Qed.

Lemma extract_filters_month_in_lexicon (question : string) :
  month_in_lexicon (extract_filters_from_query question).
Proof.
  unfold month_in_lexicon, extract_filters_from_query.
  destruct (extract_amount_filters question) as [[above below] range].
  destruct (extract_person question) as [name strict]. simpl.
  pose proof (extract_date_filter_bounds (lower question)) as H.
  destruct (extract_date_filter (lower question)) as [df|]; [|exact I].
  destruct (df_month df); [apply H | exact I].
Qed.

(** Filters extracted from any question never make [apply_filters] raise
    on records whose fields have the expected types. *)
Theorem extract_then_apply_total (question : string) (documents : list record) :
  Forall well_formed_record documents ->
  exists filtered descriptions,
    apply_filters documents (extract_filters_from_query question) question
    = Ok (filtered, descriptions).
Proof.
  intros Hd. apply apply_filters_total; [apply extract_filters_month_in_lexicon | exact Hd].
Qed.

Lemma extract_then_apply_total_witness :
  Forall well_formed_record
    [txn "t1" 6000 "2024-03-02T10:00:00" "UPI" "paid to Ravi Kumar"] /\
  exists filtered descriptions,
    apply_filters [txn "t1" 6000 "2024-03-02T10:00:00" "UPI" "paid to Ravi Kumar"]
      (extract_filters_from_query "UPI payments above 5000 in March 2024 to Ravi Kumar")
      "UPI payments above 5000 in March 2024 to Ravi Kumar"
    = Ok (filtered, descriptions).
Proof.
  assert (Hd : Forall well_formed_record
                 [txn "t1" 6000 "2024-03-02T10:00:00" "UPI" "paid to Ravi Kumar"]).
  { constructor; [|constructor].
    unfold well_formed_record. simpl.
    split; [eauto|]. split; [exact I|]. split; [eexists; reflexivity|].
    split; eauto. }
  split; [exact Hd|].
  exact (extract_then_apply_total "UPI payments above 5000 in March 2024 to Ravi Kumar" _ Hd).
Defined.

(* ------------------------------------------------------------------ *)
(** ** Formatting, ingestion and the [/prompt] endpoint *)

Lemma pyd_str_ok (v : pyval) (s : string) : pyd_str v = Ok s -> v = PStr s.
Proof. destruct v; simpl; intros H; try discriminate. now inversion H. Qed.

Lemma py_replace_ok (v : pyval) (o n s : string) :
  py_replace v o n = Ok s -> is_str v.
Proof. destruct v; simpl; intros H; try discriminate. eexists; reflexivity. Qed.

(** [format_transaction_for_api] succeeds exactly when [amount] and the
    balance convert with [float], [pk_GSI_1] is a string, and the six
    fields copied into [str] fields of [TransactionInfo] (each with its
    fallback key and default) are strings. *)
Theorem format_transaction_for_api_ok (doc : record) :
  (exists ti, format_transaction_for_api doc = Ok ti) <-> api_formattable doc.
Proof.
  unfold format_transaction_for_api, api_formattable. split.
  - intros [ti H].
    apply bind_ok in H as [a [Ha H]].
    apply bind_ok in H as [t [Ht H]].
    apply bind_ok in H as [b [Hb H]].
    apply bind_ok in H as [s1 [H1 H]].
    apply bind_ok in H as [s2 [H2 H]].
    apply bind_ok in H as [s3 [H3 H]].
    apply bind_ok in H as [s4 [H4 H]].
    apply bind_ok in H as [s5 [H5 H]].
    apply bind_ok in H as [s6 [H6 H]].
    apply pyd_str_ok in H1, H2, H3, H4, H5, H6.
    repeat split; eauto using py_replace_ok; eexists; eassumption.
  - intros [[a Ha] [[t Ht] [[b Hb] [[s1 H1] [[s2 H2] [[s3 H3] [[s4 H4] [[s5 H5] [s6 H6]]]]]]]]].
    rewrite Ha; cbn [bind]. rewrite Ht; cbn [bind py_replace].
    rewrite Hb; cbn [bind]. rewrite H1, H2, H3, H4, H5, H6. cbn. eauto.
Qed.

Lemma mapM_forall_ok {A B} (f : A -> result B) (l : list A) (ys : list B) :
  mapM f l = Ok ys -> Forall (fun x => exists y, f x = Ok y) l.
Proof.
  revert ys; induction l as [|x l IH]; intros ys H; simpl in H; [constructor|].
  apply bind_ok in H as [y [Hy H]]. apply bind_ok in H as [r [Hr _]].
  constructor; eauto.
Qed.

Lemma make_document_amount (py_str : pyval -> string) (fmt_money : Q -> string)
    (txn : record) (d : Document) :
  make_document py_str fmt_money txn = Ok d -> exists a, amount_of txn = Ok a.
Proof.
  unfold make_document, format_transaction_for_vector, amount_of. intros H.
  apply bind_ok in H as [c [Hc _]]. apply bind_ok in Hc as [a [Ha _]]. eauto.
Qed.

Lemma sort_by_amount_desc_total (docs : list record) :
  Forall (fun d => exists a, amount_of d = Ok a) docs ->
  exists sorted, sort_by_amount_desc docs = Ok sorted.
Proof.
  intros H. destruct (mapM_ok amount_of docs H) as [ks Hks].
  unfold sort_by_amount_desc. rewrite Hks. cbn [bind]. eauto.
Qed.

Lemma paginate_total (docs : list record) (sa : bool) (p ps : nat) :
  Forall (fun d => exists a, amount_of d = Ok a) docs ->
  exists r, paginate docs sa p ps = Ok r.
Proof.
  intros H. unfold paginate. destruct sa, docs as [|d docs']; eauto.
  destruct (sort_by_amount_desc_total (d :: docs') H) as [s Hs].
  rewrite Hs. cbn [bind]. eauto.
Qed.

Section IngestProperties.

Variable py_str : pyval -> string.
Variable fmt_money : Q -> string.
Variable VectorStore : Type.
Variable from_documents : list Document -> result VectorStore.

(** A failed ingestion (status 503 or 500) leaves the stored data as it
    was; a successful one replaces the stored records by the request's
    records and reports their number and the time of the update. *)
Theorem ingest_context_data_store (models_ready : bool) (context_data : list record)
    (now_iso : string) (store : IngestedStore VectorStore) :
  let (res, store') := ingest_context_data py_str fmt_money VectorStore
                         from_documents models_ready context_data now_iso store in
  match res with
  | HttpError _ => store' = store
  | HttpOk ir =>
      store_transactions store' = context_data /\
      transactions_ingested ir = length context_data /\
      store_last_updated store' = Some now_iso /\
      ir_timestamp ir = now_iso
  end.
Proof.
  unfold ingest_context_data. destruct models_ready; simpl; [|reflexivity].
  destruct (create_vector_store py_str fmt_money VectorStore from_documents
              context_data) as [[vs docs]|e]; simpl; auto.
Qed.

(** After a successful ingestion every stored record has a convertible
    amount, so sorting and paginating any selection of the stored records
    never raises. *)
Theorem ingest_then_paginate (models_ready : bool) (context_data : list record)
    (now_iso : string) (store store' : IngestedStore VectorStore)
    (ir : IngestResponse) :
  ingest_context_data py_str fmt_money VectorStore from_documents models_ready
    context_data now_iso store = (HttpOk ir, store') ->
  forall docs, incl docs (store_transactions store') ->
  forall (sa : bool) (p ps : nat), exists r, paginate docs sa p ps = Ok r.
Proof.
  unfold ingest_context_data. intros H docs Hincl sa p ps.
  destruct models_ready; simpl in H; [|discriminate].
  destruct (create_vector_store py_str fmt_money VectorStore from_documents
              context_data) as [[vs ldocs]|e] eqn:Hc; [|discriminate].
  inversion H; subst store'. simpl in Hincl.
  unfold create_vector_store in Hc. apply bind_ok in Hc as [ds [Hds _]].
  apply mapM_forall_ok in Hds.
  apply paginate_total. apply List.Forall_forall. intros d Hd.
  apply Hincl in Hd. rewrite List.Forall_forall in Hds.
  destruct (Hds d Hd) as [doc Hdoc]. eapply make_document_amount; eauto.
Qed.

End IngestProperties.

Lemma ingest_then_paginate_witness :
  (exists ir store',
     ingest_context_data (fun _ => "") (fun _ => "") unit (fun _ => Ok tt) true
       [txn "t1" 10 "2024-01-01" "UPI" "x"] "2026-01-01T00:00:00"
       {| store_transactions := []; store_vectorstore := None;
          store_langchain_docs := []; store_last_updated := None |}
     = (HttpOk ir, store') /\
     store_transactions store' = [txn "t1" 10 "2024-01-01" "UPI" "x"]) /\
  exists r, paginate [txn "t1" 10 "2024-01-01" "UPI" "x"] true 1 20 = Ok r.
Proof.
  split.
  - do 2 eexists. split; [vm_compute; reflexivity | reflexivity].
  - eapply (ingest_then_paginate (fun _ => "") (fun _ => "") unit (fun _ => Ok tt)
              true [txn "t1" 10 "2024-01-01" "UPI" "x"] "2026-01-01T00:00:00"
              {| store_transactions := []; store_vectorstore := None;
                 store_langchain_docs := []; store_last_updated := None |}).
    + vm_compute. reflexivity.
    + simpl. intros x Hx; exact Hx.
Defined.

Lemma paginate_some_show_all (docs : list record) (sa : bool) (p ps : nat)
    (l : list record) (pg : option Pagination) :
  paginate docs sa p ps = Ok (Some l, pg) -> sa = true.
Proof. unfold paginate. destruct sa; [auto|]. intros H; inversion H. Qed.

Lemma apply_filters_question (documents : list record) (filters : FilterSet)
    (q q' : string) :
  apply_filters documents filters q = apply_filters documents filters q'.
Proof. reflexivity. Qed.

(** The rows a successful [calculate_statistics] has read all carry a
    convertible amount. *)
Lemma calculate_statistics_amounts (documents : list record) (filters : FilterSet)
    (q : string) (st : Statistics) (filtered : list record) (ds : list FilterDesc) :
  calculate_statistics documents filters = Ok st ->
  apply_filters documents filters q = Ok (filtered, ds) ->
  Forall (fun d => exists a, amount_of d = Ok a) filtered.
Proof.
  unfold calculate_statistics. intros H Ha.
  rewrite (apply_filters_question documents filters "" q), Ha in H.
  cbn [bind fst] in H. destruct filtered as [|d l]; [constructor|].
  apply bind_ok in H as [am [Ham _]]. eapply mapM_forall_ok; eauto.
Qed.

Lemma prompt_cache_step_page1 (qid : string) (request : PromptRequest)
    (query_cache : QueryCache) (t_sweep t_check : Z) :
  page request = 1%nat ->
  prompt_cache_step qid request query_cache t_sweep t_check
  = (Ok RunPipeline, snd (get_cached_query qid query_cache t_sweep t_check)).
Proof.
  intros Hp. unfold prompt_cache_step.
  destruct (get_cached_query qid query_cache t_sweep t_check) as [[e|] c1];
    [rewrite Hp|]; reflexivity.
Qed.

Lemma prompt_cache_step_serves (qid : string) (request : PromptRequest)
    (query_cache : QueryCache) (t_sweep t_check : Z) (e : CacheEntry)
    (txs : option (list record)) (pg : option Pagination) :
  t_sweep <= t_check ->
  query_cache !! qid = Some e ->
  t_check - c_timestamp e <= cache_ttl ->
  (1 < page request)%nat ->
  paginate (c_filtered_docs e) (show_all request) (page request)
    (page_size request) = Ok (txs, pg) ->
  prompt_cache_step qid request query_cache t_sweep t_check
  = (Ok (Respond {| query_id := qid; r_answer := c_answer e; r_mode := c_mode e;
                    matching_transactions_count := length (c_filtered_docs e);
                    r_filters_applied := c_filters_applied e;
                    transactions := txs; pagination := pg;
                    r_statistics := c_statistics e |}),
     snd (get_cached_query qid query_cache t_sweep t_check)).
Proof.
  intros Hle Hq Hage Hp Hpg.
  pose proof (get_cached_query_hit qid query_cache t_sweep t_check e Hle Hq Hage) as Hg.
  unfold prompt_cache_step.
  destruct (get_cached_query qid query_cache t_sweep t_check) as [o c1].
  simpl in Hg. subst o. apply Nat.ltb_lt in Hp. rewrite Hp, Hpg. reflexivity.
Qed.

Lemma resolve_query_id_again (generate_query_id : string -> FilterSet -> string)
    (req1 req2 : PromptRequest) (filters : FilterSet) :
  prompt req2 = prompt req1 ->
  req_query_id req2 = Some (resolve_query_id generate_query_id req1 filters) ->
  resolve_query_id generate_query_id req2 filters
  = resolve_query_id generate_query_id req1 filters.
Proof.
  intros Hp Hq.
  assert (Hr : resolve_query_id generate_query_id req1 filters = "" ->
               generate_query_id (prompt req1) filters = "").
  { unfold resolve_query_id. destruct (req_query_id req1) as [q|]; [|auto].
    destruct (String.eqb q "") eqn:Eq; [auto|].
    intros ->. discriminate. }
  unfold resolve_query_id at 1. rewrite Hq, Hp.
  destruct (String.eqb (resolve_query_id generate_query_id req1 filters) "") eqn:E;
    [|reflexivity].
  apply String.eqb_eq in E. rewrite E. apply Hr, E.
Qed.

Lemma render_response_data (r : RAGResponse) (p : PromptResponse) :
  render_response r = Ok p -> resp_data p = r.
Proof.
  unfold render_response. destruct (transactions r) as [docs|].
  - intros H. apply bind_ok in H as [infos [_ H]]. now inversion H.
  - intros H. now inversion H.
Qed.

Lemma render_response_raise (r : RAGResponse) (e : exn) :
  render_response r = Raise e -> exists docs, transactions r = Some docs.
Proof.
  unfold render_response. destruct (transactions r) as [docs|]; eauto.
  discriminate.
Qed.

Section EndpointProperties.

Variable VectorStore : Type.
Variable generate_query_id : string -> FilterSet -> string.
Variable generate_conversational_answer :
  string -> list record -> FilterSet -> list FilterDesc -> bool -> result string.
Variable statistical_answer : string -> Statistics -> list FilterDesc -> string.
Variable process_analytical_query : list record -> string -> result string.
Variable process_vector_search_query :
  option VectorStore -> string -> nat -> result string.

Local Abbreviation query_with_prompt' :=
  (query_with_prompt VectorStore generate_query_id generate_conversational_answer
     statistical_answer process_analytical_query process_vector_search_query).
Local Abbreviation prompt_pipeline' :=
  (prompt_pipeline VectorStore generate_conversational_answer statistical_answer
     process_analytical_query process_vector_search_query).

(** [query_with_prompt] on a page-1 request with data present: the
    pipeline runs on the cache left by the lookup. *)
Lemma query_with_prompt_page1 (store : IngestedStore VectorStore)
    (request : PromptRequest) (query_cache : QueryCache) (t_sweep t_check now : Z) :
  has_ingested_data store = true ->
  page request = 1%nat ->
  query_with_prompt' true store request query_cache t_sweep t_check now
  = let filters := extract_filters_from_query (prompt request) in
    let qid := resolve_query_id generate_query_id request filters in
    let (res, query_cache2) :=
      prompt_pipeline' (store_transactions store) (store_vectorstore store)
        filters qid request now
        (snd (get_cached_query qid query_cache t_sweep t_check)) in
    match bind res render_response with
    | Ok r => (HttpOk r, query_cache2)
    | Raise _ => (HttpError 500, query_cache2)
    end.
Proof.
  intros Hh Hp. unfold query_with_prompt. rewrite Hh. cbn [negb].
  rewrite prompt_cache_step_page1 by exact Hp. reflexivity.
Qed.

(** [query_with_prompt] on a later page whose entry is served. *)
Lemma query_with_prompt_served (store : IngestedStore VectorStore)
    (request : PromptRequest) (query_cache : QueryCache) (t_sweep t_check now : Z)
    (e : CacheEntry) (txs : option (list record)) (pg : option Pagination) :
  has_ingested_data store = true ->
  let qid := resolve_query_id generate_query_id request
               (extract_filters_from_query (prompt request)) in
  t_sweep <= t_check ->
  query_cache !! qid = Some e ->
  t_check - c_timestamp e <= cache_ttl ->
  (1 < page request)%nat ->
  paginate (c_filtered_docs e) (show_all request) (page request)
    (page_size request) = Ok (txs, pg) ->
  query_with_prompt' true store request query_cache t_sweep t_check now
  = match render_response
            {| query_id := qid; r_answer := c_answer e; r_mode := c_mode e;
               matching_transactions_count := length (c_filtered_docs e);
               r_filters_applied := c_filters_applied e;
               transactions := txs; pagination := pg;
               r_statistics := c_statistics e |} with
    | Ok r => (HttpOk r, snd (get_cached_query qid query_cache t_sweep t_check))
    | Raise _ => (HttpError 500, snd (get_cached_query qid query_cache t_sweep t_check))
    end.
Proof.
  intros Hh qid Hle Hq Hage Hp Hpg. unfold query_with_prompt. rewrite Hh.
  cbn [negb]. fold qid.
  rewrite (prompt_cache_step_serves qid request query_cache t_sweep t_check e
             txs pg Hle Hq Hage Hp Hpg).
  reflexivity.
Qed.

(** Claim C1, as the code does it, at the level of the endpoint.  A page-1
    request is not answered from the cache: the pipeline of its mode runs
    on the cache left by the lookup.  For a later page whose query id has
    an unexpired entry, nothing is recomputed and the cache is only swept:
    the response carries the entry's answer, mode, filter descriptions and
    statistics, the count [len(filtered_docs)] and, when [show_all] is set
    and the entry's records are non-empty, the slice
    [[(page-1)*page_size, page*page_size)] of the records sorted by
    decreasing amount; the endpoint answers 500 exactly when formatting a
    record of that slice raises. *)
Theorem query_with_prompt_cached_page (store : IngestedStore VectorStore)
    (request : PromptRequest) (query_cache : QueryCache) (t_sweep t_check now : Z) :
  has_ingested_data store = true ->
  let filters := extract_filters_from_query (prompt request) in
  let qid := resolve_query_id generate_query_id request filters in
  (page request = 1%nat ->
   query_with_prompt' true store request query_cache t_sweep t_check now
   = let (res, query_cache2) :=
       prompt_pipeline' (store_transactions store) (store_vectorstore store)
         filters qid request now
         (snd (get_cached_query qid query_cache t_sweep t_check)) in
     match bind res render_response with
     | Ok r => (HttpOk r, query_cache2)
     | Raise _ => (HttpError 500, query_cache2)
     end) /\
  (forall (e : CacheEntry) (sorted_docs : list record),
   t_sweep <= t_check ->
   query_cache !! qid = Some e ->
   t_check - c_timestamp e <= cache_ttl ->
   (1 < page request)%nat ->
   sort_by_amount_desc (c_filtered_docs e) = Ok sorted_docs ->
   snd (query_with_prompt' true store request query_cache t_sweep t_check now)
     = snd (get_cached_query qid query_cache t_sweep t_check) /\
   exists resp,
     query_id resp = qid /\
     r_answer resp = c_answer e /\
     r_mode resp = c_mode e /\
     r_filters_applied resp = c_filters_applied e /\
     r_statistics resp = c_statistics e /\
     matching_transactions_count resp = length (c_filtered_docs e) /\
     transactions resp =
       (if show_all request then
          match c_filtered_docs e with
          | [] => None
          | _ => Some (py_slice sorted_docs ((page request - 1) * page_size request)
                                (page request * page_size request))
          end
        else None) /\
     fst (query_with_prompt' true store request query_cache t_sweep t_check now)
     = match transactions resp with
       | None => HttpOk {| resp_data := resp; resp_transactions := None |}
       | Some docs =>
           match mapM format_transaction_for_api docs with
           | Ok infos => HttpOk {| resp_data := resp; resp_transactions := Some infos |}
           | Raise _ => HttpError 500
           end
       end).
Proof.
  intros Hh filters qid. split.
  - intros Hp. unfold query_with_prompt. rewrite Hh. cbn [negb].
    fold filters qid. rewrite prompt_cache_step_page1 by exact Hp. reflexivity.
  - intros e sorted_docs Hle Hq Hage Hp Hs.
    assert (Hpg : exists txs pg,
      paginate (c_filtered_docs e) (show_all request) (page request)
        (page_size request) = Ok (txs, pg) /\
      txs = (if show_all request then
               match c_filtered_docs e with
               | [] => None
               | _ => Some (py_slice sorted_docs ((page request - 1) * page_size request)
                                     (page request * page_size request))
               end
             else None)).
    { destruct (show_all request) eqn:Hsa.
      - destruct (c_filtered_docs e) as [|d ds] eqn:Hd.
        + exists None, None. split; reflexivity.
        + rewrite (paginate_page (d :: ds) sorted_docs) by
            (first [discriminate | exact Hs]).
          eexists _, _. split; [reflexivity|]. f_equal. f_equal. nia.
      - exists None, None. split; reflexivity. }
    destruct Hpg as (txs & pg & Hpg & Htxs).
    pose proof (query_with_prompt_served store request query_cache t_sweep t_check
                  now e txs pg Hh) as Hs'.
    cbv zeta in Hs'. fold filters qid in Hs'.
    rewrite (Hs' Hle Hq Hage Hp Hpg). clear Hs'.
    set (resp := {| query_id := qid; r_answer := c_answer e; r_mode := c_mode e;
                    matching_transactions_count := length (c_filtered_docs e);
                    r_filters_applied := c_filters_applied e;
                    transactions := txs; pagination := pg;
                    r_statistics := c_statistics e |}).
    unfold render_response. simpl transactions.
    split; [destruct txs as [docs|];
            [destruct (mapM format_transaction_for_api docs)|]; reflexivity|].
    exists resp. repeat split; try reflexivity.
    + exact Htxs.
    + simpl. destruct txs as [docs|]; [|reflexivity].
      destruct (mapM format_transaction_for_api docs); reflexivity.
Qed.

Lemma prompt_pipeline_mode (documents : list record)
    (vectorstore : option VectorStore) (filters : FilterSet) (qid : string)
    (request : PromptRequest) (now : Z) (query_cache : QueryCache)
    (rr : RAGResponse) :
  fst (prompt_pipeline' documents vectorstore filters qid request now query_cache)
  = Ok rr -> r_mode rr = resolve_mode request documents.
Proof.
  unfold prompt_pipeline.
  destruct (resolve_mode request documents) eqn:Em.
  - destruct (match VECTOR_SEARCH with SMART_FULL => true | _ => false end
              || match use_full_data request with Some true => true | _ => false end).
    + destruct (process_smart_full_query generate_conversational_answer documents
                  (prompt request) (show_all request)) as [[[a f] d]|e];
        [|discriminate].
      destruct (paginate f (show_all request) (page request) (page_size request))
        as [[t g]|e]; simpl; intros H; inversion H; reflexivity.
    + destruct (_ || _).
      * destruct (process_analytical_query documents (prompt request)) as [a|e];
          simpl; intros H; inversion H; reflexivity.
      * destruct (process_vector_search_query vectorstore (prompt request) _) as [a|e];
          simpl; intros H; inversion H; reflexivity.
  - cbn [orb].
    destruct (process_smart_full_query generate_conversational_answer documents
                (prompt request) (show_all request)) as [[[a f] d]|e];
      [|discriminate].
    destruct (paginate f (show_all request) (page request) (page_size request))
      as [[t g]|e]; simpl; intros H; inversion H; reflexivity.
  - destruct (process_statistical_query statistical_answer documents (prompt request))
      as [[[[a st] fd] c]|e]; [|discriminate].
    destruct (apply_filters documents filters (prompt request)) as [[f d]|e];
      simpl; intros H; inversion H; reflexivity.
Qed.

Lemma has_ingested_of_ok (store : IngestedStore VectorStore)
    (request : PromptRequest) (query_cache query_cache' : QueryCache)
    (t_sweep t_check now : Z) (r : PromptResponse) :
  query_with_prompt' true store request query_cache t_sweep t_check now
  = (HttpOk r, query_cache') -> has_ingested_data store = true.
Proof.
  destruct (has_ingested_data store) eqn:E; [reflexivity|].
  unfold query_with_prompt. rewrite E. cbn [negb]. discriminate.
Qed.

(** A statistical answer given for page 1 is served unchanged to a later
    page of the same query while its cache entry lives: same answer,
    statistics, filter descriptions and matching count; only rendering
    the page of records can still fail (status 500). *)
Theorem query_with_prompt_statistical_pages (store : IngestedStore VectorStore)
    (req1 req2 : PromptRequest) (c0 c1 : QueryCache)
    (ts1 tc1 now1 ts2 tc2 now2 : Z) (r1 : PromptResponse) :
  query_with_prompt' true store req1 c0 ts1 tc1 now1 = (HttpOk r1, c1) ->
  page req1 = 1%nat ->
  r_mode (resp_data r1) = STATISTICAL ->
  prompt req2 = prompt req1 ->
  req_query_id req2 = Some (query_id (resp_data r1)) ->
  (1 < page req2)%nat ->
  now1 <= ts2 -> ts2 <= tc2 -> tc2 - now1 <= cache_ttl ->
  match fst (query_with_prompt' true store req2 c1 ts2 tc2 now2) with
  | HttpOk r2 =>
      r_mode (resp_data r2) = STATISTICAL /\
      r_answer (resp_data r2) = r_answer (resp_data r1) /\
      matching_transactions_count (resp_data r2)
        = matching_transactions_count (resp_data r1) /\
      r_filters_applied (resp_data r2) = r_filters_applied (resp_data r1) /\
      r_statistics (resp_data r2) = r_statistics (resp_data r1)
  | HttpError code => code = 500 /\ show_all req2 = true
  end.
Proof.
  intros H1 Hp1 Hm Hpr Hq Hpg2 Ht1 Ht2 Ht3.
  pose proof (has_ingested_of_ok _ _ _ _ _ _ _ _ H1) as Hh.
  rewrite query_with_prompt_page1 in H1 by assumption. cbv zeta in H1.
  set (F := extract_filters_from_query (prompt req1)) in H1.
  set (qid := resolve_query_id generate_query_id req1 F) in H1.
  set (c0' := snd (get_cached_query qid c0 ts1 tc1)) in H1.
  set (docs := store_transactions store) in H1.
  destruct (prompt_pipeline' docs (store_vectorstore store) F qid req1 now1 c0')
    as [res c1'] eqn:Epipe.
  destruct (bind res render_response) as [r|e] eqn:Er; inversion H1; subst r c1'.
  apply bind_ok in Er as [rr [Hres Hrend]].
  apply render_response_data in Hrend.
  assert (Emode : resolve_mode req1 docs = STATISTICAL).
  { rewrite <- (prompt_pipeline_mode docs (store_vectorstore store) F qid req1 now1
                  c0' rr), <- Hrend, Hm; [reflexivity|].
    rewrite Epipe. exact Hres. }
  unfold prompt_pipeline in Epipe. rewrite Emode in Epipe.
  destruct (process_statistical_query statistical_answer docs (prompt req1))
    as [[[[ans st] fd] cnt]|e] eqn:Es; [|inversion Epipe; subst; discriminate].
  destruct (apply_filters docs F (prompt req1)) as [[fdocs ds]|e] eqn:Ea;
    [|inversion Epipe; subst; discriminate].
  injection Epipe as Eres Ec1. subst res c1.
  injection Hres as Hrr. subst rr.
  unfold process_statistical_query in Es. fold F in Es.
  apply bind_ok in Es as [st' [Hst Es]].
  apply bind_ok in Es as [[fdocs' fd'] [Ha' Es]].
  rewrite Ea in Ha'. inversion Ha'; subst fdocs' fd'. clear Ha'.
  inversion Es; subst ans st' fd cnt. clear Es.
  rewrite Hrend in Hq. simpl in Hq.
  assert (Hq2 : resolve_query_id generate_query_id req2
                  (extract_filters_from_query (prompt req2)) = qid).
  { rewrite Hpr. fold F. apply resolve_query_id_again; assumption. }
  set (e := {| c_answer := statistical_answer (prompt req1) st ds;
               c_mode := STATISTICAL; c_filtered_docs := fdocs;
               c_filters_applied := Some ds; c_statistics := Some st;
               c_timestamp := now1 |}).
  assert (Hlk : cache_query_results qid (statistical_answer (prompt req1) st ds)
                  STATISTICAL fdocs (Some ds) (Some st) now1 c0' !! qid = Some e).
  { unfold cache_query_results. apply lookup_insert_eq. }
  destruct (paginate_total fdocs (show_all req2) (page req2) (page_size req2)
              (calculate_statistics_amounts docs F (prompt req1) st fdocs ds Hst Ea))
    as [[txs pg] Hpg].
  pose proof (query_with_prompt_served store req2
                (cache_query_results qid (statistical_answer (prompt req1) st ds)
                   STATISTICAL fdocs (Some ds) (Some st) now1 c0')
                ts2 tc2 now2 e txs pg Hh) as Hs.
  cbv zeta in Hs. rewrite Hq2 in Hs.
  rewrite Hs by (simpl; first [assumption | lia]); clear Hs.
  destruct (render_response _) as [r2|ex] eqn:Er2; simpl.
  - apply render_response_data in Er2. rewrite Er2, Hrend. simpl.
    repeat split; reflexivity.
  - split; [reflexivity|].
    apply render_response_raise in Er2 as [l Hl]. simpl in Hl. subst txs.
    eapply paginate_some_show_all; eauto.
Qed.

Lemma resolve_mode_vector (request : PromptRequest) (documents : list record) :
  resolve_mode request documents = VECTOR_SEARCH ->
  match use_full_data request with Some true => true | _ => false end = false.
Proof.
  unfold resolve_mode. destruct (use_full_data request) as [[|]|]; auto.
  discriminate.
Qed.

(** The vector-search branch of the pipeline. *)
Lemma prompt_pipeline_vector (documents : list record)
    (vectorstore : option VectorStore) (filters : FilterSet) (qid : string)
    (request : PromptRequest) (now : Z) (query_cache : QueryCache) :
  resolve_mode request documents = VECTOR_SEARCH ->
  endpoint_is_analytical (prompt request) = false ->
  prompt_pipeline' documents vectorstore filters qid request now query_cache
  = (match process_vector_search_query vectorstore (prompt request)
             (Nat.min 50 (length documents)) with
     | Raise e => Raise e
     | Ok res =>
         Ok {| query_id := qid; r_answer := res; r_mode := VECTOR_SEARCH;
               matching_transactions_count := Nat.min 50 (length documents);
               r_filters_applied := None; transactions := None;
               pagination := None; r_statistics := None |}
     end, query_cache).
Proof.
  intros Hm Ha. unfold prompt_pipeline. rewrite Hm.
  rewrite (resolve_mode_vector request documents Hm). cbn [orb].
  unfold endpoint_is_analytical in Ha. cbv zeta. rewrite Ha.
  destruct (process_vector_search_query vectorstore (prompt request) _); reflexivity.
Qed.

(** The analytical branch of the pipeline. *)
Lemma prompt_pipeline_analytical (documents : list record)
    (vectorstore : option VectorStore) (filters : FilterSet) (qid : string)
    (request : PromptRequest) (now : Z) (query_cache : QueryCache) :
  resolve_mode request documents = VECTOR_SEARCH ->
  endpoint_is_analytical (prompt request) = true ->
  prompt_pipeline' documents vectorstore filters qid request now query_cache
  = match process_analytical_query documents (prompt request) with
    | Raise e => (Raise e, query_cache)
    | Ok res =>
        (Ok {| query_id := qid; r_answer := res; r_mode := VECTOR_SEARCH;
               matching_transactions_count := length documents;
               r_filters_applied := None; transactions := None;
               pagination := None; r_statistics := None |},
         cache_query_results qid res VECTOR_SEARCH [] None None now query_cache)
    end.
Proof.
  intros Hm Ha. unfold prompt_pipeline. rewrite Hm.
  rewrite (resolve_mode_vector request documents Hm). cbn [orb].
  unfold endpoint_is_analytical in Ha. cbv zeta. rewrite Ha. reflexivity.
Qed.

(** A page-1 prompt that reaches the vector-search branch without an
    analytical or counting wording writes no cache entry, reports
    min(50, n) matches for n ingested records, and returns no filters,
    records or statistics. *)
Theorem query_with_prompt_vector_search (store : IngestedStore VectorStore)
    (request : PromptRequest) (query_cache : QueryCache) (t_sweep t_check now : Z) :
  has_ingested_data store = true ->
  page request = 1%nat ->
  resolve_mode request (store_transactions store) = VECTOR_SEARCH ->
  endpoint_is_analytical (prompt request) = false ->
  let qid := resolve_query_id generate_query_id request
               (extract_filters_from_query (prompt request)) in
  let (res, query_cache') :=
    query_with_prompt' true store request query_cache t_sweep t_check now in
  query_cache' = snd (get_cached_query qid query_cache t_sweep t_check) /\
  match res with
  | HttpOk r =>
      r_mode (resp_data r) = VECTOR_SEARCH /\
      matching_transactions_count (resp_data r)
        = Nat.min 50 (length (store_transactions store)) /\
      r_filters_applied (resp_data r) = None /\
      resp_transactions r = None /\ r_statistics (resp_data r) = None
  | HttpError code => code = 500
  end.
Proof.
  intros Hh Hp Hm Ha. cbv zeta.
  rewrite query_with_prompt_page1 by assumption. cbv zeta.
  rewrite prompt_pipeline_vector by assumption.
  destruct (process_vector_search_query _ _ _) as [res|e]; simpl; auto.
  repeat split; reflexivity.
Qed.

(** An analytical or counting prompt answered on page 1 (count: all
    ingested records) leaves an entry with no records: a later page of the
    same query is served from it with the same answer and a count of 0. *)
Theorem query_with_prompt_analytical_pages (store : IngestedStore VectorStore)
    (req1 req2 : PromptRequest) (c0 c1 : QueryCache)
    (ts1 tc1 now1 ts2 tc2 now2 : Z) (r1 : PromptResponse) :
  query_with_prompt' true store req1 c0 ts1 tc1 now1 = (HttpOk r1, c1) ->
  page req1 = 1%nat ->
  resolve_mode req1 (store_transactions store) = VECTOR_SEARCH ->
  endpoint_is_analytical (prompt req1) = true ->
  prompt req2 = prompt req1 ->
  req_query_id req2 = Some (query_id (resp_data r1)) ->
  (1 < page req2)%nat ->
  now1 <= ts2 -> ts2 <= tc2 -> tc2 - now1 <= cache_ttl ->
  matching_transactions_count (resp_data r1) = length (store_transactions store) /\
  exists r2, fst (query_with_prompt' true store req2 c1 ts2 tc2 now2) = HttpOk r2 /\
    r_mode (resp_data r2) = VECTOR_SEARCH /\
    r_answer (resp_data r2) = r_answer (resp_data r1) /\
    matching_transactions_count (resp_data r2) = 0%nat /\
    resp_transactions r2 = None /\ pagination (resp_data r2) = None.
Proof.
  intros H1 Hp1 Hm Ha Hpr Hq Hpg2 Ht1 Ht2 Ht3.
  pose proof (has_ingested_of_ok _ _ _ _ _ _ _ _ H1) as Hh.
  rewrite query_with_prompt_page1 in H1 by assumption. cbv zeta in H1.
  set (F := extract_filters_from_query (prompt req1)) in H1.
  set (qid := resolve_query_id generate_query_id req1 F) in H1.
  set (c0' := snd (get_cached_query qid c0 ts1 tc1)) in H1.
  rewrite prompt_pipeline_analytical in H1 by assumption.
  destruct (process_analytical_query (store_transactions store) (prompt req1))
    as [res|e]; simpl in H1; [|discriminate].
  injection H1 as Hr1 Hc1. subst c1. rewrite <- Hr1. simpl.
  split; [reflexivity|].
  rewrite <- Hr1 in Hq. simpl in Hq.
  assert (Hq2 : resolve_query_id generate_query_id req2
                  (extract_filters_from_query (prompt req2)) = qid).
  { rewrite Hpr. fold F. apply resolve_query_id_again; assumption. }
  set (e := {| c_answer := res; c_mode := VECTOR_SEARCH; c_filtered_docs := [];
               c_filters_applied := None; c_statistics := None;
               c_timestamp := now1 |}).
  pose proof (query_with_prompt_served store req2
                (cache_query_results qid res VECTOR_SEARCH [] None None now1 c0')
                ts2 tc2 now2 e None None Hh) as Hs.
  cbv zeta in Hs. rewrite Hq2 in Hs.
  rewrite Hs; clear Hs.
  - simpl. eexists. split; [reflexivity|]. simpl. repeat split; reflexivity.
  - assumption.
  - unfold cache_query_results. apply lookup_insert_eq.
  - simpl. assumption.
  - assumption.
  - unfold paginate. simpl. destruct (show_all req2); reflexivity.
Qed.

(** [use_full_data] given on page 1 decides the branch: [True] answers
    from the filtered records (mode SMART_FULL), [False] gives a plain
    vector-search or analytical answer (mode VECTOR_SEARCH); neither
    reports statistics. *)
Theorem query_with_prompt_use_full_data (store : IngestedStore VectorStore)
    (request : PromptRequest) (query_cache query_cache' : QueryCache)
    (t_sweep t_check now : Z) (r : PromptResponse) (b : bool) :
  query_with_prompt' true store request query_cache t_sweep t_check now
    = (HttpOk r, query_cache') ->
  page request = 1%nat ->
  use_full_data request = Some b ->
  r_statistics (resp_data r) = None /\
  if b then
    r_mode (resp_data r) = SMART_FULL /\
    exists filtered fd,
      apply_filters (store_transactions store)
        (extract_filters_from_query (prompt request)) (prompt request)
      = Ok (filtered, fd) /\
      matching_transactions_count (resp_data r) = length filtered /\
      r_filters_applied (resp_data r) = Some fd
  else
    r_mode (resp_data r) = VECTOR_SEARCH /\
    r_filters_applied (resp_data r) = None /\ resp_transactions r = None.
Proof.
  intros H Hp Hu.
  pose proof (has_ingested_of_ok _ _ _ _ _ _ _ _ H) as Hh.
  rewrite query_with_prompt_page1 in H by assumption. cbv zeta in H.
  set (F := extract_filters_from_query (prompt request)) in H.
  set (qid := resolve_query_id generate_query_id request F) in H.
  set (c0' := snd (get_cached_query qid query_cache t_sweep t_check)) in H.
  set (docs := store_transactions store) in H |- *.
  destruct b.
  - assert (Hm : resolve_mode request docs = SMART_FULL)
      by (unfold resolve_mode; rewrite Hu; reflexivity).
    unfold prompt_pipeline in H. rewrite Hm in H. cbn [orb] in H.
    destruct (process_smart_full_query generate_conversational_answer docs
                (prompt request) (show_all request)) as [[[ans filtered] fd]|e]
      eqn:Es; [|discriminate].
    destruct (paginate filtered (show_all request) (page request) (page_size request))
      as [[txs pg]|e]; [|discriminate].
    simpl in H. destruct (render_response _) as [r'|e] eqn:Er; [|discriminate].
    injection H as Hr _. subst r'. apply render_response_data in Er.
    rewrite Er. simpl.
    unfold process_smart_full_query in Es. fold F in Es.
    apply bind_ok in Es as [[f d] [Ha Es]].
    apply bind_ok in Es as [a [_ Es]]. injection Es as <- <- <-.
    repeat split; eauto.
  - assert (Hm : resolve_mode request docs = VECTOR_SEARCH)
      by (unfold resolve_mode; rewrite Hu; reflexivity).
    destruct (endpoint_is_analytical (prompt request)) eqn:Ea.
    + rewrite prompt_pipeline_analytical in H by assumption.
      destruct (process_analytical_query docs (prompt request)) as [res|e];
        simpl in H; [|discriminate].
      injection H as <- _. simpl. repeat split; reflexivity.
    + rewrite prompt_pipeline_vector in H by assumption.
      destruct (process_vector_search_query _ _ _) as [res|e];
        simpl in H; [|discriminate].
      injection H as <- _. simpl. repeat split; reflexivity.
Qed.

(** On page 1 a SMART_FULL answer is cached before its page is sorted and
    rendered: the entry is stored whatever the response, also when the
    sort raises and the endpoint answers 500. *)
Theorem query_with_prompt_smart_full_caches (store : IngestedStore VectorStore)
    (request : PromptRequest) (query_cache : QueryCache) (t_sweep t_check now : Z)
    (ans : string) (filtered : list record) (fd : list FilterDesc) :
  has_ingested_data store = true ->
  page request = 1%nat ->
  resolve_mode request (store_transactions store) = SMART_FULL ->
  process_smart_full_query generate_conversational_answer
    (store_transactions store) (prompt request) (show_all request)
  = Ok (ans, filtered, fd) ->
  let qid := resolve_query_id generate_query_id request
               (extract_filters_from_query (prompt request)) in
  snd (query_with_prompt' true store request query_cache t_sweep t_check now) !! qid
  = Some {| c_answer := ans; c_mode := SMART_FULL; c_filtered_docs := filtered;
            c_filters_applied := Some fd; c_statistics := None;
            c_timestamp := now |} /\
  (forall e, paginate filtered (show_all request) (page request) (page_size request)
             = Raise e ->
   fst (query_with_prompt' true store request query_cache t_sweep t_check now)
   = HttpError 500).
Proof.
  intros Hh Hp Hm Hs qid.
  rewrite query_with_prompt_page1 by assumption. cbv zeta. fold qid.
  unfold prompt_pipeline. rewrite Hm. cbn [orb]. rewrite Hs.
  split.
  - destruct (paginate filtered (show_all request) (page request) (page_size request))
      as [[txs pg]|e]; simpl.
    + destruct (render_response _); simpl; apply lookup_insert_eq.
    + apply lookup_insert_eq.
  - intros e He. rewrite He. reflexivity.
Qed.

(** An ASCII prompt "how many ..." without the word "transaction" and
    without an analytical or counting wording of the endpoint:
    [detect_query_mode] takes it for a counting query (VECTOR_SEARCH), but
    the endpoint's own counting test misses it, so on page 1 it is
    answered by plain vector search: min(50, n) matches and no cache
    entry.  (On ASCII text the byte-level [lower], [\b] and [\s] are those
    of Python.) *)
Theorem query_with_prompt_how_many (store : IngestedStore VectorStore)
    (request : PromptRequest) (query_cache : QueryCache) (t_sweep t_check now : Z) :
  ascii_only (prompt request) = true ->
  has_ingested_data store = true ->
  page request = 1%nat ->
  use_full_data request = None ->
  re_search (seqs [RBound; alts ["how"; "kitne"]; plus r_space; lit "many"; RBound])
    (lower (prompt request)) = true ->
  endpoint_is_analytical (prompt request) = false ->
  detect_query_mode (prompt request) (store_transactions store) = VECTOR_SEARCH /\
  let qid := resolve_query_id generate_query_id request
               (extract_filters_from_query (prompt request)) in
  let (res, query_cache') :=
    query_with_prompt' true store request query_cache t_sweep t_check now in
  query_cache' = snd (get_cached_query qid query_cache t_sweep t_check) /\
  match res with
  | HttpOk r =>
      r_mode (resp_data r) = VECTOR_SEARCH /\
      matching_transactions_count (resp_data r)
        = Nat.min 50 (length (store_transactions store))
  | HttpError code => code = 500
  end.
Proof.
  intros _ Hh Hp Hu Hre Ha.
  assert (Hd : detect_query_mode (prompt request) (store_transactions store)
               = VECTOR_SEARCH).
  { unfold detect_query_mode. cbv zeta.
    assert (Hc : existsb (fun p => re_search p (lower (prompt request)))
                   counting_patterns = true).
    { apply existsb_exists. eexists; split; [|exact Hre].
      unfold counting_patterns. simpl. tauto. }
    rewrite Hc. reflexivity. }
  split; [exact Hd|].
  assert (Hm : resolve_mode request (store_transactions store) = VECTOR_SEARCH)
    by (unfold resolve_mode; rewrite Hu; exact Hd).
  cbv zeta. rewrite query_with_prompt_page1 by assumption. cbv zeta.
  rewrite prompt_pipeline_vector by assumption.
  destruct (process_vector_search_query _ _ _) as [res|e]; simpl; auto.
Qed.

End EndpointProperties.

Lemma query_with_prompt_cached_page_witness :
  has_ingested_data demo_store = true /\
  exists resp infos,
    r_answer resp = "You have 3 transactions above 5000" /\
    transactions resp = Some [txn "b" 7000 "" "UPI" ""] /\
    fst (demo_query true demo_store
           (demo_request "show all transactions above 5000" 2 None (Some "q1"))
           (<["q1" := sample_entry 0]> ∅) 0 5 5)
    = HttpOk {| resp_data := resp; resp_transactions := Some infos |}.
Proof.
  split; [reflexivity|].
  destruct (query_with_prompt_cached_page unit demo_generate_query_id demo_answer
              demo_statistical_answer demo_analytical demo_vector_search demo_store
              (demo_request "show all transactions above 5000" 2 None (Some "q1"))
              (<["q1" := sample_entry 0]> ∅) 0 5 5 eq_refl) as [_ H2].
  destruct (H2 (sample_entry 0)
              [txn "c" 9000 "" "UPI" ""; txn "b" 7000 "" "UPI" "";
               txn "a" 6000 "" "UPI" ""]
              ltac:(lia) ltac:(vm_compute; reflexivity)
              ltac:(unfold cache_ttl, CACHE_TTL_MINUTES; simpl; lia)
              ltac:(simpl; lia) ltac:(vm_compute; reflexivity))
    as [_ (resp & _ & Ha & _ & _ & _ & _ & Ht & Hf)].
  assert (Ht' : transactions resp = Some [txn "b" 7000 "" "UPI" ""])
    by (rewrite Ht; vm_compute; reflexivity).
  rewrite Ht' in Hf.
  destruct (mapM format_transaction_for_api [txn "b" 7000 "" "UPI" ""])
    as [infos|ex] eqn:Em;
    [|pose proof Em as Em'; vm_compute in Em'; discriminate].
  exists resp, infos. split; [exact Ha|]. split; [exact Ht'|]. exact Hf.
Defined.

(** Claim C1 fails at page 1: the entry of ["q1"] is unexpired (the lookup
    returns it), yet a page-1 request with that query id is answered by
    running the pipeline again, with a fresh answer instead of the cached
    one. *)
Lemma query_with_prompt_page1_recomputes :
  fst (get_cached_query "q1" (<["q1" := sample_entry 0]> ∅) 5 5)
    = Some (sample_entry 0) /\
  exists r,
    fst (demo_query true demo_store
           (demo_request "show all transactions above 5000" 1 None (Some "q1"))
           (<["q1" := sample_entry 0]> ∅) 5 5 5) = HttpOk r /\
    r_answer (resp_data r) = "answer" /\
    r_answer (resp_data r) <> c_answer (sample_entry 0).
Proof.
  split; [vm_compute; reflexivity|].
  vm_compute. eexists. split; [reflexivity|]. split; [reflexivity|]. discriminate.
Qed.


Lemma query_with_prompt_statistical_pages_witness :
  exists r1 c1,
    demo_query true demo_store
      (demo_request "What is the total amount spent?" 1 None None) ∅ 0 0 0
    = (HttpOk r1, c1) /\
    r_mode (resp_data r1) = STATISTICAL /\
    match fst (demo_query true demo_store
                 (demo_request "What is the total amount spent?" 2 None
                    (Some "What is the total amount spent?")) c1 5 5 5) with
    | HttpOk r2 =>
        r_mode (resp_data r2) = STATISTICAL /\
        r_answer (resp_data r2) = r_answer (resp_data r1) /\
        matching_transactions_count (resp_data r2)
          = matching_transactions_count (resp_data r1) /\
        r_filters_applied (resp_data r2) = r_filters_applied (resp_data r1) /\
        r_statistics (resp_data r2) = r_statistics (resp_data r1)
    | HttpError code =>
        code = 500 /\
        show_all (demo_request "What is the total amount spent?" 2 None
                    (Some "What is the total amount spent?")) = true
    end.
Proof.
  destruct (demo_query true demo_store
              (demo_request "What is the total amount spent?" 1 None None) ∅ 0 0 0)
    as [[r1|code] c1] eqn:E; pose proof E as E'; vm_compute in E';
    [|discriminate].
  injection E' as Hr _.
  exists r1, c1. split; [reflexivity|]. split; [subst r1; reflexivity|].
  apply (query_with_prompt_statistical_pages unit demo_generate_query_id demo_answer
           demo_statistical_answer demo_analytical demo_vector_search demo_store
           (demo_request "What is the total amount spent?" 1 None None)
           (demo_request "What is the total amount spent?" 2 None
              (Some "What is the total amount spent?"))
           ∅ c1 0 0 0 5 5 5 r1 E).
  - reflexivity.
  - subst r1. reflexivity.
  - reflexivity.
  - subst r1. reflexivity.
  - simpl. lia.
  - lia.
  - lia.
  - vm_compute. congruence.
Defined.

Lemma query_with_prompt_analytical_pages_witness :
  exists r1 c1,
    demo_query true demo_store (demo_request "summarize my spending" 1 None None)
      ∅ 0 0 0 = (HttpOk r1, c1) /\
    matching_transactions_count (resp_data r1) = 2%nat /\
    exists r2, fst (demo_query true demo_store
                      (demo_request "summarize my spending" 3 None
                         (Some "summarize my spending")) c1 7 9 9) = HttpOk r2 /\
      r_mode (resp_data r2) = VECTOR_SEARCH /\
      r_answer (resp_data r2) = r_answer (resp_data r1) /\
      matching_transactions_count (resp_data r2) = 0%nat /\
      resp_transactions r2 = None /\ pagination (resp_data r2) = None.
Proof.
  destruct (demo_query true demo_store (demo_request "summarize my spending" 1 None None)
              ∅ 0 0 0) as [[r1|code] c1] eqn:E; pose proof E as E'; vm_compute in E';
    [|discriminate].
  injection E' as Hr _.
  exists r1, c1. split; [reflexivity|].
  apply (query_with_prompt_analytical_pages unit demo_generate_query_id demo_answer
           demo_statistical_answer demo_analytical demo_vector_search demo_store
           (demo_request "summarize my spending" 1 None None)
           (demo_request "summarize my spending" 3 None (Some "summarize my spending"))
           ∅ c1 0 0 0 7 9 9 r1 E).
  - reflexivity.
  - vm_compute. reflexivity.
  - vm_compute. reflexivity.
  - reflexivity.
  - subst r1. reflexivity.
  - simpl. lia.
  - lia.
  - lia.
  - vm_compute. congruence.
Defined.

Lemma query_with_prompt_vector_search_witness :
  has_ingested_data demo_store = true /\
  resolve_mode (demo_request "payments to Ravi" 1 None None)
    (store_transactions demo_store) = VECTOR_SEARCH /\
  endpoint_is_analytical "payments to Ravi" = false /\
  let qid := resolve_query_id demo_generate_query_id
               (demo_request "payments to Ravi" 1 None None)
               (extract_filters_from_query "payments to Ravi") in
  let (res, query_cache') :=
    demo_query true demo_store (demo_request "payments to Ravi" 1 None None)
      ∅ 0 0 0 in
  query_cache' = snd (get_cached_query qid ∅ 0 0) /\
  match res with
  | HttpOk r =>
      r_mode (resp_data r) = VECTOR_SEARCH /\
      matching_transactions_count (resp_data r)
        = Nat.min 50 (length (store_transactions demo_store)) /\
      r_filters_applied (resp_data r) = None /\
      resp_transactions r = None /\ r_statistics (resp_data r) = None
  | HttpError code => code = 500
  end.
Proof.
  split; [reflexivity|]. split; [vm_compute; reflexivity|].
  split; [vm_compute; reflexivity|].
  apply (query_with_prompt_vector_search unit demo_generate_query_id demo_answer
           demo_statistical_answer demo_analytical demo_vector_search demo_store
           (demo_request "payments to Ravi" 1 None None) ∅ 0 0 0).
  - reflexivity.
  - reflexivity.
  - vm_compute. reflexivity.
  - vm_compute. reflexivity.
Defined.

Lemma query_with_prompt_how_many_witness :
  ascii_only "How many payments to Ravi?" = true /\
  has_ingested_data demo_store = true /\
  re_search (seqs [RBound; alts ["how"; "kitne"]; plus r_space; lit "many"; RBound])
    (lower "How many payments to Ravi?") = true /\
  endpoint_is_analytical "How many payments to Ravi?" = false /\
  detect_query_mode "How many payments to Ravi?" (store_transactions demo_store)
    = VECTOR_SEARCH /\
  let qid := resolve_query_id demo_generate_query_id
               (demo_request "How many payments to Ravi?" 1 None None)
               (extract_filters_from_query "How many payments to Ravi?") in
  let (res, query_cache') :=
    demo_query true demo_store
      (demo_request "How many payments to Ravi?" 1 None None) ∅ 0 0 0 in
  query_cache' = snd (get_cached_query qid ∅ 0 0) /\
  match res with
  | HttpOk r =>
      r_mode (resp_data r) = VECTOR_SEARCH /\
      matching_transactions_count (resp_data r)
        = Nat.min 50 (length (store_transactions demo_store))
  | HttpError code => code = 500
  end.
Proof.
  split; [vm_compute; reflexivity|].
  split; [reflexivity|]. split; [vm_compute; reflexivity|].
  split; [vm_compute; reflexivity|].
  apply (query_with_prompt_how_many unit demo_generate_query_id demo_answer
           demo_statistical_answer demo_analytical demo_vector_search demo_store
           (demo_request "How many payments to Ravi?" 1 None None) ∅ 0 0 0).
  - vm_compute. reflexivity.
  - reflexivity.
  - reflexivity.
  - reflexivity.
  - vm_compute. reflexivity.
  - vm_compute. reflexivity.
Defined.

Lemma query_with_prompt_use_full_data_witness :
  exists r c',
    demo_query true demo_store
      (demo_request "payments above 500" 1 (Some true) None) ∅ 0 0 0
    = (HttpOk r, c') /\
    r_statistics (resp_data r) = None /\
    r_mode (resp_data r) = SMART_FULL /\
    exists filtered fd,
      apply_filters (store_transactions demo_store)
        (extract_filters_from_query "payments above 500") "payments above 500"
      = Ok (filtered, fd) /\
      matching_transactions_count (resp_data r) = length filtered /\
      r_filters_applied (resp_data r) = Some fd.
Proof.
  destruct (demo_query true demo_store
              (demo_request "payments above 500" 1 (Some true) None) ∅ 0 0 0)
    as [[r|code] c'] eqn:E; pose proof E as E'; vm_compute in E'; [|discriminate].
  exists r, c'. split; [reflexivity|].
  exact (query_with_prompt_use_full_data unit demo_generate_query_id demo_answer
           demo_statistical_answer demo_analytical demo_vector_search demo_store
           (demo_request "payments above 500" 1 (Some true) None) ∅ c' 0 0 0 r true
           E eq_refl eq_refl).
Defined.

Lemma query_with_prompt_smart_full_caches_witness :
  has_ingested_data demo_store = true /\
  resolve_mode (demo_request "show all transactions" 1 None None)
    (store_transactions demo_store) = SMART_FULL /\
  exists ans filtered fd,
    process_smart_full_query demo_answer (store_transactions demo_store)
      "show all transactions" true = Ok (ans, filtered, fd) /\
    let qid := resolve_query_id demo_generate_query_id
                 (demo_request "show all transactions" 1 None None)
                 (extract_filters_from_query "show all transactions") in
    snd (demo_query true demo_store (demo_request "show all transactions" 1 None None)
           ∅ 0 0 0) !! qid
    = Some {| c_answer := ans; c_mode := SMART_FULL; c_filtered_docs := filtered;
              c_filters_applied := Some fd; c_statistics := None;
              c_timestamp := 0 |} /\
    (forall e, paginate filtered true 1 1 = Raise e ->
     fst (demo_query true demo_store (demo_request "show all transactions" 1 None None)
            ∅ 0 0 0) = HttpError 500).
Proof.
  split; [reflexivity|]. split; [vm_compute; reflexivity|].
  destruct (process_smart_full_query demo_answer (store_transactions demo_store)
              "show all transactions" true) as [[[ans filtered] fd]|e] eqn:E;
    pose proof E as E'; vm_compute in E'; [|discriminate].
  exists ans, filtered, fd. split; [reflexivity|].
  apply (query_with_prompt_smart_full_caches unit demo_generate_query_id demo_answer
           demo_statistical_answer demo_analytical demo_vector_search demo_store
           (demo_request "show all transactions" 1 None None) ∅ 0 0 0
           ans filtered fd).
  - reflexivity.
  - reflexivity.
  - vm_compute. reflexivity.
  - exact E.
Defined.
